(** * Hader attendance engine (db.js): shallow embedding and properties

    The development follows [src/db.js]: the [HaderDB] class with its
    IndexedDB object stores, and the functions later attached to
    [window.db].  Only the attendance engine is embedded: the student
    directory, the attendance object store, the settings, the classifier
    [calculateAttendanceStatus], the check-in operation [recordAttendance],
    [markAbsent] and the dashboard query [getTodayStats].

    Representation choices.
    - A JavaScript [Date] is its time value: milliseconds since the epoch,
      a [Z].  [toISOString()] of an instant is represented by the instant
      itself (ISO strings of valid dates order as the instants do), and
      the [YYYY-MM-DD] prefix of an ISO string by the UTC day number.
    - The host's time zone is a fixed offset from UTC, in minutes east:
      a host whose offset changes (daylight saving) is outside the
      model.
    - A string is the UTF-8 encoding of the JavaScript string; where the
      source counts UTF-16 code units they are counted from the
      encoding.
    - A Number is a double: the numerals of the settings are read and
      handed to [setHours] with the rounding of doubles.  The quotient
      of milliseconds by a minute in the classifier is computed exactly
      on integers.
    - The database engine is a conforming IndexedDB: an index query whose
      key is not valid throws [DataError].  A valid query on an index is
      a filter over the object store, which is kept as a list in
      ascending primary-key order.
    - A call runs at one instant: every [new Date()] evaluated during one
      call reads the same clock value, held in the world state.
    - Calls run one after the other: the awaited steps of a call are not
      interleaved with those of another call. *)

From Stdlib Require Import ZArith Ascii String.
From stdpp Require Import strings gmap list sorting.
From Equations Require Import Equations.

Local Open Scope Z_scope.

(** ** Numbers *)

Module JsNumber.

(** A Number: [NaN], an infinity, or the finite double [m * 2 ^ e]. *)
Inductive t :=
| NaN
| Infinity (negative : bool)
| Finite (m e : Z).

(** The double nearest to [n / d], for [0 ≤ n] and [0 < d]: IEEE 754
    binary64, round to nearest, ties to the even significand.  The
    quotient is scaled by [2 ^ e] to 53 bits (fewer for a subnormal)
    and rounded there. *)
Definition nearest (n d : Z) : t :=
  if n =? 0 then Finite 0 0
  else
    let scaled e := if 0 <=? e then n / (d * 2 ^ e) else n * 2 ^ (- e) / d in
    let e0 := Z.log2 n - Z.log2 d - 52 in
    let e1 := if scaled e0 <? 2 ^ 52 then e0 - 1 else e0 in
    let e := Z.max e1 (-1074) in
    let N := if 0 <=? e then n else n * 2 ^ (- e) in
    let D := if 0 <=? e then d * 2 ^ e else d in
    let q := N / D in
    let r := N - q * D in
    let q' :=
      if 2 * r <? D then q
      else if D <? 2 * r then q + 1
      else if Z.even q then q else q + 1 in
    if (971 <? e) || ((e =? 971) && (q' =? 2 ^ 53)) then Infinity false
    else Finite q' e.

Definition negate (x : t) : t :=
  match x with
  | NaN => NaN
  | Infinity negative => Infinity (negb negative)
  | Finite m e => Finite (- m) e
  end.

(** The Number for the quotient [n / d], [0 < d]. *)
Definition of_quotient (n d : Z) : t :=
  if 0 <=? n then nearest n d else negate (nearest (- n) d).

(** [x * k] for an integer [k]. *)
Definition times (x : t) (k : Z) : t :=
  match x with
  | Finite m e =>
      if 0 <=? e then of_quotient (m * k * 2 ^ e) 1
      else of_quotient (m * k) (2 ^ (- e))
  | _ => NaN
  end.

(** [ToIntegerOrInfinity] of a finite Number: the fraction is dropped.
    [None] for [NaN] and the infinities. *)
Definition truncate (x : t) : option Z :=
  match x with
  | Finite m e => Some (if 0 <=? e then m * 2 ^ e else Z.quot m (2 ^ (- e)))
  | _ => None
  end.

(** [Math.round] of a finite Number: the nearest integer, halves up. *)
Definition round (x : t) : option Z :=
  match x with
  | Finite m e =>
      Some (if 0 <=? e then m * 2 ^ e
            else (2 * m + 2 ^ (- e)) / 2 ^ (1 - e))
  | _ => None
  end.

(** The Number for an integer, when it is finite: the integer itself up
    to [2 ^ 53], the nearest double beyond. *)
Definition of_Z (z : Z) : option Z :=
  if Z.abs z <=? 2 ^ 53 then Some z else truncate (of_quotient z 1).

End JsNumber.

(** ** Time values *)

Module JsDate.

Definition msPerMinute : Z := 60000.
Definition msPerHour : Z := 3600000.
Definition msPerDay : Z := 86400000.

(** [Day(t)] of ECMA-262: the day number of a time value. *)
Definition Day (t : Z) : Z := t / msPerDay.

(** [LocalTime] and [UTC] of ECMA-262 for a host at a fixed offset. *)
Definition LocalTime (tzOffsetMin t : Z) : Z := t + tzOffsetMin * msPerMinute.
Definition UTC (tzOffsetMin t : Z) : Z := t - tzOffsetMin * msPerMinute.

Definition MakeTime (hour min sec ms : Z) : Z :=
  hour * msPerHour + min * msPerMinute + sec * 1000 + ms.

Definition MakeDate (day time : Z) : Z := day * msPerDay + time.

(** [d.setHours(hour, min, sec, ms)]: same local day, new time of day. *)
Definition setHours (tzOffsetMin t hour min sec ms : Z) : Z :=
  UTC tzOffsetMin
      (MakeDate (Day (LocalTime tzOffsetMin t)) (MakeTime hour min sec ms)).

(** [d.toISOString().split('T')[0]]: the UTC calendar date. *)
Definition dateISO_of (t : Z) : Z := Day t.

(** Time values reach 100,000,000 days either side of the epoch. *)
Definition maxTime : Z := 8640000000000000.

(** [TimeClip]; [None] is [NaN], the time value of an invalid date. *)
Definition TimeClip (t : Z) : option Z :=
  if Z.abs t <=? maxTime then Some t else None.

(** [MakeTime] and [MakeDate] on Numbers, with the arithmetic of doubles
    in the order of ECMA-262; [None] is [NaN]. *)
Definition MakeTimeN (hour min sec ms : JsNumber.t) : option Z :=
  h ← JsNumber.truncate hour;
  m ← JsNumber.truncate min;
  s ← JsNumber.truncate sec;
  milli ← JsNumber.truncate ms;
  hm ← JsNumber.of_Z (h * msPerHour);
  mm ← JsNumber.of_Z (m * msPerMinute);
  t1 ← JsNumber.of_Z (hm + mm);
  sm ← JsNumber.of_Z (s * 1000);
  t2 ← JsNumber.of_Z (t1 + sm);
  JsNumber.of_Z (t2 + milli).

Definition MakeDateN (day : Z) (time : option Z) : option Z :=
  time ← time;
  d ← JsNumber.of_Z (day * msPerDay);
  JsNumber.of_Z (d + time).

(** [d.setHours(hour, min, sec, ms)] with Numbers as arguments: the new
    time value, [None] when the date becomes invalid. *)
Definition setHoursN (tzOffsetMin t : Z) (hour min sec ms : JsNumber.t)
  : option Z :=
  date ← MakeDateN (Day (LocalTime tzOffsetMin t)) (MakeTimeN hour min sec ms);
  u ← JsNumber.of_Z (date - tzOffsetMin * msPerMinute);
  TimeClip u.

End JsDate.

(** ** Strings and numbers *)

Module JsString.

(** The bytes of a string. *)
Definition codes (s : string) : list Z :=
  (λ c, Z.of_N (N_of_ascii c)) <$> list_ascii_of_string s.

(** The white space and line terminators of ECMA-262 ([StrWhiteSpaceChar]),
    each as its UTF-8 bytes: TAB, LF, VT, FF, CR, SP, U+00A0, U+1680,
    U+2000 to U+200A, U+2028, U+2029, U+202F, U+205F, U+3000, U+FEFF. *)
Definition white_space : list (list Z) :=
  [[9]; [10]; [11]; [12]; [13]; [32]; [194; 160]; [225; 154; 128]]
  ++ ((λ b, [226; 128; b]) <$> seqZ 128 11)
  ++ [[226; 128; 168]; [226; 128; 169]; [226; 128; 175]; [226; 129; 159];
      [227; 128; 128]; [239; 187; 191]].

(** [l] without the prefix [p]. *)
Fixpoint without_prefix (p l : list Z) : option (list Z) :=
  match p, l with
  | [], _ => Some l
  | a :: p', b :: l' => if a =? b then without_prefix p' l' else None
  | _ :: _, [] => None
  end.

(** [l] without one of the prefixes [ps], the first that fits. *)
Fixpoint without_one_of (ps : list (list Z)) (l : list Z) : option (list Z) :=
  match ps with
  | [] => None
  | p :: ps' =>
      match without_prefix p l with
      | Some l' => Some l'
      | None => without_one_of ps' l
      end
  end.

Fixpoint trim_start_from (ps : list (list Z)) (fuel : nat) (l : list Z)
  : list Z :=
  match fuel with
  | O => l
  | S fuel' =>
      match without_one_of ps l with
      | Some l' => trim_start_from ps fuel' l'
      | None => l
      end
  end.

(** The text between leading and trailing white space. *)
Definition trim (l : list Z) : list Z :=
  let l := trim_start_from white_space (length l) l in
  let r := reverse l in
  reverse (trim_start_from (reverse <$> white_space) (length r) r).

(** The value of a digit in a base up to 16. *)
Definition digit_in (base c : Z) : option Z :=
  let d :=
    if (48 <=? c) && (c <=? 57) then c - 48
    else if (65 <=? c) && (c <=? 70) then c - 55
    else if (97 <=? c) && (c <=? 102) then c - 87
    else 16 in
  if d <? base then Some d else None.

(** The digits at the head of [l]: their value after [acc], how many
    they are, and the rest of [l]. *)
Fixpoint take_digits (base acc count : Z) (l : list Z) : Z * Z * list Z :=
  match l with
  | [] => (acc, count, [])
  | c :: l' =>
      match digit_in base c with
      | Some d => take_digits base (acc * base + d) (count + 1) l'
      | None => (acc, count, l)
      end
  end.

(** A literal that is digits of one base and nothing else. *)
Definition integer_literal (base : Z) (l : list Z) : JsNumber.t :=
  match take_digits base 0 0 l with
  | (v, count, []) =>
      if 0 <? count then JsNumber.of_quotient v 1 else JsNumber.NaN
  | _ => JsNumber.NaN
  end.

(** [ExponentPart] at the end of a literal: the exponent, [None] when the
    text is not an exponent part; no text is the exponent 0. *)
Definition exponent_part (l : list Z) : option Z :=
  match l with
  | [] => Some 0
  | c :: l' =>
      if (c =? 101) || (c =? 69) then
        let '(negative, digits) :=
          match l' with
          | 43 :: l'' => (false, l'')
          | 45 :: l'' => (true, l'')
          | _ => (false, l')
          end in
        match take_digits 10 0 0 digits with
        | (v, count, []) =>
            if 0 <? count then Some (if negative then - v else v) else None
        | _ => None
        end
      else None
  end.

(** [StrUnsignedDecimalLiteral]: [Infinity], or digits with an optional
    fraction and an optional exponent, at least one digit before the
    exponent.  A literal of more than 20 significant digits is read
    exactly, which ECMA-262 allows. *)
Definition unsigned_decimal_literal (l : list Z) : JsNumber.t :=
  if bool_decide (l = codes "Infinity") then JsNumber.Infinity false
  else
    let '(int, n_int, rest) := take_digits 10 0 0 l in
    let '(mantissa, n_fraction, rest) :=
      match rest with
      | 46 :: rest' =>
          let '(m, n, rest'') := take_digits 10 int 0 rest' in (m, n, rest'')
      | _ => (int, 0, rest)
      end in
    if 0 <? n_int + n_fraction then
      match exponent_part rest with
      | Some x =>
          let x := x - n_fraction in
          if 0 <=? x then JsNumber.of_quotient (mantissa * 10 ^ x) 1
          else JsNumber.of_quotient mantissa (10 ^ (- x))
      | None => JsNumber.NaN
      end
    else JsNumber.NaN.

(** [StrNumericLiteral] *)
Definition numeric_literal (l : list Z) : JsNumber.t :=
  match l with
  | 48 :: 120 :: l' | 48 :: 88 :: l' => integer_literal 16 l'
  | 48 :: 111 :: l' | 48 :: 79 :: l' => integer_literal 8 l'
  | 48 :: 98 :: l' | 48 :: 66 :: l' => integer_literal 2 l'
  | 43 :: l' => unsigned_decimal_literal l'
  | 45 :: l' => JsNumber.negate (unsigned_decimal_literal l')
  | _ => unsigned_decimal_literal l
  end.

(** [Number(s)] for a string ([StringToNumber]): white space around the
    literal is dropped, the empty text is 0, text that is no numeric
    literal is [NaN]. *)
Definition Number (s : string) : JsNumber.t :=
  match trim (codes s) with
  | [] => JsNumber.Finite 0 0
  | l => numeric_literal l
  end.

(** [s.split(sep)] for a one-character separator. *)
Fixpoint split (sep : ascii) (s : string) : list string :=
  match s with
  | EmptyString => [EmptyString]
  | String c s' =>
      match split sep s' with
      | [] => [EmptyString]
      | hd :: tl =>
          if Ascii.eqb c sep then EmptyString :: hd :: tl
          else String c hd :: tl
      end
  end.

End JsString.

(** ** Data model *)

Inductive Status := present | late | absent.

#[global] Instance Status_eq_dec : EqDecision Status.
Proof. solve_decision. Defined.

(** Result of the classifier: [{ actualStatus, calculatedLateMinutes }]. *)
Record Classification := {
  actualStatus : Status;
  calculatedLateMinutes : Z;
}.

(** The [workStart] date of [calculateAttendanceStatus]: the work start
    time on the local day of [currentTime].  A part that the text does
    not have is [undefined], which [setHours] reads as [NaN].  [None] is
    an invalid date. *)
Definition workStart_of (tzOffsetMin : Z) (currentTime : Z)
    (workStartTime : string) : option Z :=
  let parts := JsString.Number <$> JsString.split ":" workStartTime in
  let workHour := default JsNumber.NaN (parts !! 0%nat) in
  let workMinute := default JsNumber.NaN (parts !! 1%nat) in
  JsDate.setHoursN tzOffsetMin currentTime workHour workMinute
    (JsNumber.Finite 0 0) (JsNumber.Finite 0 0).

(** [calculateAttendanceStatus(currentTime, workStartTime, lateThresholdMin)].
    [diffMinutes] is kept in milliseconds; it is [NaN] ([None]) when the
    work start date is invalid, and then no comparison succeeds. *)
Definition calculateAttendanceStatus (tzOffsetMin : Z)
    (currentTime : Z) (workStartTime : string) (lateThresholdMin : Z)
  : Classification :=
  let workStart := workStart_of tzOffsetMin currentTime workStartTime in
  let diffMs := (λ ws, Z.max 0 (currentTime - ws)) <$> workStart in
  match diffMs with
  | Some d =>
      if lateThresholdMin * JsDate.msPerMinute <? d
      then {| actualStatus := late;
              calculatedLateMinutes :=
                (2 * d + JsDate.msPerMinute) / (2 * JsDate.msPerMinute) |}
      else {| actualStatus := present; calculatedLateMinutes := 0 |}
  | None => {| actualStatus := present; calculatedLateMinutes := 0 |}
  end.

(** JavaScript's [a || b] on numbers and on strings. *)
Definition num_or (a b : Z) : Z := if a =? 0 then b else a.
Definition str_or (a b : string) : string :=
  if String.eqb a EmptyString then b else a.

(** A record of the [students] object store (key path [id]). *)
Module Student.
Record t := mk {
  id : string;
  name : string;
  grade : string;
  className : string;
  guardianPhone : string;
  lateDays : Z;
  lateMinutesTotal : Z;
  createdAt : option Z;
  updatedAt : option Z;
}.

(** The [updates] object of [updateStudent]: absent properties are [None]. *)
Record updates := mkUpdates {
  u_id : option string;
  u_name : option string;
  u_grade : option string;
  u_className : option string;
  u_guardianPhone : option string;
  u_lateDays : option Z;
  u_lateMinutesTotal : option Z;
}.

(** [{ ...existing, ...updates }] *)
Definition spread (existing : t) (u : updates) : t :=
  {| id := default (id existing) (u_id u);
     name := default (name existing) (u_name u);
     grade := default (grade existing) (u_grade u);
     className := default (className existing) (u_className u);
     guardianPhone := default (guardianPhone existing) (u_guardianPhone u);
     lateDays := default (lateDays existing) (u_lateDays u);
     lateMinutesTotal := default (lateMinutesTotal existing) (u_lateMinutesTotal u);
     createdAt := createdAt existing;
     updatedAt := updatedAt existing |}.

Definition set_id (v : string) (s : t) : t :=
  mk v (name s) (grade s) (className s) (guardianPhone s) (lateDays s)
     (lateMinutesTotal s) (createdAt s) (updatedAt s).

(** The time stamps written by [put]. *)
Definition stamp (now : Z) (s : t) : t :=
  mk (id s) (name s) (grade s) (className s) (guardianPhone s) (lateDays s)
     (lateMinutesTotal s) (Some (default now (createdAt s))) (Some now).
End Student.

(** A record of the [attendance] object store (key path [id],
    auto-increment).  Properties that some writers leave out are options. *)
Module Attendance.
Record t := mk {
  id : option Z;
  studentId : string;
  dateISO : Z;
  timeISO : Z;
  status : Status;
  lateMinutes : Z;
  sessionId : option Z;
  isRepeat : option bool;
  reason : option string;
  markedBy : option string;
  isManual : option bool;
  createdAt : option Z;
  updatedAt : option Z;
}.

Definition set_id (v : option Z) (r : t) : t :=
  mk v (studentId r) (dateISO r) (timeISO r) (status r) (lateMinutes r)
     (sessionId r) (isRepeat r) (reason r) (markedBy r) (isManual r)
     (createdAt r) (updatedAt r).

Definition set_studentId (v : string) (r : t) : t :=
  mk (id r) v (dateISO r) (timeISO r) (status r) (lateMinutes r)
     (sessionId r) (isRepeat r) (reason r) (markedBy r) (isManual r)
     (createdAt r) (updatedAt r).

(** The time stamps written by [put]. *)
Definition stamp (now : Z) (r : t) : t :=
  mk (id r) (studentId r) (dateISO r) (timeISO r) (status r) (lateMinutes r)
     (sessionId r) (isRepeat r) (reason r) (markedBy r) (isManual r)
     (Some (default now (createdAt r))) (Some now).

(** Primary key of a stored record. *)
Definition key (r : t) : Z := default 0 (id r).
End Attendance.

(** A record of the [sessions] object store, as [addSession] writes it. *)
Module Session.
Record t := mk { id : Z; isActive : bool }.
End Session.

Module Settings.
Record t := mk { workStartHHmm : string; lateThresholdMin : Z }.
End Settings.

(** What [logAudit] serialises with [JSON.stringify]. *)
Inductive AuditPayload :=
| AuditStudent (s : Student.t)
| AuditAttendance (r : Attendance.t).

Module Audit.
Record t := mk {
  user : string;
  action : string;
  entity : string;
  before : option AuditPayload;
  after : option AuditPayload;
  ts : Z;
}.
End Audit.

(** The object stores, the host clock and the host time zone. *)
Record World := mkWorld {
  students : gmap string Student.t;
  attendance : list Attendance.t;
  attendanceKeyGen : Z;
  sessions : list Session.t;
  settings : option Settings.t;
  audit : list Audit.t;
  clock : Z;
  tzOffsetMin : Z;
}.

Definition set_students (v : gmap string Student.t) (w : World) : World :=
  mkWorld v (attendance w) (attendanceKeyGen w) (sessions w) (settings w)
          (audit w) (clock w) (tzOffsetMin w).

Definition set_attendance (v : list Attendance.t) (g : Z) (w : World) : World :=
  mkWorld (students w) v g (sessions w) (settings w)
          (audit w) (clock w) (tzOffsetMin w).

Definition set_audit (v : list Audit.t) (w : World) : World :=
  mkWorld (students w) (attendance w) (attendanceKeyGen w) (sessions w)
          (settings w) v (clock w) (tzOffsetMin w).

Definition set_clock (v : Z) (w : World) : World :=
  mkWorld (students w) (attendance w) (attendanceKeyGen w) (sessions w)
          (settings w) (audit w) v (tzOffsetMin w).

(** ** Computations over the world: state and exceptions *)

Inductive Outcome (A : Type) :=
| Return (v : A) (w : World)
| Throw (message : string) (w : World).
Arguments Return {A} v w.
Arguments Throw {A} message w.

Definition M (A : Type) : Type := World → Outcome A.

Definition ret {A} (v : A) : M A := λ w, Return v w.
Definition throw {A} (message : string) : M A := λ w, Throw message w.
Definition bind {A B} (m : M A) (k : A → M B) : M B :=
  λ w, match m w with
       | Return v w' => k v w'
       | Throw e w' => Throw e w'
       end.
Definition gets {A} (f : World → A) : M A := λ w, Return (f w) w.
Definition modify (f : World → World) : M unit := λ w, Return tt (f w).

Notation "'let*' x := m 'in' k" := (bind m (λ x, k))
  (at level 10, x pattern, m at level 100, k at level 200).
Notation "m ;;; k" := (bind m (λ _, k))
  (at level 100, k at level 200, right associativity).

Definition world_of {A} (o : Outcome A) : World :=
  match o with Return _ w => w | Throw _ w => w end.

(** [new Date()] *)
Definition new_Date : M Z := gets clock.

(** ** Object stores *)

(** [store.put(v)] under primary key [k] on a store kept in key order:
    replaces the record with that key, or adds it in its place. *)
Fixpoint store_put (k : Z) (v : Attendance.t) (l : list Attendance.t)
  : list Attendance.t :=
  match l with
  | [] => [v]
  | r :: l' =>
      if Attendance.key r <? k then r :: store_put k v l'
      else if Attendance.key r =? k then v :: l'
      else v :: r :: l'
  end.

(** [put('attendance', data)].  The caller's object receives the time
    stamps; the stored clone also receives the generated key.  The result
    is the key together with the caller's object after the call. *)
Definition put_attendance (data : Attendance.t) : M (Z * Attendance.t) :=
  let* now := new_Date in
  let data := Attendance.stamp now data in
  let* g := gets attendanceKeyGen in
  let* store := gets attendance in
  match Attendance.id data with
  | Some k =>
      modify (set_attendance (store_put k data store) (Z.max g (k + 1))) ;;;
      ret (k, data)
  | None =>
      modify (set_attendance
                (store_put g (Attendance.set_id (Some g) data) store) (g + 1)) ;;;
      ret (g, data)
  end.

(** [put('students', data)] *)
Definition put_students (data : Student.t) : M (string * Student.t) :=
  let* now := new_Date in
  let data := Student.stamp now data in
  let* store := gets students in
  modify (set_students (<[Student.id data := data]> store)) ;;;
  ret (Student.id data, data).

(** [delete('students', key)] *)
Definition delete_students (key : string) : M unit :=
  let* store := gets students in
  modify (set_students (delete key store)).

(** [logAudit(user, action, entity, before, after)]; the audit store only
    grows, and a failure to write it is swallowed by the source. *)
Definition logAudit (user action entity : string)
    (before after : option AuditPayload) : M unit :=
  let* now := new_Date in
  let auditRecord := Audit.mk user action entity before after now in
  let* log := gets audit in
  modify (set_audit (log ++ [auditRecord])).

(** ** Index queries *)

(** [array.sort(compare)], a stable sort; [before x y] holds when
    [compare(x, y) <= 0]. *)
Fixpoint insert_sorted {A} (before : A → A → bool) (x : A) (l : list A)
  : list A :=
  match l with
  | [] => [x]
  | y :: l' =>
      if before x y then x :: y :: l' else y :: insert_sorted before x l'
  end.

Definition js_sort {A} (before : A → A → bool) (l : list A) : list A :=
  foldr (insert_sorted before) [] l.

(** The order of string keys in an index, that of their UTF-16 code
    units, read off the UTF-8 bytes: the bytes compare as they are,
    except that a character beyond U+FFFF (first byte 240 or more) comes
    before the characters from U+E000 (first byte 238 or 239). *)
Definition key_rank (b : Z) : Z :=
  if (238 <=? b) && (b <=? 239) then b + 16
  else if 240 <=? b then b - 2 else b.

Fixpoint codes_leb (a b : list Z) : bool :=
  match a, b with
  | [], _ => true
  | _ :: _, [] => false
  | x :: a', y :: b' =>
      if x <? y then true else if y <? x then false else codes_leb a' b'
  end.

Definition key_leb (a b : string) : bool :=
  codes_leb (key_rank <$> JsString.codes a) (key_rank <$> JsString.codes b).

(** The name of the exception an invalid key raises. *)
Definition msg_DataError : string := "DataError".

(** A value passed to [getAll] as [query]. *)
Inductive Query :=
| QueryString (s : string)
| QueryBoolean (b : bool).

(** The test of [query ? source.getAll(query) : source.getAll()]. *)
Definition Query_truthy (query : Query) : bool :=
  match query with
  | QueryString s => negb (String.eqb s EmptyString)
  | QueryBoolean b => b
  end.

(** [getAll(storeName, indexName, query)] on an index with string keys:
    [records] holds the records that have the indexed property, in the
    order of the store, and [key] reads the property.  A query that is
    not truthy reads the whole index, in the order of the keys.  A truthy
    query goes to [IDBIndex.getAll], which throws [DataError] when the
    value is not a valid key; a boolean is not. *)
Definition getAll_index {A} (records : World → list A) (key : A → string)
    (query : Query) : M (list A) :=
  if Query_truthy query then
    match query with
    | QueryString s => gets (λ w, filter (λ r, key r = s) (records w))
    | QueryBoolean _ => throw msg_DataError
    end
  else gets (λ w, js_sort (λ x y, key_leb (key x) (key y)) (records w)).

(** ** Student directory *)

Definition msg_student_not_found : string := "الطالب غير موجود".
Definition msg_student_id_taken : string := "رقم الطالب الجديد موجود مسبقاً".
Definition msg_attendance_exists : string := "سجل الحضور موجود مسبقاً".
Definition name_unspecified : string := "غير محدد".

Definition getStudent (id : string) : M (option Student.t) :=
  gets (λ w, students w !! id).

Definition getAllStudents : M (list Student.t) :=
  gets (λ w, snd <$> map_to_list (students w)).

(** [for (const record of records) await put(...)] *)
Fixpoint for_each {A} (l : list A) (body : A → M unit) : M unit :=
  match l with
  | [] => ret tt
  | x :: l' => body x ;;; for_each l' body
  end.

Definition transferStudentData (oldId newId : string) : M unit :=
  let* attendanceRecords :=
    getAll_index attendance Attendance.studentId (QueryString oldId) in
  for_each attendanceRecords (λ record,
    let updated := Attendance.set_studentId newId record in
    put_attendance updated ;;; ret tt).

(** [updates.id && updates.id !== id] *)
Definition id_changes (id : string) (u : Student.updates) : option string :=
  match Student.u_id u with
  | Some newId =>
      if String.eqb newId EmptyString then None
      else if String.eqb newId id then None else Some newId
  | None => None
  end.

Definition updateStudent (id : string) (updates : Student.updates)
  : M (string * Student.t) :=
  let* existing := getStudent id in
  match existing with
  | None => throw msg_student_not_found
  | Some existing =>
      (match id_changes id updates with
       | Some newId =>
           let* existingWithNewId := getStudent newId in
           match existingWithNewId with
           | Some _ => throw msg_student_id_taken
           | None => ret tt
           end
       | None => ret tt
       end) ;;;
      let updated := Student.spread existing updates in
      (match id_changes id updates with
       | Some newId =>
           transferStudentData id newId ;;;
           delete_students id
       | None => ret tt
       end) ;;;
      logAudit "system" "UPDATE_STUDENT" "students"
               (Some (AuditStudent existing)) (Some (AuditStudent updated)) ;;;
      put_students updated
  end.

(** ** Settings and sessions *)

Definition getDefaultSettings : Settings.t := Settings.mk "07:00" 15.

Definition getSettings : M Settings.t :=
  gets (λ w, default getDefaultSettings (settings w)).

(** The [active] index of the [sessions] store.  A record is in an index
    only when its indexed property is a valid key; the sessions this
    program stores have no property [active], so the index is empty. *)
Definition sessions_by_active (w : World) : list Session.t := [].

(** [getCurrentSessionId()]: [getAll('sessions', 'active', true)]. *)
Definition getCurrentSessionId : M (option Z) :=
  let* activeSessions :=
    getAll_index sessions_by_active (λ _, EmptyString) (QueryBoolean true) in
  ret (Session.id <$> head activeSessions).

(** ** Attendance *)

(** Records of one student on one date (index [studentDate]). *)
Definition same_student_date (studentId : string) (dateISO : Z)
    (r : Attendance.t) : Prop :=
  Attendance.studentId r = studentId ∧ Attendance.dateISO r = dateISO.

#[global] Instance same_student_date_dec s d r : Decision (same_student_date s d r).
Proof. unfold same_student_date. apply _. Defined.

Definition getTodayAttendance (studentId : string) : M (option Attendance.t) :=
  let* now := new_Date in
  let today := JsDate.dateISO_of now in
  let* attendanceRecords :=
    gets (λ w, filter (same_student_date studentId today) (attendance w)) in
  ret (head attendanceRecords).

Definition getDayAttendance (dateISO : Z) : M (list Attendance.t) :=
  gets (λ w, filter (λ r, Attendance.dateISO r = dateISO) (attendance w)).

(** The value [recordAttendance] resolves to: [{ record, isRepeat, student }]. *)
Record CheckIn := {
  record : Attendance.t;
  isRepeat : bool;
  student : Student.t;
}.

(** [recordAttendance(studentId, status = 'present', lateMinutes = 0)] *)
Definition recordAttendance (studentId : string) (status : string)
    (lateMinutes : Z) : M CheckIn :=
  let* now := new_Date in
  let dateISO := JsDate.dateISO_of now in
  let timeISO := now in
  let* student := getStudent studentId in
  match student with
  | None => throw msg_student_not_found
  | Some student =>
      let* settings := getSettings in
      let workStartTime := str_or (Settings.workStartHHmm settings) "07:00" in
      let lateThresholdMin := num_or (Settings.lateThresholdMin settings) 15 in
      let* tz := gets tzOffsetMin in
      let c := calculateAttendanceStatus tz now workStartTime lateThresholdMin in
      let* existingRecord := getTodayAttendance studentId in
      match existingRecord with
      | Some existingRecord =>
          let updated :=
            Attendance.mk
              (Attendance.id existingRecord)
              (Attendance.studentId existingRecord)
              (Attendance.dateISO existingRecord)
              timeISO
              (if decide (actualStatus c = late) then late
               else Attendance.status existingRecord)
              (Z.max (Attendance.lateMinutes existingRecord)
                     (calculatedLateMinutes c))
              (Attendance.sessionId existingRecord)
              (Some true)
              (Attendance.reason existingRecord)
              (Attendance.markedBy existingRecord)
              (Attendance.isManual existingRecord)
              (Attendance.createdAt existingRecord)
              (Some timeISO) in
          let* (_, updated) := put_attendance updated in
          logAudit "system" "UPDATE_ATTENDANCE" "attendance"
                   (Some (AuditAttendance existingRecord))
                   (Some (AuditAttendance updated)) ;;;
          ret {| record := updated; isRepeat := true; student := student |}
      | None =>
          let* sessionId := getCurrentSessionId in
          let attendanceRecord :=
            Attendance.mk None studentId dateISO timeISO
              (actualStatus c) (calculatedLateMinutes c) sessionId
              (Some false) None None None None None in
          let* (recordId, attendanceRecord) := put_attendance attendanceRecord in
          let attendanceRecord := Attendance.set_id (Some recordId) attendanceRecord in
          (if decide (actualStatus c = late ∧ calculatedLateMinutes c > 0) then
             let currentLateDays := num_or (Student.lateDays student) 0 in
             let currentLateMinutesTotal := num_or (Student.lateMinutesTotal student) 0 in
             updateStudent studentId
               (Student.mkUpdates None None None None None
                  (Some (currentLateDays + 1))
                  (Some (currentLateMinutesTotal + calculatedLateMinutes c))) ;;;
             ret tt
           else ret tt) ;;;
          logAudit "system" "CREATE_ATTENDANCE" "attendance"
                   None (Some (AuditAttendance attendanceRecord)) ;;;
          ret {| record := attendanceRecord; isRepeat := false; student := student |}
      end
  end.

(** The value [markAbsent] resolves to:
    [{ success: false, message }] or [{ success: true, data }]. *)
Inductive MarkResult :=
| Failure (message : string)
| Success (data : Attendance.t).

(** [markAbsent(studentId, dateISO, sessionId = null, reason = '')] *)
Definition markAbsent (studentId : string) (dateISO : Z)
    (sessionId : option Z) (reason : string) : M MarkResult :=
  let* records := gets attendance in
  let existing :=
    List.find (λ r, bool_decide (same_student_date studentId dateISO r)) records in
  match existing with
  | Some _ => ret (Failure msg_attendance_exists)
  | None =>
      let* now := new_Date in
      let absentRecord :=
        Attendance.mk None studentId dateISO now absent 0 sessionId
          None (Some reason) (Some "admin") (Some true) None None in
      let* (recordId, absentRecord) := put_attendance absentRecord in
      let absentRecord := Attendance.set_id (Some recordId) absentRecord in
      logAudit "admin" "MARK_ABSENT" "attendance"
               None (Some (AuditAttendance absentRecord)) ;;;
      ret (Success absentRecord)
  end.

(** ** Daily statistics *)

(** [records.sort((a, b) => a.timeISO.localeCompare(b.timeISO))]: a stable
    sort by check-in time. *)
Fixpoint insert_by_time (x : Attendance.t) (l : list Attendance.t)
  : list Attendance.t :=
  match l with
  | [] => [x]
  | y :: l' =>
      if Attendance.timeISO x <=? Attendance.timeISO y then x :: y :: l'
      else y :: insert_by_time x l'
  end.

Definition sort_by_time (l : list Attendance.t) : list Attendance.t :=
  foldr insert_by_time [] l.

(** [{ name, time }] of the dashboard; [time] stands for the formatted
    check-in time. *)
Record StudentTime := {
  st_name : string;
  st_time : Z;
}.

Record TodayStats := {
  presentCount : Z;
  lateCount : Z;
  absentCount : Z;
  attendanceRatio : Z;
  firstStudent : option StudentTime;
  lastStudent : option StudentTime;
  totalStudents : Z;
}.

(** [Math.round((totalPresent / n) * 100)] for [0 < n], on doubles: the
    quotient is rounded to a double, then the product, then
    [Math.round] takes the nearest integer. *)
Definition percent_round (totalPresent n : Z) : Z :=
  default 0 (JsNumber.round
               (JsNumber.times (JsNumber.of_quotient totalPresent n) 100)).

(** [{ name: student?.name || 'غير محدد', time: ... }] *)
Definition student_time (r : Attendance.t) : M StudentTime :=
  let* student := getStudent (Attendance.studentId r) in
  ret {| st_name :=
           match student with
           | Some s => str_or (Student.name s) name_unspecified
           | None => name_unspecified
           end;
         st_time := Attendance.timeISO r |}.

(** [getTodayStats()] *)
Definition getTodayStats : M TodayStats :=
  let* now := new_Date in
  let today := JsDate.dateISO_of now in
  let* todayAttendance := getDayAttendance today in
  let* allStudents := getAllStudents in
  let presentCount :=
    Z.of_nat (length (filter (λ a, Attendance.status a = present) todayAttendance)) in
  let lateCount :=
    Z.of_nat (length (filter (λ a, Attendance.status a = late) todayAttendance)) in
  let totalPresent := presentCount + lateCount in
  let n := Z.of_nat (length allStudents) in
  let absentCount := n - totalPresent in
  let attendanceRatio :=
    if 0 <? n then percent_round totalPresent n else 0 in
  let sortedAttendance := sort_by_time todayAttendance in
  let firstStudentRecord := head sortedAttendance in
  let lastStudentRecord := last sortedAttendance in
  let* firstStudent :=
    match firstStudentRecord with
    | Some r => let* s := student_time r in ret (Some s)
    | None => ret None
    end in
  let* lastStudent :=
    match lastStudentRecord with
    | Some r =>
        if decide (Attendance.id r ≠ (firstStudentRecord ≫= Attendance.id))
        then let* s := student_time r in ret (Some s)
        else ret None
    | None => ret None
    end in
  ret {| presentCount := presentCount;
         lateCount := lateCount;
         absentCount := absentCount;
         attendanceRatio := attendanceRatio;
         firstStudent := firstStudent;
         lastStudent := lastStudent;
         totalStudents := n |}.

(** ** Sequences of check-ins *)

(** One kiosk check-in: the instant at which it runs and the arguments
    passed to [recordAttendance]. *)
Record CheckInCall := {
  call_time : Z;
  call_studentId : string;
  call_status : string;
  call_lateMinutes : Z;
}.

Definition run_call (c : CheckInCall) (w : World) : Outcome CheckIn :=
  recordAttendance (call_studentId c) (call_status c) (call_lateMinutes c)
                   (set_clock (call_time c) w).

(** The calls run one after the other; a call that throws leaves the
    world as it was when it threw. *)
Definition run_calls (cs : list CheckInCall) (w : World) : World :=
  foldl (λ w c, world_of (run_call c w)) w cs.

(** ** Invariants of the attendance store *)

Definition records_for (studentId : string) (dateISO : Z) (w : World)
  : list Attendance.t :=
  filter (same_student_date studentId dateISO) (attendance w).

(** At most one record for every student and date. *)
Definition one_per_day (w : World) : Prop :=
  ∀ studentId dateISO, (length (records_for studentId dateISO w) ≤ 1)%nat.

(** Keys of the store: present, strictly ascending from [lo], and below
    the key generator [g] (IndexedDB generators start at 1). *)
Fixpoint keys_ascending (lo : Z) (l : list Attendance.t) (g : Z) : bool :=
  match l with
  | [] => lo <=? g
  | r :: l' =>
      match Attendance.id r with
      | Some k => (lo <=? k) && keys_ascending (k + 1) l' g
      | None => false
      end
  end.

Definition wf_store (w : World) : Prop :=
  keys_ascending 1 (attendance w) (attendanceKeyGen w) = true.

Definition lateDays_of (studentId : string) (w : World) : Z :=
  from_option Student.lateDays 0 (students w !! studentId).

Definition lateMinutesTotal_of (studentId : string) (w : World) : Z :=
  from_option Student.lateMinutesTotal 0 (students w !! studentId).

(** The calendar date of an instant on the host: its local date. *)
Definition local_date (tzOffsetMin t : Z) : Z :=
  JsDate.Day (JsDate.LocalTime tzOffsetMin t).

(** An everyday host and clock: the offset from UTC is at most a day and
    the instant lies two days or more inside the range of time values. *)
Definition ordinary (tzOffsetMin t : Z) : Prop :=
  Z.abs tzOffsetMin ≤ 1440 ∧ Z.abs t ≤ JsDate.maxTime - 2 * JsDate.msPerDay.

(** The threshold [recordAttendance] passes to the classifier. *)
Definition effective_threshold (w : World) : Z :=
  num_or (Settings.lateThresholdMin (default getDefaultSettings (settings w))) 15.

Definition effective_workStart (w : World) : string :=
  str_or (Settings.workStartHHmm (default getDefaultSettings (settings w))) "07:00".

(** The classification [recordAttendance] computes in world [w]. *)
Definition classify_now (w : World) : Classification :=
  calculateAttendanceStatus (tzOffsetMin w) (clock w)
    (effective_workStart w) (effective_threshold w).

(** The record a repeat check-in stores in place of [e]. *)
Definition repeat_record (w : World) (e : Attendance.t) : Attendance.t :=
  let c := classify_now w in
  Attendance.mk (Attendance.id e) (Attendance.studentId e) (Attendance.dateISO e)
    (clock w)
    (if decide (actualStatus c = late) then late else Attendance.status e)
    (Z.max (Attendance.lateMinutes e) (calculatedLateMinutes c))
    (Attendance.sessionId e) (Some true) (Attendance.reason e)
    (Attendance.markedBy e) (Attendance.isManual e)
    (Some (default (clock w) (Attendance.createdAt e))) (Some (clock w)).

(** The record [markAbsent] stores. *)
Definition absent_record (w : World) (studentId : string) (dateISO : Z)
    (sessionId : option Z) (reason : string) : Attendance.t :=
  Attendance.mk (Some (attendanceKeyGen w)) studentId dateISO (clock w)
    absent 0 sessionId None (Some reason) (Some "admin") (Some true)
    (Some (clock w)) (Some (clock w)).

(** Key path [id] of the [students] store: a student is stored under
    its own [id]. *)
Definition wf_directory (w : World) : Prop :=
  map_Forall (λ k s, Student.id s = k) (students w).

(** The audit entry of a repeat check-in. *)
Definition audit_update_attendance (w : World) (e : Attendance.t) : Audit.t :=
  Audit.mk "system" "UPDATE_ATTENDANCE" "attendance"
    (Some (AuditAttendance e)) (Some (AuditAttendance (repeat_record w e)))
    (clock w).

(** What a check-in leaves untouched. *)
Definition same_env (w w' : World) : Prop :=
  settings w' = settings w ∧ sessions w' = sessions w ∧
  clock w' = clock w ∧ tzOffsetMin w' = tzOffsetMin w.

(** The three ways a check-in of [studentId] can go in world [w]: the
    student is unknown; the student has a record today, which is
    rewritten; the student has none, and the session query throws before
    anything is written. *)
Inductive checkin_effect (w : World) (studentId : string)
  : Outcome CheckIn → Prop :=
| effect_unknown :
    students w !! studentId = None →
    checkin_effect w studentId (Throw msg_student_not_found w)
| effect_repeat s e l1 l2 w' :
    students w !! studentId = Some s →
    head (records_for studentId (JsDate.dateISO_of (clock w)) w) = Some e →
    attendance w = l1 ++ e :: l2 →
    attendance w' = l1 ++ repeat_record w e :: l2 →
    attendanceKeyGen w' = attendanceKeyGen w →
    students w' = students w →
    same_env w w' →
    checkin_effect w studentId
      (Return {| record := repeat_record w e; isRepeat := true; student := s |} w')
| effect_first s :
    students w !! studentId = Some s →
    records_for studentId (JsDate.dateISO_of (clock w)) w = [] →
    checkin_effect w studentId (Throw msg_DataError w).

(** The invariants every operation maintains. *)
Record Inv (w : World) : Prop := {
  inv_store : wf_store w;
  inv_directory : wf_directory w;
  inv_one_per_day : one_per_day w;
}.

(** Records of one date (index [dateISO]). *)
Definition records_on (dateISO : Z) (w : World) : list Attendance.t :=
  filter (λ r, Attendance.dateISO r = dateISO) (attendance w).

(** The dashboard entry of a record. *)
Definition entry_of (w : World) (r : Attendance.t) : StudentTime :=
  {| st_name :=
       match students w !! Attendance.studentId r with
       | Some s => str_or (Student.name s) name_unspecified
       | None => name_unspecified
       end;
     st_time := Attendance.timeISO r |}.

(** ** A school morning

    Concrete data for the examples: three students, work start 07:00,
    threshold 15 minutes, a host three hours east of UTC, and check-ins
    on UTC day 20000.  A first check-in stores nothing, so the records
    of the morning come from the office, which marks students absent at
    06:00; the check-ins at the kiosk then rewrite those records. *)

Definition student_S1 : Student.t :=
  Student.mk "S1" "Student One" "10" "A" "0501234567" 0 0 None None.
Definition student_S2 : Student.t :=
  Student.mk "S2" "Student Two" "10" "A" "0509876543" 0 0 None None.
Definition student_S3 : Student.t :=
  Student.mk "S3" "Student Three" "10" "B" "0507654321" 0 0 None None.

Definition morning_world : World :=
  mkWorld (<["S1" := student_S1]> (<["S2" := student_S2]>
             (<["S3" := student_S3]> ∅)))
          [] 1 [] (Some (Settings.mk "07:00" 15)) [] 0 180.

(** The instant at which a clock three hours east of UTC shows [h:m]
    on the morning of the examples. *)
Definition local_instant (h m : Z) : Z :=
  JsDate.UTC 180 (JsDate.MakeDate 20000 (JsDate.MakeTime h m 0 0)).

Definition checkin_S1_0710 : CheckInCall :=
  {| call_time := local_instant 7 10; call_studentId := "S1";
     call_status := "present"; call_lateMinutes := 0 |}.
Definition checkin_S2_0720 : CheckInCall :=
  {| call_time := local_instant 7 20; call_studentId := "S2";
     call_status := "present"; call_lateMinutes := 0 |}.
Definition checkin_S2_0735 : CheckInCall :=
  {| call_time := local_instant 7 35; call_studentId := "S2";
     call_status := "present"; call_lateMinutes := 0 |}.
Definition checkin_S2_0735_forged : CheckInCall :=
  {| call_time := local_instant 7 35; call_studentId := "S2";
     call_status := "absent"; call_lateMinutes := 90 |}.

(** A check-in of S2 at 01:30 in the night after the morning: the local
    date is the next day, the UTC date still that of the morning. *)
Definition checkin_S2_next_night : CheckInCall :=
  {| call_time := local_instant 25 30; call_studentId := "S2";
     call_status := "present"; call_lateMinutes := 0 |}.

(** The office marks [studentId] absent for the day at instant [t]. *)
Definition marked_absent (t : Z) (studentId : string) (w : World) : World :=
  world_of (markAbsent studentId 20000 None "" (set_clock t w)).

(** The mornings on which S2, S1, or both were marked absent at 06:00. *)
Definition roll_S2 : World := marked_absent (local_instant 6 0) "S2" morning_world.
Definition roll_S1 : World := marked_absent (local_instant 6 0) "S1" morning_world.
Definition roll_S1_S2 : World := marked_absent (local_instant 6 0) "S2" roll_S1.

(** The world after the check-in of S2 at 07:20, seen at 07:35. *)
Definition world_0735 : World :=
  set_clock (local_instant 7 35) (world_of (run_call checkin_S2_0720 roll_S2)).

(** The record of S2 as the 07:20 check-in left it. *)
Definition record_S2_0720 : Attendance.t :=
  repeat_record (set_clock (local_instant 7 20) roll_S2)
    (absent_record (set_clock (local_instant 6 0) morning_world) "S2" 20000
       None "").

(** The world after the only check-in of the morning, by S1 at 07:10. *)
Definition world_after_S1 : World :=
  world_of (run_call checkin_S1_0710 roll_S1).

(** * The rest of the attendance engine

    The functions of [db.js] around the check-in: directory maintenance,
    lookup by scanned code, manual absence in bulk, history and summary
    queries, and the dashboard caller of [getTodayStats]. *)

(** [try { v = await m } catch (error) { ... error.message ... }] *)
Definition try_ {A} (m : M A) : M (string + A) :=
  λ w, match m w with
       | Return v w' => Return (inr v) w'
       | Throw message w' => Return (inl message) w'
       end.

(** ** Directory maintenance *)

Definition msg_student_fields_required : string :=
  "جميع البيانات مطلوبة: الرقم، الاسم، الصف، الفصل".
Definition msg_student_id_exists : string := "رقم الطالب موجود مسبقاً".

(** The object handed to [addStudent].  The four required properties are
    strings (an absent one is as falsy as the empty string); the optional
    ones are [None] when absent. *)
Module StudentInput.
Record t := mk {
  id : string;
  name : string;
  grade : string;
  className : string;
  guardianPhone : option string;
  lateDays : option Z;
  lateMinutesTotal : option Z;
}.
End StudentInput.

(** [!s] on a string. *)
Definition falsy (s : string) : bool := String.eqb s EmptyString.

(** [addStudent(student)].  In [studentData] the spread [...student]
    comes last, so the caller's own properties replace the trimmed copies
    and the defaults written before it; the defaults survive only for the
    properties the caller left out.  The [qrCode] and [barcode]
    properties are not part of [Student.t]. *)
Definition addStudent (student : StudentInput.t) : M (string * Student.t) :=
  if falsy (StudentInput.id student) || falsy (StudentInput.name student)
     || falsy (StudentInput.grade student)
     || falsy (StudentInput.className student)
  then throw msg_student_fields_required
  else
    let* existing := getStudent (StudentInput.id student) in
    match existing with
    | Some _ => throw msg_student_id_exists
    | None =>
        let studentData :=
          Student.mk (StudentInput.id student) (StudentInput.name student)
            (StudentInput.grade student) (StudentInput.className student)
            (default EmptyString (StudentInput.guardianPhone student))
            (default 0 (StudentInput.lateDays student))
            (default 0 (StudentInput.lateMinutesTotal student))
            None None in
        logAudit "system" "CREATE_STUDENT" "students"
                 None (Some (AuditStudent studentData)) ;;;
        put_students studentData
    end.

(** [deleteStudent(id)] *)
Definition deleteStudent (id : string) : M unit :=
  let* existing := getStudent id in
  match existing with
  | Some existing =>
      logAudit "system" "DELETE_STUDENT" "students"
               (Some (AuditStudent existing)) None ;;;
      delete_students id
  | None => ret tt
  end.

(** One entry of the [results] of a bulk operation. *)
Record BulkEntry := {
  entry_id : string;
  entry_success : bool;
  entry_error : option string;
}.

(** [{ results, errors, successCount }] *)
Record BulkOutcome := {
  results : list BulkEntry;
  errors : list (string * string);
  successCount : nat;
}.

Definition bulk_outcome (results : list BulkEntry)
    (errors : list (string * string)) : BulkOutcome :=
  {| results := results; errors := errors;
     successCount := length (filter (λ r, entry_success r = true) results) |}.

(** The loop of [bulkDeleteStudents(ids)]. *)
Fixpoint bulkDeleteStudents_loop (ids : list string)
    (results : list BulkEntry) (errors : list (string * string))
  : M BulkOutcome :=
  match ids with
  | [] => ret (bulk_outcome results errors)
  | id :: ids' =>
      let* r := try_ (deleteStudent id) in
      match r with
      | inr _ =>
          bulkDeleteStudents_loop ids'
            (results ++ [{| entry_id := id; entry_success := true;
                            entry_error := None |}])
            errors
      | inl message =>
          bulkDeleteStudents_loop ids'
            (results ++ [{| entry_id := id; entry_success := false;
                            entry_error := Some message |}])
            (errors ++ [(id, message)])
      end
  end.

Definition bulkDeleteStudents (ids : list string) : M BulkOutcome :=
  bulkDeleteStudents_loop ids [] [].

(** ** Lookup by scanned code *)

Module JsText.

(** [s.startsWith(p)] *)
Fixpoint startsWith (p s : string) : bool :=
  match p, s with
  | EmptyString, _ => true
  | String a p', String b s' => Ascii.eqb a b && startsWith p' s'
  | String _ _, EmptyString => false
  end.

Fixpoint drop (n : nat) (s : string) : string :=
  match n, s with
  | O, _ => s
  | S n', String _ s' => drop n' s'
  | S _, EmptyString => EmptyString
  end.

(** [s.replace(pat, rep)] for a string pattern: the first occurrence. *)
Fixpoint replace_first (pat rep s : string) : string :=
  if startsWith pat s then rep +:+ drop (String.length pat) s
  else match s with
       | EmptyString => EmptyString
       | String c s' => String c (replace_first pat rep s')
       end.

(** [s.replace(/^0+/, '')] *)
Fixpoint strip_leading_zeros (s : string) : string :=
  match s with
  | String c s' => if Ascii.eqb c "0" then strip_leading_zeros s' else s
  | EmptyString => EmptyString
  end.

Fixpoint repeat_char (c : ascii) (n : nat) : string :=
  match n with
  | O => EmptyString
  | S n' => String c (repeat_char c n')
  end.

(** [s.length]: the number of UTF-16 code units, one for a character up
    to U+FFFF and two beyond.  In the UTF-8 bytes a byte from 128 to 191
    continues a character, and a first byte of 240 or more starts one
    beyond U+FFFF. *)
Definition units_started (c : ascii) : nat :=
  let b := Z.of_N (N_of_ascii c) in
  if (128 <=? b) && (b <=? 191) then 0%nat
  else if 240 <=? b then 2%nat else 1%nat.

Fixpoint length16 (s : string) : nat :=
  match s with
  | EmptyString => 0
  | String c s' => (units_started c + length16 s')%nat
  end.

(** [s.padStart(n, c)] for a one-character filler. *)
Definition padStart (n : nat) (c : ascii) (s : string) : string :=
  repeat_char c (n - length16 s) +:+ s.

End JsText.

(** [{ data, format, generated }] *)
Module CodeData.
Record t := mk { data : string; format : string; generated : Z }.
End CodeData.

(** [generateQRData(studentId)] *)
Definition generateQRData (studentId : string) : M CodeData.t :=
  let* now := new_Date in
  ret (CodeData.mk ("HADER:" +:+ studentId) "QR" now).

(** [generateBarcodeData(studentId)] *)
Definition generateBarcodeData (studentId : string) : M CodeData.t :=
  let* now := new_Date in
  ret (CodeData.mk (JsText.padStart 8 "0" studentId) "CODE128" now).

(** The identifier [getStudentByCode] looks up for a scanned code. *)
Definition studentId_of_code (code : string) : string :=
  let studentId :=
    if JsText.startsWith "HADER:" code
    then JsText.replace_first "HADER:" EmptyString code
    else code in
  str_or (JsText.strip_leading_zeros studentId) "0".

(** [getStudentByCode(code)] *)
Definition getStudentByCode (code : string) : M (option Student.t) :=
  getStudent (studentId_of_code code).

(** ** Manual absence in bulk *)

(** The loop of [bulkMarkAbsent]: each result carries its [studentId]. *)
Fixpoint bulkMarkAbsent_loop (studentIds : list string) (dateISO : Z)
    (sessionId : option Z) (reason : string)
    (results : list (MarkResult * string)) : M (list (MarkResult * string)) :=
  match studentIds with
  | [] => ret results
  | studentId :: studentIds' =>
      let* r := try_ (markAbsent studentId dateISO sessionId reason) in
      let entry :=
        match r with
        | inr result => (result, studentId)
        | inl message => (Failure message, studentId)
        end in
      bulkMarkAbsent_loop studentIds' dateISO sessionId reason (results ++ [entry])
  end.

(** [bulkMarkAbsent(studentIds, dateISO, sessionId = null, reason = '')] *)
Definition bulkMarkAbsent (studentIds : list string) (dateISO : Z)
    (sessionId : option Z) (reason : string) : M (list (MarkResult * string)) :=
  bulkMarkAbsent_loop studentIds dateISO sessionId reason [].

(** ** Sorting and slicing arrays *)


(** ** History and range queries *)




(** The [filters] of [getAttendanceByDateRange].  The [classId] filter
    reads the classes store, which this development does not embed: the
    record has no such property, that is, [filters.classId] is undefined. *)
Module Filters.
Record t := mk {
  studentId : option string;
  grade : option string;
  status : option Status;
  sessionId : option Z;
}.
End Filters.


(** [current.setDate(current.getDate() + 1)]: the next local day at the
    same local time of day, on a host at a fixed offset. *)
Definition next_day (tz t : Z) : Z :=
  let local := JsDate.LocalTime tz t in
  JsDate.UTC tz
    (JsDate.MakeDate (JsDate.Day local + 1) (local mod JsDate.msPerDay)).

(** The loop of [getDateRange]: [while (current <= end)], pushing the
    UTC date of [current] and moving it one local day on.  When that
    leaves the range of time values, [current] is an invalid date, which
    is not [<= end]; otherwise [current] is that time value. *)
Equations getDateRange_loop (tz current end_ : Z) (dates : list Z)
  : list Z by wf (Z.to_nat (end_ + 1 - current)) lt :=
  getDateRange_loop tz current end_ dates
    with decide (current ≤ end_) := {
    | left _ with JsDate.TimeClip (next_day tz current) := {
      | Some _ =>
          getDateRange_loop tz (next_day tz current) end_
            (dates ++ [JsDate.dateISO_of current])
      | None => dates ++ [JsDate.dateISO_of current] }
    | right _ => dates }.
Next Obligation.
  unfold next_day, JsDate.UTC, JsDate.MakeDate, JsDate.Day, JsDate.LocalTime,
    JsDate.msPerDay.
  pose proof (Z.div_mod (current + tz * JsDate.msPerMinute) 86400000).
  lia.
Qed.

(** [getDateRange(startDate, endDate)]: [new Date(date)] of a date is
    its midnight in UTC, or an invalid date when that is outside the
    range of time values; an invalid date is not [<=] any date, nor is
    any date [<=] it. *)
Definition getDateRange (tz startDate endDate : Z) : list Z :=
  match JsDate.TimeClip (startDate * JsDate.msPerDay),
        JsDate.TimeClip (endDate * JsDate.msPerDay) with
  | Some current, Some end_ => getDateRange_loop tz current end_ []
  | _, _ => []
  end.

(** ** Attendance summary *)


(** A property name of the [summary] object.  The object is the finite
    map of its own properties. *)
Inductive SummaryKey :=
| KeyStudent (studentId : string)
| KeyDate (dateISO : Z)
| KeySession (sessionId : Z)
| KeyNoSession.

#[global] Instance SummaryKey_eq_dec : EqDecision SummaryKey.
Proof. solve_decision. Defined.

#[global] Instance SummaryKey_countable : Countable SummaryKey.
Proof.
  refine (inj_countable'
    (λ k, match k with
          | KeyStudent s => inl s
          | KeyDate d => inr (inl d)
          | KeySession i => inr (inr (Some i))
          | KeyNoSession => inr (inr None)
          end)
    (λ x, match x with
          | inl s => KeyStudent s
          | inr (inl d) => KeyDate d
          | inr (inr (Some i)) => KeySession i
          | inr (inr None) => KeyNoSession
          end) _).
  by intros [].
Defined.

Module Summary.
Record t := mk {
  total : Z;
  present : Z;
  late : Z;
  absent : Z;
  totalLateMinutes : Z;
}.
End Summary.







(** ** The dashboard's first and last student *)

(** [updateStudentHighlights()]: what the two highlight cards show, the
    first student's and the last student's; [None] in a card is the text
    for "none".  The result is [None] when the statistics query failed
    and the cards were left as they were. *)
Definition updateStudentHighlights
  : M (option (option StudentTime * option StudentTime)) :=
  let* r := try_ getTodayStats in
  match r with
  | inr stats =>
      let firstCard := firstStudent stats in
      let lastCard :=
        match lastStudent stats with
        | Some l => Some l
        | None => firstStudent stats
        end in
      ret (Some (firstCard, lastCard))
  | inl _ => ret None
  end.

(** What [transferStudentData(oldId, newId)] makes of a stored record
    at instant [now]. *)
Definition transfer_record (oldId newId : string) (now : Z)
    (r : Attendance.t) : Attendance.t :=
  if decide (Attendance.studentId r = oldId)
  then Attendance.stamp now (Attendance.set_studentId newId r)
  else r.

(** The attendance facts of a record: everything but its student and its
    time stamps. *)
Definition attendance_facts (r : Attendance.t)
  : option Z * Z * Z * Status * Z * option bool :=
  (Attendance.id r, Attendance.dateISO r, Attendance.timeISO r,
   Attendance.status r, Attendance.lateMinutes r, Attendance.isRepeat r).

(** The id looked up for a code without the QR prefix, or with the prefix
    removed. *)
Definition normal_id (id : string) : string :=
  str_or (JsText.strip_leading_zeros id) "0".

(** The calls of a sequence made by one student on one date. *)
Definition calls_of (studentId : string) (dateISO : Z)
    (cs : list CheckInCall) : list CheckInCall :=
  filter (λ c, call_studentId c = studentId
               ∧ JsDate.dateISO_of (call_time c) = dateISO) cs.

(** The classification of a call under the configuration of [w]. *)
Definition classify_call (w : World) (c : CheckInCall) : Classification :=
  classify_now (set_clock (call_time c) w).

(** The data model's conditions on a record: no negative late minutes,
    and none at all on a present record. *)
Definition record_sane (r : Attendance.t) : Prop :=
  0 ≤ Attendance.lateMinutes r ∧
  (Attendance.status r = present → Attendance.lateMinutes r = 0).

(** The result [bulkMarkAbsent] reports for an id that has a record. *)
Definition refused (studentId : string) : MarkResult * string :=
  (Failure msg_attendance_exists, studentId).

(** [result.success] *)
Definition success (m : MarkResult) : bool :=
  match m with Success _ => true | Failure _ => false end.



(** The late minutes of the late records of a list. *)
Definition late_minutes_sum (l : list Attendance.t) : Z :=
  foldr (λ r acc,
           (if decide (Attendance.status r = late)
            then Attendance.lateMinutes r else 0) + acc) 0 l.

(** An entry of the summary after counting the records [rs] into it. *)
Definition count_entry (e : Summary.t) (rs : list Attendance.t) : Summary.t :=
  Summary.mk
    (Summary.total e + Z.of_nat (length rs))
    (Summary.present e
     + Z.of_nat (length (filter (λ r, Attendance.status r = present) rs)))
    (Summary.late e
     + Z.of_nat (length (filter (λ r, Attendance.status r = late) rs)))
    (Summary.absent e)
    (Summary.totalLateMinutes e + late_minutes_sum rs).


(** ** More of the school morning *)

Definition input_S4 : StudentInput.t :=
  StudentInput.mk "S4" "Student Four" "10" "B" None None None.
Definition input_nameless : StudentInput.t :=
  StudentInput.mk "S5" "" "10" "B" None None None.
Definition input_S1_again : StudentInput.t :=
  StudentInput.mk "S1" "Another One" "11" "C" None None None.

(** The updates [{ lateDays: 3 }] and [{ id: newId }]. *)
Definition updates_lateDays_3 : Student.updates :=
  Student.mkUpdates None None None None None (Some 3) None.
Definition updates_id (newId : string) : Student.updates :=
  Student.mkUpdates (Some newId) None None None None None None.

(** The world after the three check-ins of the morning; its clock shows
    07:35. *)
Definition morning_calls : list CheckInCall :=
  [checkin_S1_0710; checkin_S2_0720; checkin_S2_0735].
Definition world_after_morning : World := run_calls morning_calls roll_S1_S2.

(** The record of S1 marked absent at 06:00. *)
Definition record_S1_absent : Attendance.t :=
  absent_record (set_clock (local_instant 6 0) morning_world) "S1" 20000 None "".

(** The morning at 07:10, S1 marked absent, with the threshold set to 0. *)
Definition zero_threshold_world : World :=
  mkWorld (students roll_S1) (attendance roll_S1) (attendanceKeyGen roll_S1)
          [] (Some (Settings.mk "07:00" 0)) (audit roll_S1)
          (local_instant 7 10) 180.

(** The morning at 09:00, S1 marked absent, with an unreadable work start
    time. *)
Definition unreadable_start_world : World :=
  mkWorld (students roll_S1) (attendance roll_S1) (attendanceKeyGen roll_S1)
          [] (Some (Settings.mk "7h" 15)) (audit roll_S1)
          (local_instant 9 0) 180.


(** * Properties *)

(** ** The ordered object store *)

Section Store.

Implicit Types (l : list Attendance.t) (v e r : Attendance.t) (k g lo : Z).

Lemma keys_ascending_le lo l g :
  keys_ascending lo l g = true → lo ≤ g.
Proof.
  revert lo. induction l as [|r l IH]; intros lo H; simpl in H.
  - lia.
  - destruct (Attendance.id r) as [k|]; [|done].
    apply andb_prop in H as [H1 H2]. apply IH in H2. lia.
Qed.

Lemma keys_ascending_elem lo l g e :
  keys_ascending lo l g = true → e ∈ l →
  ∃ k, Attendance.id e = Some k ∧ lo ≤ k < g.
Proof.
  revert lo. induction l as [|r l IH]; intros lo H Hin.
  - by apply elem_of_nil in Hin.
  - simpl in H. destruct (Attendance.id r) as [kr|] eqn:Hr; [|done].
    apply andb_prop in H as [H1 H2].
    apply elem_of_cons in Hin as [->|Hin].
    + exists kr. split; [done|]. apply keys_ascending_le in H2. lia.
    + destruct (IH _ H2 Hin) as (k & Hk & Hb). exists k. split; [done|lia].
Qed.

Lemma keys_ascending_weaken lo lo' l g :
  lo' ≤ lo → keys_ascending lo l g = true → keys_ascending lo' l g = true.
Proof.
  intros Hle. destruct l as [|r l]; simpl.
  - lia.
  - destruct (Attendance.id r); [|done].
    intros H. apply andb_prop in H as [H1 H2].
    apply andb_true_intro. split; [lia|done].
Qed.

(** A put under the next generated key appends. *)
Lemma store_put_fresh lo l g v :
  keys_ascending lo l g = true → store_put g v l = l ++ [v].
Proof.
  revert lo. induction l as [|r l IH]; intros lo H; simpl in *; [done|].
  destruct (Attendance.id r) as [kr|] eqn:Hr; [|done].
  apply andb_prop in H as [H1 H2].
  pose proof (keys_ascending_le _ _ _ H2).
  unfold Attendance.key. rewrite Hr. simpl.
  destruct (Z.ltb_spec kr g); [|lia].
  by rewrite (IH _ H2).
Qed.

Lemma keys_ascending_snoc lo l g v :
  keys_ascending lo l g = true → Attendance.id v = Some g →
  keys_ascending lo (l ++ [v]) (g + 1) = true.
Proof.
  revert lo. induction l as [|r l IH]; intros lo H Hv; simpl in *.
  - rewrite Hv. apply andb_true_intro. split; lia.
  - destruct (Attendance.id r) as [kr|]; [|done].
    apply andb_prop in H as [H1 H2].
    apply andb_true_intro. split; [done|]. by apply IH.
Qed.

(** A put under the key of a stored record replaces that record. *)
Lemma store_put_replace lo l g e k v :
  keys_ascending lo l g = true → e ∈ l → Attendance.id e = Some k →
  ∃ l1 l2, l = l1 ++ e :: l2 ∧ store_put k v l = l1 ++ v :: l2.
Proof.
  revert lo. induction l as [|r l IH]; intros lo H Hin Hk.
  - by apply elem_of_nil in Hin.
  - simpl in H. destruct (Attendance.id r) as [kr|] eqn:Hr; [|done].
    apply andb_prop in H as [H1 H2].
    simpl. unfold Attendance.key at 1 2. rewrite Hr. simpl.
    apply elem_of_cons in Hin as [->|Hin].
    + assert (kr = k) as -> by congruence.
      rewrite Z.ltb_irrefl, Z.eqb_refl. by exists [], l.
    + destruct (keys_ascending_elem _ _ _ _ H2 Hin) as (k' & Hk' & Hb).
      assert (k' = k) as -> by congruence.
      destruct (Z.ltb_spec kr k); [|lia].
      destruct (IH _ H2 Hin Hk) as (l1 & l2 & -> & ->).
      by exists (r :: l1), l2.
Qed.

Lemma keys_ascending_replace lo l1 e l2 g v :
  keys_ascending lo (l1 ++ e :: l2) g = true →
  Attendance.id v = Attendance.id e →
  keys_ascending lo (l1 ++ v :: l2) g = true.
Proof.
  revert lo. induction l1 as [|r l1 IH]; intros lo H Hv; simpl in *.
  - by rewrite Hv.
  - destruct (Attendance.id r); [|done].
    apply andb_prop in H as [H1 H2].
    apply andb_true_intro. split; [done|]. by apply IH.
Qed.

Lemma filter_replace (P : Attendance.t → Prop) `{∀ x, Decision (P x)}
    l1 e l2 v :
  (P v ↔ P e) →
  length (filter P (l1 ++ v :: l2)) = length (filter P (l1 ++ e :: l2)).
Proof.
  intros Hiff. rewrite !filter_app, !filter_cons, !length_app.
  destruct (decide (P v)), (decide (P e)); simpl; tauto || lia.
Qed.

Lemma filter_nil_head (P : Attendance.t → Prop) `{∀ x, Decision (P x)} l :
  head (filter P l) = None → filter P l = [].
Proof. by destruct (filter P l). Qed.

Lemma head_filter_elem (P : Attendance.t → Prop) `{∀ x, Decision (P x)} l e :
  head (filter P l) = Some e → e ∈ l ∧ P e.
Proof.
  intros Hh. assert (e ∈ filter P l) as Hin.
  { destruct (filter P l); simplify_eq/=. apply elem_of_cons. by left. }
  by apply list_elem_of_filter in Hin as [? ?].
Qed.

End Store.

(** ** Closed forms of the check-in *)

Section CheckIn.

Implicit Types (w : World) (s : Student.t) (e : Attendance.t).

Lemma recordAttendance_unknown w studentId status lateMinutes :
  students w !! studentId = None →
  recordAttendance studentId status lateMinutes w
  = Throw msg_student_not_found w.
Proof.
  intros Hs. unfold recordAttendance, bind, new_Date, getStudent, gets, throw.
  by rewrite Hs.
Qed.

Lemma recordAttendance_repeat w studentId status lateMinutes s e k :
  students w !! studentId = Some s →
  head (records_for studentId (JsDate.dateISO_of (clock w)) w) = Some e →
  Attendance.id e = Some k →
  recordAttendance studentId status lateMinutes w
  = Return {| record := repeat_record w e; isRepeat := true; student := s |}
      (set_audit (audit w ++ [audit_update_attendance w e])
         (set_attendance (store_put k (repeat_record w e) (attendance w))
            (Z.max (attendanceKeyGen w) (k + 1)) w)).
Proof.
  intros Hs He Hk.
  unfold recordAttendance, bind, new_Date, getStudent, getSettings,
    getTodayAttendance, gets, ret. rewrite Hs. simpl.
  unfold records_for in He. rewrite He. simpl.
  unfold put_attendance, bind, new_Date, gets, modify, ret. simpl.
  unfold audit_update_attendance, repeat_record, classify_now,
    effective_workStart, effective_threshold.
  rewrite Hk. reflexivity.
Qed.

(** The session query throws whatever the store holds. *)
Lemma getCurrentSessionId_throws w :
  getCurrentSessionId w = Throw msg_DataError w.
Proof. reflexivity. Qed.

Lemma recordAttendance_first w studentId status lateMinutes s :
  students w !! studentId = Some s →
  head (records_for studentId (JsDate.dateISO_of (clock w)) w) = None →
  recordAttendance studentId status lateMinutes w = Throw msg_DataError w.
Proof.
  intros Hs He.
  unfold recordAttendance, bind, new_Date, getStudent, getSettings,
    getTodayAttendance, gets, ret. rewrite Hs. simpl.
  unfold records_for in He. rewrite He. reflexivity.
Qed.

(** A check-in never writes the directory. *)
Lemma recordAttendance_students w studentId status lateMinutes :
  students (world_of (recordAttendance studentId status lateMinutes w))
  = students w.
Proof.
  unfold recordAttendance, bind, new_Date, getStudent, getSettings,
    getTodayAttendance, gets, ret, throw.
  destruct (students w !! studentId) as [s|]; simpl; [|done].
  destruct (head (filter _ (attendance w))) as [e|]; simpl; [|done].
  unfold put_attendance, bind, new_Date, gets, modify, ret. simpl.
  by destruct (Attendance.id e).
Qed.

End CheckIn.

(** ** The effect of one check-in *)

Section Effect.

Implicit Types (w : World) (s : Student.t) (e : Attendance.t).

Lemma recordAttendance_effect w studentId status lateMinutes :
  wf_store w → wf_directory w →
  checkin_effect w studentId (recordAttendance studentId status lateMinutes w).
Proof.
  intros Hwf Hdir.
  destruct (students w !! studentId) as [s|] eqn:Hs.
  - destruct (head (records_for studentId (JsDate.dateISO_of (clock w)) w))
      as [e|] eqn:He.
    + destruct (head_filter_elem _ _ _ He) as [Hin _].
      destruct (keys_ascending_elem _ _ _ _ Hwf Hin) as (k & Hk & Hb).
      rewrite (recordAttendance_repeat _ _ _ _ _ _ _ Hs He Hk).
      destruct (store_put_replace _ _ _ _ _ (repeat_record w e) Hwf Hin Hk)
        as (l1 & l2 & Hl & Hput).
      eapply effect_repeat with (l1 := l1) (l2 := l2); try done.
      simpl. lia.
    + rewrite (recordAttendance_first _ _ _ _ _ Hs He).
      apply filter_nil_head in He. by eapply effect_first.
  - rewrite (recordAttendance_unknown _ _ _ _ Hs). by constructor.
Qed.

Lemma repeat_record_same_key w e studentId dateISO :
  same_student_date studentId dateISO (repeat_record w e)
  ↔ same_student_date studentId dateISO e.
Proof. done. Qed.

(** Every check-in maintains the invariants. *)
Lemma checkin_effect_inv w studentId o :
  Inv w → checkin_effect w studentId o → Inv (world_of o).
Proof.
  intros [Hwf Hdir Hone] Heff.
  destruct Heff as [Hs | s e l1 l2 w' Hs He Hl Hl' Hg Hst Henv
                       | s Hs He]; simpl.
  - done.
  - split.
    + unfold wf_store in *. rewrite Hl', Hg. rewrite Hl in Hwf.
      by eapply keys_ascending_replace.
    + unfold wf_directory. by rewrite Hst.
    + intros sid d. unfold records_for. rewrite Hl'.
      rewrite (filter_replace _ l1 e l2 (repeat_record w e)) by done.
      rewrite <- Hl. apply Hone.
  - done.
Qed.

End Effect.

(** ** Sequences of check-ins *)

Section Sequences.

Implicit Types (w : World) (c : CheckInCall) (cs : list CheckInCall).

Lemma Inv_set_clock t w : Inv w → Inv (set_clock t w).
Proof. by intros [? ? ?]. Qed.

Lemma run_call_effect c w :
  Inv w →
  checkin_effect (set_clock (call_time c) w) (call_studentId c) (run_call c w).
Proof.
  intros HI. apply (Inv_set_clock (call_time c)) in HI as [? ? ?].
  by apply recordAttendance_effect.
Qed.

Lemma run_call_inv c w : Inv w → Inv (world_of (run_call c w)).
Proof.
  intros HI. eapply checkin_effect_inv.
  - by apply (Inv_set_clock (call_time c)).
  - by apply run_call_effect.
Qed.

Lemma run_calls_inv cs w : Inv w → Inv (run_calls cs w).
Proof.
  revert w. induction cs as [|c cs IH]; intros w HI; simpl; [done|].
  apply IH. by apply run_call_inv.
Qed.

(** Check-ins never remove a record or a student. *)
Lemma checkin_effect_keeps w studentId o sid d :
  checkin_effect w studentId o →
  (records_for sid d w ≠ [] → records_for sid d (world_of o) ≠ []) ∧
  (is_Some (students w !! sid) → is_Some (students (world_of o) !! sid)).
Proof.
  intros Heff.
  destruct Heff as [Hs | s e l1 l2 w' Hs He Hl Hl' Hg Hst Henv
                       | s Hs He]; simpl.
  - done.
  - split; [|by rewrite Hst].
    unfold records_for. intros Hne Hnil. apply Hne.
    apply length_zero_iff_nil. apply length_zero_iff_nil in Hnil.
    rewrite Hl. rewrite Hl' in Hnil.
    by rewrite <- (filter_replace _ l1 e l2 (repeat_record w e)).
  - done.
Qed.

Lemma records_for_set_clock t sid d w :
  records_for sid d (set_clock t w) = records_for sid d w.
Proof. done. Qed.

Lemma run_calls_keeps cs w sid d :
  Inv w →
  (records_for sid d w ≠ [] → records_for sid d (run_calls cs w) ≠ []) ∧
  (is_Some (students w !! sid) → is_Some (students (run_calls cs w) !! sid)).
Proof.
  revert w. induction cs as [|c cs IH]; intros w HI; simpl; [done|].
  destruct (checkin_effect_keeps _ _ _ sid d (run_call_effect c w HI))
    as [H1 H2].
  destruct (IH _ (run_call_inv c w HI)) as [H3 H4].
  split; intros H.
  - apply H3, H1. by rewrite records_for_set_clock.
  - by apply H4, H2.
Qed.

(** A check-in of a registered student with no record today throws
    before it writes. *)
Lemma run_call_first c w :
  is_Some (students w !! call_studentId c) →
  records_for (call_studentId c) (JsDate.dateISO_of (call_time c)) w = [] →
  run_call c w = Throw msg_DataError (set_clock (call_time c) w).
Proof.
  intros [s Hs] Hnil. unfold run_call.
  apply (recordAttendance_first _ _ _ _ s); [done|].
  simpl. rewrite records_for_set_clock, Hnil. done.
Qed.

(** No sequence of check-ins writes the directory. *)
Lemma run_calls_students cs w : students (run_calls cs w) = students w.
Proof.
  revert w. induction cs as [|c cs IH]; intros w; simpl; [done|].
  rewrite IH. unfold run_call. by rewrite recordAttendance_students.
Qed.

(** A check-in of a registered student with a record today merges. *)
Lemma run_call_repeat c w :
  Inv w →
  is_Some (students w !! call_studentId c) →
  records_for (call_studentId c) (JsDate.dateISO_of (call_time c)) w ≠ [] →
  ∃ r w', run_call c w = Return r w' ∧ isRepeat r = true ∧
          length (attendance w') = length (attendance w) ∧
          records_for (call_studentId c) (JsDate.dateISO_of (call_time c)) w'
          = [record r].
Proof.
  intros HI [s Hs] Hne.
  pose proof (run_call_effect c w HI) as Heff.
  pose proof (inv_one_per_day _ (run_call_inv c w HI)
                (call_studentId c) (JsDate.dateISO_of (call_time c))) as Hone.
  remember (run_call c w) as o eqn:Ho.
  destruct Heff as [Hs' | s' e l1 l2 w' Hs' He Hl Hl' Hg Hst Henv
                       | s' Hs' He]; simpl in *.
  - congruence.
  - eexists _, w'. split; [done|]. split; [done|]. split.
    + rewrite Hl', Hl, !length_app. done.
    + apply head_filter_elem in He as [_ Hkey].
      apply (repeat_record_same_key (set_clock (call_time c) w)) in Hkey.
      unfold records_for in *. rewrite Hl' in *.
      rewrite filter_app, filter_cons in *. rewrite decide_True in * by done.
      rewrite length_app in Hone. simpl in *.
      destruct (filter _ l1); simpl in *; [|lia].
      destruct (filter _ l2); simpl in *; [done|lia].
  - by rewrite records_for_set_clock in He.
Qed.

(** C1 (as the code has it).  The day of a record is the UTC date of
    the check-in.  On a store with at most one record for every student
    and UTC date, calls of the check-in that run one after the other
    keep it so; and once a registered student has a record for a UTC
    date, every later check-in of that student on that date, whatever
    check-ins came in between, inserts nothing, leaves the single record
    of that day and reports [isRepeat = true]. *)
Theorem C1_one_record_per_student_per_day w :
  wf_store w → wf_directory w → one_per_day w →
  (∀ cs, one_per_day (run_calls cs w)) ∧
  (∀ cs c,
     is_Some (students w !! call_studentId c) →
     records_for (call_studentId c) (JsDate.dateISO_of (call_time c)) w ≠ [] →
     ∃ r w', run_call c (run_calls cs w) = Return r w' ∧
             isRepeat r = true ∧
             length (attendance w') = length (attendance (run_calls cs w)) ∧
             records_for (call_studentId c)
               (JsDate.dateISO_of (call_time c)) w' = [record r]).
Proof.
  intros Hwf Hdir Hone. assert (Inv w) as HI by done.
  split.
  - intros cs. by apply run_calls_inv.
  - intros cs c Hs Hrec.
    destruct (run_calls_keeps cs w (call_studentId c)
                (JsDate.dateISO_of (call_time c)) HI) as [Hk1 Hk2].
    apply run_call_repeat; [by apply run_calls_inv | by apply Hk2 | by apply Hk1].
Qed.

End Sequences.

(** ** The classifier *)

Section Classifier.

Implicit Types (tz t T start : Z) (ws : string).

(** Integers up to [2 ^ 53] are doubles. *)
Lemma of_Z_exact z : Z.abs z ≤ 2 ^ 53 → JsNumber.of_Z z = Some z.
Proof.
  intros Hz. unfold JsNumber.of_Z.
  destruct (Z.leb_spec (Z.abs z) (2 ^ 53)); [done|lia].
Qed.

(** On an everyday host [setHours] with an hour and a minute of the
    clock face is exact. *)
Lemma setHoursN_ordinary tz t hour min h m :
  ordinary tz t →
  JsNumber.truncate hour = Some h → JsNumber.truncate min = Some m →
  0 ≤ h ≤ 24 → 0 ≤ m ≤ 60 →
  JsDate.setHoursN tz t hour min (JsNumber.Finite 0 0) (JsNumber.Finite 0 0)
  = Some (JsDate.setHours tz t h m 0 0).
Proof.
  intros [Htz Ht] Hh Hm Hhb Hmb.
  unfold JsDate.setHoursN, JsDate.MakeDateN, JsDate.MakeTimeN.
  rewrite Hh, Hm. simpl.
  unfold JsDate.Day, JsDate.LocalTime.
  unfold JsDate.maxTime, JsDate.msPerDay, JsDate.msPerHour,
    JsDate.msPerMinute in *.
  change (2 ^ 0) with 1.
  pose proof (Z.div_mod (t + tz * 60000) 86400000 ltac:(lia)) as Hdm.
  pose proof (Z.mod_pos_bound (t + tz * 60000) 86400000 ltac:(lia)) as Hmod.
  unfold JsNumber.of_Z.
  repeat match goal with
         | |- context [Z.abs ?z <=? 2 ^ 53] =>
             destruct (Z.leb_spec (Z.abs z) (2 ^ 53)) as [_|Hbad];
             [|exfalso; change (2 ^ 53) with 9007199254740992 in Hbad; lia];
             simpl
         end.
  unfold JsDate.TimeClip, JsDate.maxTime.
  match goal with
  | |- context [Z.abs ?z <=? ?b] =>
      destruct (Z.leb_spec (Z.abs z) b) as [_|Hbad]; [|exfalso; lia]
  end.
  unfold JsDate.setHours, JsDate.UTC, JsDate.MakeDate, JsDate.MakeTime,
    JsDate.Day, JsDate.LocalTime, JsDate.msPerDay, JsDate.msPerHour,
    JsDate.msPerMinute.
  f_equal; lia.
Qed.

Lemma workStart_0700 tz t :
  ordinary tz t →
  workStart_of tz t "07:00" = Some (JsDate.setHours tz t 7 0 0 0).
Proof.
  intros Hord. unfold workStart_of.
  replace (JsString.Number <$> JsString.split ":" "07:00")
    with [JsNumber.Finite 7881299347898368 (-50); JsNumber.Finite 0 0]
    by (vm_compute; reflexivity).
  apply setHoursN_ordinary; [done|reflexivity|reflexivity|lia|lia].
Qed.

Example workStart_malformed t : workStart_of 180 t "7h" = None.
Proof. reflexivity. Qed.

Example classify_0720 :
  calculateAttendanceStatus 180 (4 * 3600000 + 20 * 60000) "07:00" 15
  = {| actualStatus := late; calculatedLateMinutes := 20 |}.
Proof. vm_compute. reflexivity. Qed.

Lemma classify_not_after tz t ws T start :
  workStart_of tz t ws = Some start → 0 ≤ T →
  t ≤ start + T * JsDate.msPerMinute →
  calculateAttendanceStatus tz t ws T
  = {| actualStatus := present; calculatedLateMinutes := 0 |}.
Proof.
  intros Hws HT Ht. unfold calculateAttendanceStatus. rewrite Hws. simpl.
  unfold JsDate.msPerMinute in *.
  destruct (Z.ltb_spec (T * 60000) (Z.max 0 (t - start))); [lia|done].
Qed.

Lemma classify_after tz t ws T start :
  workStart_of tz t ws = Some start → 0 ≤ T →
  start + T * JsDate.msPerMinute < t →
  calculateAttendanceStatus tz t ws T
  = {| actualStatus := late;
       calculatedLateMinutes :=
         (2 * (t - start) + JsDate.msPerMinute) / (2 * JsDate.msPerMinute) |}.
Proof.
  intros Hws HT Ht. unfold calculateAttendanceStatus. rewrite Hws. simpl.
  unfold JsDate.msPerMinute in *.
  destruct (Z.ltb_spec (T * 60000) (Z.max 0 (t - start))); [|lia].
  by rewrite Z.max_r by lia.
Qed.

(** With a threshold of at least one minute a late classification carries
    at least one late minute. *)
Lemma classify_late_positive tz t ws T :
  1 ≤ T → actualStatus (calculateAttendanceStatus tz t ws T) = late →
  calculatedLateMinutes (calculateAttendanceStatus tz t ws T) > 0.
Proof.
  intros HT. unfold calculateAttendanceStatus.
  destruct (workStart_of tz t ws) as [start|]; simpl; [|done].
  unfold JsDate.msPerMinute.
  destruct (Z.ltb_spec (T * 60000) (Z.max 0 (t - start))); simpl; [|done].
  intros _. apply Z.lt_gt, Z.div_str_pos. lia.
Qed.

Lemma classify_present_zero tz t ws T :
  actualStatus (calculateAttendanceStatus tz t ws T) ≠ late →
  calculatedLateMinutes (calculateAttendanceStatus tz t ws T) = 0.
Proof.
  unfold calculateAttendanceStatus.
  destruct (workStart_of tz t ws) as [start|]; simpl; [|done].
  by destruct (_ <? _).
Qed.

(** C4. The classifier is a function of the check-in time, the work start
    time and the threshold (and of the host's time zone, which fixes the
    local day).  For a threshold of zero or more minutes: a check-in
    strictly before the work start of its day is present with no late
    minutes; a check-in exactly the threshold after the work start is
    present; a check-in one minute later is late with threshold + 1 late
    minutes. *)
Theorem C4_classifier_thresholds tz ws T :
  0 ≤ T →
  (∀ t start, workStart_of tz t ws = Some start → t < start →
     calculateAttendanceStatus tz t ws T
     = {| actualStatus := present; calculatedLateMinutes := 0 |}) ∧
  (∀ t start, workStart_of tz t ws = Some start →
     t = start + T * JsDate.msPerMinute →
     calculateAttendanceStatus tz t ws T
     = {| actualStatus := present; calculatedLateMinutes := 0 |}) ∧
  (∀ t start, workStart_of tz t ws = Some start →
     t = start + (T + 1) * JsDate.msPerMinute →
     calculateAttendanceStatus tz t ws T
     = {| actualStatus := late; calculatedLateMinutes := T + 1 |}).
Proof.
  intros HT. split; [|split]; intros t start Hws Ht.
  - apply (classify_not_after _ _ _ _ start); unfold JsDate.msPerMinute; [done..|lia].
  - apply (classify_not_after _ _ _ _ start); [done..|lia].
  - rewrite (classify_after _ _ _ _ start); unfold JsDate.msPerMinute in *; [|done..|lia].
    f_equal. subst t.
    replace (2 * (start + (T + 1) * 60000 - start) + 60000)
      with ((T + 1) * (2 * 60000) + 60000) by lia.
    rewrite Z.div_add_l by lia. rewrite Z.div_small by lia. lia.
Qed.

End Classifier.

(** ** Repeat check-ins *)

Section Repeat.

Implicit Types (w : World) (e : Attendance.t).

Lemma records_for_single w studentId dateISO e :
  one_per_day w → e ∈ records_for studentId dateISO w →
  records_for studentId dateISO w = [e].
Proof.
  intros Hone Hin. specialize (Hone studentId dateISO).
  destruct (records_for studentId dateISO w) as [|x [|y l]]; simpl in *.
  - by apply elem_of_nil in Hin.
  - apply list_elem_of_singleton in Hin. by subst.
  - lia.
Qed.

(** C2. A check-in of a student who already has a record today succeeds,
    reports a repeat and rewrites that record in place: same key, student
    and date; the check-in time is the new time; the status is late when
    the stored status or the new classification is late, and the stored
    status otherwise; the late minutes are the maximum of the stored and
    the newly classified ones; the record is flagged as a repeat. *)
Theorem C2_repeat_updates_in_place w studentId status lateMinutes e :
  wf_store w → wf_directory w → one_per_day w →
  is_Some (students w !! studentId) →
  e ∈ records_for studentId (JsDate.dateISO_of (clock w)) w →
  ∃ r w',
    recordAttendance studentId status lateMinutes w = Return r w' ∧
    isRepeat r = true ∧
    records_for studentId (JsDate.dateISO_of (clock w)) w' = [record r] ∧
    length (attendance w') = length (attendance w) ∧
    Attendance.id (record r) = Attendance.id e ∧
    Attendance.studentId (record r) = Attendance.studentId e ∧
    Attendance.dateISO (record r) = Attendance.dateISO e ∧
    Attendance.timeISO (record r) = clock w ∧
    Attendance.status (record r)
    = (if decide (Attendance.status e = late
                  ∨ actualStatus (classify_now w) = late)
       then late else Attendance.status e) ∧
    Attendance.lateMinutes (record r)
    = Z.max (Attendance.lateMinutes e) (calculatedLateMinutes (classify_now w)) ∧
    Attendance.isRepeat (record r) = Some true.
Proof.
  intros Hwf Hdir Hone [s Hs] Hin.
  pose proof (records_for_single _ _ _ _ Hone Hin) as Hrec.
  pose proof (recordAttendance_effect w studentId status lateMinutes Hwf Hdir)
    as Heff.
  assert (Inv w) as HI by done.
  pose proof (inv_one_per_day _ (checkin_effect_inv _ _ _ HI Heff)
                studentId (JsDate.dateISO_of (clock w))) as Hone'.
  remember (recordAttendance studentId status lateMinutes w) as o eqn:Ho.
  destruct Heff as [Hs' | s' e' l1 l2 w' Hs' He Hl Hl' Hg Hst Henv
                       | s' Hs' He]; simpl in *.
  - congruence.
  - rewrite Hrec in He. simplify_eq/=.
    assert (same_student_date studentId (JsDate.dateISO_of (clock w)) e') as Hkey.
    { unfold records_for in Hin. by apply list_elem_of_filter in Hin as [? _]. }
    eexists _, w'. split; [done|]. simpl. split; [done|]. split; [|split; [|split; [done|]]].
    + unfold records_for in *. rewrite Hl' in *.
      rewrite filter_app, filter_cons in *.
      rewrite decide_True in * by done.
      rewrite length_app in Hone'. simpl in *.
      destruct (filter _ l1); simpl in *; [|lia].
      destruct (filter _ l2); simpl in *; [done|lia].
    + by rewrite Hl', Hl, !length_app.
    + simpl. repeat split.
      destruct (decide (actualStatus (classify_now w) = late)) as [Hl1|Hl1].
      * by rewrite decide_True by by right.
      * destruct (decide (Attendance.status e' = late)) as [Hl2|Hl2].
        -- by rewrite decide_True by by left.
        -- by rewrite decide_False by tauto.
  - rewrite Hrec in He. done.
Qed.

End Repeat.

(** ** Late statistics of the directory *)

Section LateStatistics.

Implicit Types (w : World) (c : CheckInCall) (cs : list CheckInCall).


Lemma effective_threshold_positive w :
  0 ≤ Settings.lateThresholdMin (default getDefaultSettings (settings w)) →
  1 ≤ effective_threshold w.
Proof.
  unfold effective_threshold, num_or. intros H.
  destruct (Z.eqb_spec (Settings.lateThresholdMin
                          (default getDefaultSettings (settings w))) 0); lia.
Qed.

(** C3 (what the code does).  The late statistics of the directory are
    never updated by a check-in.  The update is written for the check-in
    that creates a record, after the record is stored; but that path
    asks for the current session first, and the query throws.  So a
    registered student's first check-in of a day, late or not, throws
    the error of the query and leaves the world as it was, with no
    record and the late days as before; and over any sequence of
    check-ins the directory is the one the sequence started from. *)
Theorem C3_late_statistics_never_updated w :
  (∀ studentId status lateMinutes,
     is_Some (students w !! studentId) →
     records_for studentId (JsDate.dateISO_of (clock w)) w = [] →
     recordAttendance studentId status lateMinutes w = Throw msg_DataError w) ∧
  (∀ studentId status lateMinutes,
     students (world_of (recordAttendance studentId status lateMinutes w))
     = students w) ∧
  (∀ cs studentId,
     students (run_calls cs w) = students w ∧
     lateDays_of studentId (run_calls cs w) = lateDays_of studentId w ∧
     lateMinutesTotal_of studentId (run_calls cs w)
     = lateMinutesTotal_of studentId w).
Proof.
  split; [|split].
  - intros studentId status lateMinutes [s Hs] Hnil.
    apply (recordAttendance_first _ _ _ _ s Hs). by rewrite Hnil.
  - intros. apply recordAttendance_students.
  - intros cs studentId. unfold lateDays_of, lateMinutesTotal_of.
    by rewrite run_calls_students.
Qed.

End LateStatistics.

(** ** Daily statistics *)

Section DailyStats.

Implicit Types (w : World) (r : Attendance.t).

Lemma getAllStudents_length w :
  Z.of_nat (length (snd <$> map_to_list (students w)))
  = Z.of_nat (size (students w)).
Proof. by rewrite length_fmap, length_map_to_list. Qed.

Lemma percent_round_zero n : 0 < n → percent_round 0 n = 0.
Proof. intros _. reflexivity. Qed.

(** A quotient of at most [K] rounds to a double of at most [K]. *)
Lemma nearest_bounded n d K :
  0 < n → 0 < d → 1 ≤ K ≤ 2 ^ 20 → n ≤ K * d →
  ∃ q e, JsNumber.nearest n d = JsNumber.Finite q e ∧ e < 0
         ∧ 0 ≤ q ≤ K * 2 ^ (- e).
Proof.
  intros Hn Hd HK Hle. unfold JsNumber.nearest.
  destruct (Z.eqb_spec n 0) as [|_]; [lia|].
  pose proof (Z.log2_spec n Hn) as [Hn1 Hn2].
  pose proof (Z.log2_spec d Hd) as [Hd1 Hd2].
  pose proof (Z.log2_nonneg n) as Hln. pose proof (Z.log2_nonneg d) as Hld.
  assert (Z.log2 n < Z.log2 d + 21) as Hk.
  { apply (Z.pow_lt_mono_r_iff 2); [lia|lia|].
    replace (Z.log2 d + 21) with (20 + Z.succ (Z.log2 d)) by lia.
    rewrite Z.pow_add_r by lia. nia. }
  set (e0 := Z.log2 n - Z.log2 d - 52).
  match goal with |- context [Z.max ?x (-1074)] => set (e1 := x) end.
  assert (e1 < 0) as He1.
  { unfold e1. destruct (_ <? _); lia. }
  set (e := Z.max e1 (-1074)). assert (e < 0) as He by lia.
  destruct (Z.leb_spec 0 e) as [|_]; [lia|].
  set (P := 2 ^ (- e)). assert (0 < P) as HP by (apply Z.pow_pos_nonneg; lia).
  set (N := n * P).
  pose proof (Z.div_mod N d ltac:(lia)) as Hdm.
  pose proof (Z.mod_pos_bound N d Hd) as Hmod.
  set (q := N / d) in *.
  assert (N - q * d = N mod d) as -> by lia.
  assert (0 ≤ q) as Hq0 by (apply Z.div_pos; nia).
  assert (q ≤ K * P) as Hq1.
  { apply Z.div_le_upper_bound; [lia|]. unfold N. nia. }
  assert (0 < N mod d → q + 1 ≤ K * P) as Hq2.
  { intros Hr. destruct (Z.le_gt_cases (K * P) q) as [Hge|]; [|lia].
    exfalso. unfold N in *. nia. }
  destruct (Z.ltb_spec 971 e) as [|_]; [lia|].
  destruct (Z.eqb_spec e 971) as [|_]; [lia|]. simpl.
  eexists _, e. split; [reflexivity|]. split; [done|].
  destruct (Z.ltb_spec (2 * (N mod d)) d); [lia|].
  destruct (Z.ltb_spec d (2 * (N mod d))); [lia|].
  destruct (Z.even q); lia.
Qed.

(** The percentage of a part lies between 0 and 100. *)
Lemma percent_round_bounds p n :
  0 ≤ p ≤ n → 0 < n → 0 ≤ percent_round p n ≤ 100.
Proof.
  intros Hp Hn. unfold percent_round, JsNumber.of_quotient.
  destruct (Z.leb_spec 0 p) as [_|]; [|lia].
  destruct (Z.eq_dec p 0) as [->|Hp0]; [done|].
  destruct (nearest_bounded p n 1) as (q & e & -> & He & Hq); [lia..|].
  unfold JsNumber.times.
  destruct (Z.leb_spec 0 e) as [|_]; [lia|].
  unfold JsNumber.of_quotient.
  destruct (Z.leb_spec 0 (q * 100)) as [_|]; [|lia].
  assert (0 < 2 ^ (- e)) as HP by (apply Z.pow_pos_nonneg; lia).
  destruct (Z.eq_dec q 0) as [->|Hq0]; [done|].
  destruct (nearest_bounded (q * 100) (2 ^ (- e)) 100)
    as (q2 & e2 & -> & He2 & Hq2); [lia|lia|lia|lia|].
  simpl. destruct (Z.leb_spec 0 e2) as [|_]; [lia|].
  assert (0 < 2 ^ (- e2)) as HP2 by (apply Z.pow_pos_nonneg; lia).
  replace (2 ^ (1 - e2)) with (2 * 2 ^ (- e2))
    by (replace (1 - e2) with (1 + - e2) by lia; rewrite Z.pow_add_r by lia; done).
  split.
  - apply Z.div_pos; lia.
  - apply Z.lt_succ_r. apply Z.div_lt_upper_bound; lia.
Qed.

(** C9. On a day with no attendance record, for a directory of N
    students, the statistics are: no student present, none late, N
    absent, ratio 0, no first and no last student; the ratio is 0 for the
    empty directory as well.  The query changes nothing. *)
Theorem C9_stats_without_records w :
  records_on (JsDate.dateISO_of (clock w)) w = [] →
  getTodayStats w
  = Return {| presentCount := 0;
              lateCount := 0;
              absentCount := Z.of_nat (size (students w));
              attendanceRatio := 0;
              firstStudent := None;
              lastStudent := None;
              totalStudents := Z.of_nat (size (students w)) |} w.
Proof.
  intros Hnil. unfold records_on in Hnil.
  unfold getTodayStats, bind, new_Date, getDayAttendance, getAllStudents,
    gets, ret. simpl.
  rewrite Hnil. simpl.
  rewrite getAllStudents_length. f_equal. f_equal; [lia|].
  destruct (Z.ltb_spec 0 (Z.of_nat (size (students w)))); [|done].
  rewrite Z.add_0_l. by apply percent_round_zero.
Qed.

(** C6 (as the code has it).  On a day with exactly one attendance
    record the statistics report that record as the first check-in and
    report no last student: [lastStudent] is filled only when the last
    record differs from the first. *)
Theorem C6_single_record_first_only w r :
  records_on (JsDate.dateISO_of (clock w)) w = [r] →
  ∃ stats,
    getTodayStats w = Return stats w ∧
    firstStudent stats = Some (entry_of w r) ∧
    lastStudent stats = None.
Proof.
  intros Hone. unfold records_on in Hone.
  unfold getTodayStats, bind, new_Date, getDayAttendance, getAllStudents,
    gets, ret. simpl.
  rewrite Hone. simpl.
  unfold student_time, bind, getStudent, gets, ret. simpl.
  rewrite decide_False by (intros Hne; by apply Hne).
  eexists. split; [reflexivity|]. by split.
Qed.

End DailyStats.

(** ** Caller-supplied status and late minutes *)

Section Arguments.

Implicit Types (w : World) (c : CheckInCall) (cs : list CheckInCall).

Lemma run_call_same_inputs c c' w :
  call_time c = call_time c' → call_studentId c = call_studentId c' →
  run_call c w = run_call c' w.
Proof. intros Ht Hs. unfold run_call. by rewrite Ht, Hs. Qed.

Lemma run_calls_same_inputs cs cs' w :
  (λ c, (call_time c, call_studentId c)) <$> cs
  = (λ c, (call_time c, call_studentId c)) <$> cs' →
  run_calls cs w = run_calls cs' w.
Proof.
  revert cs' w. induction cs as [|c cs IH]; intros [|c' cs'] w Heq;
    try discriminate; [done|].
  rewrite !fmap_cons in Heq. injection Heq as Ht Hs Hrest.
  simpl. rewrite (run_call_same_inputs c c' w Ht Hs). by apply IH.
Qed.

(** C10. The outcome of a check-in (the value it resolves to or the
    error it throws, and the whole world it leaves: stored record,
    directory, audit log) does not depend on the [status] and
    [lateMinutes] arguments; neither does the world left by a sequence of
    check-ins that differ only in those arguments. *)
Theorem C10_status_arguments_ignored w studentId :
  (∀ status1 lateMinutes1 status2 lateMinutes2,
     recordAttendance studentId status1 lateMinutes1 w
     = recordAttendance studentId status2 lateMinutes2 w) ∧
  (∀ cs cs',
     (λ c, (call_time c, call_studentId c)) <$> cs
     = (λ c, (call_time c, call_studentId c)) <$> cs' →
     run_calls cs w = run_calls cs' w).
Proof.
  split.
  - reflexivity.
  - intros cs cs'. apply run_calls_same_inputs.
Qed.

End Arguments.

(** ** Manual absence *)

Section MarkAbsent.

Implicit Types (w : World) (r : Attendance.t).

Lemma find_filter_nil (P : Attendance.t → Prop) `{∀ x, Decision (P x)}
    (l : list Attendance.t) :
  filter P l = [] → List.find (λ r, bool_decide (P r)) l = None.
Proof.
  induction l as [|x l IH]; simpl; [done|].
  rewrite filter_cons. destruct (decide (P x)) as [Hx|Hx]; [done|].
  intros Hnil. rewrite bool_decide_eq_false_2 by done. by apply IH.
Qed.

Lemma find_filter_cons (P : Attendance.t → Prop) `{∀ x, Decision (P x)}
    (l : list Attendance.t) :
  filter P l ≠ [] → is_Some (List.find (λ r, bool_decide (P r)) l).
Proof.
  induction l as [|x l IH]; simpl; [done|].
  rewrite filter_cons. destruct (decide (P x)) as [Hx|Hx].
  - intros _. by rewrite bool_decide_eq_true_2.
  - intros Hne. rewrite bool_decide_eq_false_2 by done. by apply IH.
Qed.

Lemma markAbsent_new w studentId dateISO sessionId reason :
  wf_store w →
  records_for studentId dateISO w = [] →
  markAbsent studentId dateISO sessionId reason w
  = Return (Success (absent_record w studentId dateISO sessionId reason))
      (set_audit
         (audit w ++
          [Audit.mk "admin" "MARK_ABSENT" "attendance" None
             (Some (AuditAttendance
                      (absent_record w studentId dateISO sessionId reason)))
             (clock w)])
         (set_attendance
            (attendance w ++ [absent_record w studentId dateISO sessionId reason])
            (attendanceKeyGen w + 1) w)).
Proof.
  intros Hwf Hnil. unfold markAbsent, bind, gets, new_Date, ret. simpl.
  unfold records_for in Hnil. rewrite (find_filter_nil _ _ Hnil).
  unfold put_attendance, bind, new_Date, gets, modify, ret. simpl.
  rewrite (store_put_fresh 1 _ _ _ Hwf). reflexivity.
Qed.

Lemma markAbsent_conflict w studentId dateISO sessionId reason :
  records_for studentId dateISO w ≠ [] →
  markAbsent studentId dateISO sessionId reason w
  = Return (Failure msg_attendance_exists) w.
Proof.
  intros Hne. unfold markAbsent, bind, gets, ret. simpl.
  destruct (find_filter_cons _ _ Hne) as [e ->]. reflexivity.
Qed.

Lemma records_for_snoc_new w w' studentId dateISO r :
  records_for studentId dateISO w = [] →
  attendance w' = attendance w ++ [r] →
  same_student_date studentId dateISO r →
  records_for studentId dateISO w' = [r].
Proof.
  unfold records_for. intros Hnil -> Hkey.
  by rewrite filter_app, Hnil, filter_cons, filter_nil, decide_True.
Qed.

(** C8. For a registered student with no attendance record on the date,
    [markAbsent] succeeds and stores a record with status absent and no
    late minutes; a second [markAbsent] for the same student and date, at
    any later instant and with any session or reason, is refused with the
    record-already-exists result and changes nothing. *)
Theorem C8_markAbsent_once w studentId dateISO sessionId reason :
  wf_store w →
  is_Some (students w !! studentId) →
  records_for studentId dateISO w = [] →
  ∃ r w1,
    markAbsent studentId dateISO sessionId reason w = Return (Success r) w1 ∧
    Attendance.status r = absent ∧
    Attendance.lateMinutes r = 0 ∧
    Attendance.studentId r = studentId ∧
    Attendance.dateISO r = dateISO ∧
    records_for studentId dateISO w1 = [r] ∧
    ∀ t sessionId' reason',
      markAbsent studentId dateISO sessionId' reason' (set_clock t w1)
      = Return (Failure msg_attendance_exists) (set_clock t w1).
Proof.
  intros Hwf _ Hnil.
  rewrite (markAbsent_new _ _ _ sessionId reason Hwf Hnil).
  eexists _, _. split; [reflexivity|]. repeat (split; [done|]).
  assert (∀ w1, attendance w1
                = attendance w ++ [absent_record w studentId dateISO sessionId reason] →
                records_for studentId dateISO w1
                = [absent_record w studentId dateISO sessionId reason]) as Hrec.
  { intros w1 Hw1. by eapply records_for_snoc_new. }
  split; [by apply Hrec|].
  intros t sessionId' reason'. apply markAbsent_conflict.
  rewrite records_for_set_clock, Hrec; done.
Qed.

(** C7 (what the code does).  For a student id that is not in the
    directory, [recordAttendance] throws the student-not-found error and
    leaves the world as it was; [markAbsent] never consults the
    directory: when the store has no record of that id on the date it
    succeeds and appends an absent record for the unknown id. *)
Theorem C7_unknown_student w studentId :
  students w !! studentId = None →
  (∀ status lateMinutes,
     recordAttendance studentId status lateMinutes w
     = Throw msg_student_not_found w) ∧
  (∀ dateISO sessionId reason,
     wf_store w → records_for studentId dateISO w = [] →
     ∃ r w',
       markAbsent studentId dateISO sessionId reason w = Return (Success r) w' ∧
       Attendance.studentId r = studentId ∧
       Attendance.status r = absent ∧
       attendance w' = attendance w ++ [r]).
Proof.
  intros Hs. split.
  - intros status lateMinutes. by apply recordAttendance_unknown.
  - intros dateISO sessionId reason Hwf Hnil.
    rewrite (markAbsent_new _ _ _ sessionId reason Hwf Hnil).
    by eexists _, _.
Qed.

Lemma Inv_append w w' r :
  Inv w →
  records_for (Attendance.studentId r) (Attendance.dateISO r) w = [] →
  Attendance.id r = Some (attendanceKeyGen w) →
  attendance w' = attendance w ++ [r] →
  attendanceKeyGen w' = attendanceKeyGen w + 1 →
  students w' = students w →
  Inv w'.
Proof.
  intros [Hwf Hdir Hone] Hnil Hid Hatt Hg Hst. split.
  - unfold wf_store in *. rewrite Hatt, Hg. by apply keys_ascending_snoc.
  - unfold wf_directory. by rewrite Hst.
  - intros sid d. unfold records_for in *. rewrite Hatt, filter_app, length_app.
    rewrite filter_cons, filter_nil.
    destruct (decide (same_student_date sid d r)) as [[<- <-]|Hne]; simpl.
    + rewrite Hnil. simpl. lia.
    + specialize (Hone sid d). unfold records_for in Hone. lia.
Qed.

Lemma markAbsent_inv w studentId dateISO sessionId reason :
  Inv w → Inv (world_of (markAbsent studentId dateISO sessionId reason w)).
Proof.
  intros HI.
  destruct (decide (records_for studentId dateISO w = [])) as [Hnil|Hne].
  - rewrite (markAbsent_new _ _ _ _ _ (inv_store _ HI) Hnil). simpl.
    by eapply (Inv_append w _ (absent_record w studentId dateISO sessionId reason)).
  - by rewrite (markAbsent_conflict _ _ _ _ _ Hne).
Qed.

End MarkAbsent.

(** ** The late-then-repeat scenario *)

Section Scenario.

Implicit Types (w : World) (c : CheckInCall) (s : Student.t).

Lemma first_checkin w studentId status lateMinutes :
  is_Some (students w !! studentId) →
  records_for studentId (JsDate.dateISO_of (clock w)) w = [] →
  recordAttendance studentId status lateMinutes w = Throw msg_DataError w.
Proof.
  intros [s Hs] Hnil. apply (recordAttendance_first _ _ _ _ s Hs).
  by rewrite Hnil.
Qed.

Lemma repeat_checkin w studentId status lateMinutes s e :
  Inv w → students w !! studentId = Some s →
  records_for studentId (JsDate.dateISO_of (clock w)) w = [e] →
  ∃ w',
    recordAttendance studentId status lateMinutes w
    = Return {| record := repeat_record w e; isRepeat := true;
                student := s |} w' ∧
    Inv w' ∧
    records_for studentId (JsDate.dateISO_of (clock w)) w'
    = [repeat_record w e] ∧
    students w' = students w ∧
    same_env w w'.
Proof.
  intros HI Hs Hrec.
  pose proof (recordAttendance_effect w studentId status lateMinutes
                (inv_store _ HI) (inv_directory _ HI)) as Heff.
  pose proof (checkin_effect_inv _ _ _ HI Heff) as HI'.
  pose proof (inv_one_per_day _ HI' studentId (JsDate.dateISO_of (clock w)))
    as Hone'.
  remember (recordAttendance studentId status lateMinutes w) as o eqn:Ho.
  destruct Heff as [Hs' | s' e' l1 l2 w' Hs' He Hl Hl' Hg Hst Henv
                       | s' Hs' He]; simpl in *.
  - congruence.
  - rewrite Hrec in He. simplify_eq/=.
    assert (same_student_date studentId (JsDate.dateISO_of (clock w)) e') as Hkey.
    { assert (e' ∈ records_for studentId (JsDate.dateISO_of (clock w)) w) as Hin
        by (rewrite Hrec; apply list_elem_of_singleton; done).
      unfold records_for in Hin. by apply list_elem_of_filter in Hin as [? _]. }
    exists w'. repeat (split; [done|]). split; [|done].
    unfold records_for in *. rewrite Hl' in *.
    rewrite filter_app, filter_cons in *.
    rewrite decide_True in * by done.
    rewrite length_app in Hone'. simpl in *.
    destruct (filter _ l1); simpl in *; [|lia].
    destruct (filter _ l2); simpl in *; [done|lia].
  - by rewrite Hrec in He.
Qed.

(** A check-in [n] whole minutes after the work start, beyond the
    threshold, is late by [n] minutes. *)
Lemma classify_minutes_after tz t ws T start n :
  workStart_of tz t ws = Some start → 0 ≤ T → T < n →
  t = start + n * JsDate.msPerMinute →
  calculateAttendanceStatus tz t ws T
  = {| actualStatus := late; calculatedLateMinutes := n |}.
Proof.
  intros Hws HT Hn ->.
  rewrite (classify_after _ _ _ _ start); unfold JsDate.msPerMinute in *;
    [|done..|lia].
  f_equal.
  replace (2 * (start + n * 60000 - start) + 60000)
    with (n * (2 * 60000) + 60000) by lia.
  rewrite Z.div_add_l by lia. rewrite Z.div_small by lia. lia.
Qed.

Lemma classify_now_0700_15 w :
  settings w = Some (Settings.mk "07:00" 15) →
  classify_now w = calculateAttendanceStatus (tzOffsetMin w) (clock w) "07:00" 15.
Proof.
  intros Hset. unfold classify_now, effective_workStart, effective_threshold.
  by rewrite Hset.
Qed.

(** [setHours] keeps the local day: it moves the instant back to the
    local midnight and on to the new time of day. *)
Lemma setHours_same_day tz t h m :
  JsDate.setHours tz t h m 0 0
  = t - JsDate.LocalTime tz t mod JsDate.msPerDay + JsDate.MakeTime h m 0 0.
Proof.
  unfold JsDate.setHours, JsDate.UTC, JsDate.MakeDate, JsDate.MakeTime,
    JsDate.Day, JsDate.LocalTime, JsDate.msPerDay, JsDate.msPerHour,
    JsDate.msPerMinute.
  pose proof (Z.div_mod (t + tz * 60000) 86400000 ltac:(lia)) as Hdm.
  lia.
Qed.

(** With work start 07:00 and threshold 15, a check-in [n] minutes past
    07:00 local time, [n] beyond 15, is late by [n] minutes. *)
Lemma classify_0700_15 tz t n :
  ordinary tz t → 15 < n →
  JsDate.LocalTime tz t mod JsDate.msPerDay
  = JsDate.MakeTime 7 0 0 0 + n * JsDate.msPerMinute →
  calculateAttendanceStatus tz t "07:00" 15
  = {| actualStatus := late; calculatedLateMinutes := n |}.
Proof.
  intros Hord Hn Hlocal.
  apply (classify_minutes_after _ _ _ _ (JsDate.setHours tz t 7 0 0 0));
    [by apply workStart_0700|lia|done|].
  rewrite setHours_same_day, Hlocal. lia.
Qed.

(** C5 (as the code has it).  With work start 07:00 and threshold 15, on
    an everyday host: a check-in at 07:20 local time is classified late
    with 20 late minutes, the minutes since the work start and not those
    beyond the threshold; and a check-in at 07:35 by a registered student
    whose record of that date is late with 20 late minutes is a repeat,
    merged into that record, which stays late with 35 late minutes,
    while the student's late days stay as they were. *)
Theorem C5_late_then_repeat w c e :
  wf_store w → wf_directory w → one_per_day w →
  settings w = Some (Settings.mk "07:00" 15) →
  (∀ t, ordinary (tzOffsetMin w) t →
        JsDate.LocalTime (tzOffsetMin w) t mod JsDate.msPerDay
        = JsDate.MakeTime 7 20 0 0 →
        calculateAttendanceStatus (tzOffsetMin w) t "07:00" 15
        = {| actualStatus := late; calculatedLateMinutes := 20 |}) ∧
  (ordinary (tzOffsetMin w) (call_time c) →
   JsDate.LocalTime (tzOffsetMin w) (call_time c) mod JsDate.msPerDay
   = JsDate.MakeTime 7 35 0 0 →
   is_Some (students w !! call_studentId c) →
   e ∈ records_for (call_studentId c) (JsDate.dateISO_of (call_time c)) w →
   Attendance.status e = late → Attendance.lateMinutes e = 20 →
   ∃ r w',
     run_call c w = Return r w' ∧
     isRepeat r = true ∧
     records_for (call_studentId c) (JsDate.dateISO_of (call_time c)) w'
     = [record r] ∧
     Attendance.id (record r) = Attendance.id e ∧
     Attendance.status (record r) = late ∧
     Attendance.lateMinutes (record r) = 35 ∧
     lateDays_of (call_studentId c) w' = lateDays_of (call_studentId c) w).
Proof.
  intros Hwf Hdir Hone Hset. assert (Inv w) as HI by done. split.
  - intros t Hord Hlocal. apply classify_0700_15; [done|lia|].
    rewrite Hlocal. unfold JsDate.MakeTime, JsDate.msPerHour,
      JsDate.msPerMinute. lia.
  - intros Hord Hlocal [s Hs] Hin Hst Hlm.
    set (wb := set_clock (call_time c) w).
    assert (classify_now wb
            = {| actualStatus := late; calculatedLateMinutes := 35 |}) as Hc.
    { rewrite classify_now_0700_15 by done. simpl.
      apply classify_0700_15; [done|lia|].
      rewrite Hlocal. unfold JsDate.MakeTime, JsDate.msPerHour,
        JsDate.msPerMinute. lia. }
    destruct (repeat_checkin wb (call_studentId c) (call_status c)
                (call_lateMinutes c) s e)
      as (w' & Hrun & HI' & Hrec & Hstu & Henv).
    { by apply Inv_set_clock. }
    { done. }
    { change (records_for (call_studentId c)
                (JsDate.dateISO_of (call_time c)) w = [e]).
      by apply records_for_single. }
    eexists _, w'. split; [exact Hrun|]. simpl. rewrite Hc. simpl.
    split; [done|]. split.
    { simpl in Hrec. rewrite Hrec. unfold repeat_record. by rewrite Hc. }
    split; [done|]. split; [done|]. split; [lia|].
    unfold lateDays_of. by rewrite Hstu.
Qed.

End Scenario.

(** ** The school morning *)

(** Runs a call on concrete data. *)
Ltac run_concrete_call :=
  match goal with
  | |- context [run_call ?c ?w] =>
      let v := eval vm_compute in (run_call c w) in
      change (run_call c w) with v
  end.

Example S2_0720_throws :
  run_call checkin_S2_0720 morning_world
  = Throw msg_DataError (set_clock (local_instant 7 20) morning_world).
Proof. vm_compute. reflexivity. Qed.

Example morning_attendance :
  (λ r, (Attendance.id r, Attendance.studentId r, Attendance.status r,
         Attendance.lateMinutes r, Attendance.isRepeat r))
    <$> attendance (run_calls [checkin_S1_0710; checkin_S2_0720; checkin_S2_0735]
                      roll_S1_S2)
  = [(Some 1, "S1", absent, 0, Some true);
     (Some 2, "S2", late, 35, Some true)].
Proof. vm_compute. reflexivity. Qed.

Lemma morning_world_store : wf_store morning_world.
Proof. reflexivity. Qed.

Lemma morning_world_directory : wf_directory morning_world.
Proof.
  unfold wf_directory, morning_world. simpl.
  repeat (apply map_Forall_insert_2; [reflexivity|]).
  apply map_Forall_empty.
Qed.

Lemma morning_world_one_per_day : one_per_day morning_world.
Proof. intros studentId dateISO. simpl. lia. Qed.

Lemma morning_world_inv : Inv morning_world.
Proof.
  split; [apply morning_world_store | apply morning_world_directory
         | apply morning_world_one_per_day].
Qed.

Lemma marked_absent_inv t studentId w :
  Inv w → Inv (marked_absent t studentId w).
Proof. intros HI. by apply markAbsent_inv, Inv_set_clock. Qed.

Lemma roll_S2_inv : Inv roll_S2.
Proof. apply marked_absent_inv, morning_world_inv. Qed.

Lemma world_0735_inv : Inv world_0735.
Proof. apply Inv_set_clock, run_call_inv, roll_S2_inv. Qed.

Lemma world_0735_records :
  records_for "S2" (JsDate.dateISO_of (clock world_0735)) world_0735
  = [record_S2_0720].
Proof. vm_compute. reflexivity. Qed.

(** At the school morning, S2 marked absent at 06:00: the store has one
    record per student and day after three check-ins, and the check-in of
    S2 at 07:35, after those of S1 and S2, merges. *)
Lemma C1_witness :
  one_per_day (run_calls [checkin_S1_0710; checkin_S2_0720; checkin_S2_0735]
                 roll_S2) ∧
  ∃ r w', run_call checkin_S2_0735
            (run_calls [checkin_S1_0710; checkin_S2_0720] roll_S2)
          = Return r w' ∧
          isRepeat r = true ∧
          length (attendance w') = 1%nat.
Proof.
  destruct (C1_one_record_per_student_per_day roll_S2
              (inv_store _ roll_S2_inv) (inv_directory _ roll_S2_inv)
              (inv_one_per_day _ roll_S2_inv)) as (Ha & Hb).
  split; [apply Ha|].
  destruct (Hb [checkin_S1_0710; checkin_S2_0720] checkin_S2_0735)
    as (r & w' & Hrun & Hrep & Hlen & _).
  - exists student_S2. vm_compute. reflexivity.
  - by vm_compute.
  - exists r, w'. split; [exact Hrun|]. split; [exact Hrep|].
    rewrite Hlen. vm_compute. reflexivity.
Defined.

(** The calendar date of the claim is the local date.  S2 has one
    record, of the morning of day 20000.  The check-in of S2 at 01:30 in
    the following night is the first of the local day 20001, for which
    no record exists; it inserts nothing and is merged into the record
    of day 20000, because its UTC date is still that day. *)
Lemma C1_counterexample :
  local_date 180 (call_time checkin_S2_next_night) = 20001 ∧
  Forall (λ r, local_date 180 (Attendance.timeISO r) = 20000
               ∧ Attendance.dateISO r = 20000) (attendance world_0735) ∧
  (∃ r w', run_call checkin_S2_next_night world_0735 = Return r w' ∧
           isRepeat r = true ∧
           Attendance.dateISO (record r) = 20000 ∧
           length (attendance w') = length (attendance world_0735)) ∧
  ¬ (∃ r w', run_call checkin_S2_next_night world_0735 = Return r w' ∧
             isRepeat r = false ∧
             length (attendance w') = S (length (attendance world_0735))).
Proof.
  split; [vm_compute; reflexivity|]. split; [|split].
  - change (attendance world_0735) with [record_S2_0720].
    apply Forall_singleton. split; vm_compute; reflexivity.
  - eexists _, _. split; [vm_compute; reflexivity|].
    split; [reflexivity|]. split; reflexivity.
  - intros (r & w' & Hrun & Hrep & _).
    assert (match run_call checkin_S2_next_night world_0735 with
            | Return r _ => isRepeat r
            | Throw _ _ => false
            end = true) as Htrue by (vm_compute; reflexivity).
    rewrite Hrun, Hrep in Htrue. discriminate.
Qed.

(** The repeat check-in of S2 at 07:35 rewrites the 07:20 record. *)
Lemma C2_witness :
  ∃ r w', recordAttendance "S2" "present" 0 world_0735 = Return r w' ∧
          isRepeat r = true ∧
          Attendance.timeISO (record r) = local_instant 7 35 ∧
          Attendance.status (record r) = late ∧
          Attendance.lateMinutes (record r) = 35.
Proof.
  destruct (C2_repeat_updates_in_place world_0735 "S2" "present" 0
              record_S2_0720)
    as (r & w' & Hrun & Hrep & _ & _ & _ & _ & _ & Htime & Hstatus & Hlate & _).
  - apply world_0735_inv.
  - apply world_0735_inv.
  - apply world_0735_inv.
  - exists student_S2. vm_compute. reflexivity.
  - rewrite world_0735_records. apply list_elem_of_here.
  - exists r, w'. split; [exact Hrun|]. split; [exact Hrep|].
    split; [exact Htime|]. split.
    + rewrite Hstatus. vm_compute. reflexivity.
    + rewrite Hlate. vm_compute. reflexivity.
Defined.

(** The first check-in of S2, at 07:20 and late, throws and stores
    nothing; the late days of S2 are the same after the morning. *)
Lemma C3_witness :
  actualStatus (classify_now (set_clock (local_instant 7 20) morning_world))
  = late ∧
  recordAttendance "S2" "present" 0 (set_clock (local_instant 7 20) morning_world)
  = Throw msg_DataError (set_clock (local_instant 7 20) morning_world) ∧
  lateDays_of "S2" (run_calls [checkin_S2_0720; checkin_S2_0735] morning_world)
  = lateDays_of "S2" morning_world.
Proof.
  split; [vm_compute; reflexivity|]. split.
  - apply (C3_late_statistics_never_updated
             (set_clock (local_instant 7 20) morning_world)).
    + exists student_S2. reflexivity.
    + reflexivity.
  - apply (C3_late_statistics_never_updated morning_world).
Defined.

(** Work start 07:00, threshold 15: 06:50 and 07:15 are present, 07:16
    is late by 16 minutes. *)
Lemma C4_witness :
  calculateAttendanceStatus 180 (local_instant 6 50) "07:00" 15
  = {| actualStatus := present; calculatedLateMinutes := 0 |} ∧
  calculateAttendanceStatus 180 (local_instant 7 15) "07:00" 15
  = {| actualStatus := present; calculatedLateMinutes := 0 |} ∧
  calculateAttendanceStatus 180 (local_instant 7 16) "07:00" 15
  = {| actualStatus := late; calculatedLateMinutes := 15 + 1 |}.
Proof.
  destruct (C4_classifier_thresholds 180 "07:00" 15) as (Ha & Hb & Hc); [lia|].
  split; [|split].
  - apply (Ha _ (local_instant 7 0)); [reflexivity|]. vm_compute. reflexivity.
  - apply (Hb _ (local_instant 7 0)); reflexivity.
  - apply (Hc _ (local_instant 7 0)); reflexivity.
Defined.

(** The figures of the scenario do not occur.  A check-in at 07:20 is
    classified late by 20 minutes, not 5; no first check-in of S2 at
    07:20 returns a record with 5 late minutes; and the repeat at 07:35
    leaves 35 late minutes in the record, not 20. *)
Lemma C5_counterexample :
  calculateAttendanceStatus 180 (local_instant 7 20) "07:00" 15
  = {| actualStatus := late; calculatedLateMinutes := 20 |} ∧
  ¬ (∃ r1 w1 r2 w2,
       run_call checkin_S2_0720 morning_world = Return r1 w1 ∧
       Attendance.status (record r1) = late ∧
       Attendance.lateMinutes (record r1) = 5 ∧
       lateDays_of "S2" w1 = lateDays_of "S2" morning_world + 1 ∧
       run_call checkin_S2_0735 w1 = Return r2 w2 ∧
       Attendance.status (record r2) = late ∧
       Attendance.lateMinutes (record r2) = 20 ∧
       lateDays_of "S2" w2 = lateDays_of "S2" w1) ∧
  ¬ (∃ r w', run_call checkin_S2_0735 world_0735 = Return r w' ∧
             Attendance.lateMinutes (record r) = 20).
Proof.
  split; [vm_compute; reflexivity|]. split.
  - intros (r1 & w1 & r2 & w2 & Hrun & _).
    rewrite S2_0720_throws in Hrun. discriminate.
  - intros (r & w' & Hrun & Htwenty).
    assert (match run_call checkin_S2_0735 world_0735 with
            | Return r _ => Attendance.lateMinutes (record r)
            | Throw _ _ => 0
            end = 35) as Hmin by (vm_compute; reflexivity).
    rewrite Hrun in Hmin. lia.
Qed.

(** The school morning of S2: late by 20 minutes at 07:20; the check-in
    at 07:35 is merged into the record of 07:20 and leaves it late by
    35 minutes, the late days as before. *)
Lemma C5_witness :
  calculateAttendanceStatus 180 (local_instant 7 20) "07:00" 15
  = {| actualStatus := late; calculatedLateMinutes := 20 |} ∧
  ∃ r w',
    run_call checkin_S2_0735 world_0735 = Return r w' ∧
    isRepeat r = true ∧
    Attendance.id (record r) = Attendance.id record_S2_0720 ∧
    Attendance.status (record r) = late ∧
    Attendance.lateMinutes (record r) = 35 ∧
    lateDays_of "S2" w' = lateDays_of "S2" world_0735.
Proof.
  destruct (C5_late_then_repeat world_0735 checkin_S2_0735 record_S2_0720)
    as [Hclass Hrepeat].
  - apply world_0735_inv.
  - apply world_0735_inv.
  - apply world_0735_inv.
  - reflexivity.
  - split.
    + apply (Hclass (local_instant 7 20)); [|reflexivity].
      split; vm_compute; discriminate.
    + destruct Hrepeat as (r & w' & H1 & H2 & _ & H3 & H4 & H5 & H6).
      * split; vm_compute; discriminate.
      * reflexivity.
      * exists student_S2. vm_compute. reflexivity.
      * change (record_S2_0720
                ∈ records_for "S2" (JsDate.dateISO_of (clock world_0735))
                    world_0735).
        rewrite world_0735_records. apply list_elem_of_here.
      * reflexivity.
      * reflexivity.
      * exists r, w'. repeat (split; [assumption|]). assumption.
Defined.

Lemma world_after_S1_records :
  ∃ r, records_on (JsDate.dateISO_of (clock world_after_S1)) world_after_S1 = [r]
       ∧ Attendance.studentId r = "S1".
Proof. eexists. split; [vm_compute; reflexivity|reflexivity]. Qed.

(** After the only check-in of the morning the statistics name S1 as the
    first student and no last student. *)
Lemma C6_counterexample :
  length (records_on (JsDate.dateISO_of (clock world_after_S1)) world_after_S1)
  = 1%nat ∧
  ¬ (∃ stats w',
       getTodayStats world_after_S1 = Return stats w' ∧
       is_Some (lastStudent stats) ∧
       lastStudent stats = firstStudent stats).
Proof.
  split; [vm_compute; reflexivity|].
  intros (stats & w' & Hrun & [x Hlast] & _).
  assert (match getTodayStats world_after_S1 with
          | Return stats _ => lastStudent stats
          | Throw _ _ => None
          end = None) as Hnone by (vm_compute; reflexivity).
  rewrite Hrun, Hlast in Hnone. discriminate.
Qed.

Lemma C6_witness :
  ∃ stats,
    getTodayStats world_after_S1 = Return stats world_after_S1 ∧
    (st_name <$> firstStudent stats) = Some "Student One" ∧
    lastStudent stats = None.
Proof.
  destruct world_after_S1_records as (r & Hrec & Hsid).
  destruct (C6_single_record_first_only world_after_S1 r Hrec)
    as (stats & Hrun & Hfirst & Hlast).
  exists stats. split; [done|]. split; [|done].
  rewrite Hfirst. simpl. unfold entry_of. rewrite Hsid. reflexivity.
Defined.

(** Student id S9 is not in the directory: the check-in throws, the
    manual absence is stored. *)
Lemma C7_witness :
  students morning_world !! "S9" = None ∧
  recordAttendance "S9" "present" 0 morning_world
  = Throw msg_student_not_found morning_world ∧
  ∃ r w', markAbsent "S9" 20000 None "" morning_world = Return (Success r) w' ∧
          Attendance.studentId r = "S9" ∧
          attendance w' = [r].
Proof.
  assert (students morning_world !! "S9" = None) as Hs by reflexivity.
  destruct (C7_unknown_student morning_world "S9" Hs) as [Hthrow Hmark].
  split; [done|]. split; [apply Hthrow|].
  destruct (Hmark 20000 None "" morning_world_store)
    as (r & w' & Hrun & Hsid & _ & Hatt); [reflexivity|].
  exists r, w'. repeat (split; [assumption|]). exact Hatt.
Defined.

(** S3 is marked absent once; the second marking is refused. *)
Lemma C8_witness :
  ∃ r w1,
    markAbsent "S3" 20000 None "sick" morning_world = Return (Success r) w1 ∧
    Attendance.status r = absent ∧
    Attendance.lateMinutes r = 0 ∧
    markAbsent "S3" 20000 None "sick" (set_clock (local_instant 9 0) w1)
    = Return (Failure msg_attendance_exists) (set_clock (local_instant 9 0) w1).
Proof.
  destruct (C8_markAbsent_once morning_world "S3" 20000 None "sick")
    as (r & w1 & Hrun & Hst & Hlm & _ & _ & _ & Hagain).
  - apply morning_world_store.
  - exists student_S3. reflexivity.
  - reflexivity.
  - exists r, w1. repeat (split; [assumption|]). apply Hagain.
Defined.

(** Before the first check-in of the morning: three students, all
    absent, ratio 0. *)
Lemma C9_witness :
  getTodayStats morning_world
  = Return {| presentCount := 0; lateCount := 0; absentCount := 3;
              attendanceRatio := 0; firstStudent := None; lastStudent := None;
              totalStudents := 3 |} morning_world.
Proof.
  rewrite (C9_stats_without_records morning_world); [|reflexivity].
  reflexivity.
Defined.

(** A forged status and late-minutes argument changes nothing. *)
Lemma C10_witness :
  run_call checkin_S2_0735 world_0735 = run_call checkin_S2_0735_forged world_0735 ∧
  run_calls [checkin_S2_0720; checkin_S2_0735] morning_world
  = run_calls [checkin_S2_0720; checkin_S2_0735_forged] morning_world.
Proof.
  destruct (C10_status_arguments_ignored morning_world "S2") as [_ Hseq].
  destruct (C10_status_arguments_ignored
              (set_clock (local_instant 7 35) world_0735) "S2") as [Hone _].
  split.
  - apply (Hone "present" 0 "absent" 90).
  - apply Hseq. reflexivity.
Defined.


(** * The rest of the attendance engine: properties *)

(** ** Directory maintenance *)

Section Directory.

Implicit Types (w : World) (s : Student.t) (student : StudentInput.t).

(** An input that passes the required-fields check of [addStudent]. *)
Lemma addStudent_fields student :
  StudentInput.id student ≠ EmptyString → StudentInput.name student ≠ EmptyString →
  StudentInput.grade student ≠ EmptyString →
  StudentInput.className student ≠ EmptyString →
  falsy (StudentInput.id student) || falsy (StudentInput.name student)
  || falsy (StudentInput.grade student) || falsy (StudentInput.className student)
  = false.
Proof.
  unfold falsy. intros H1 H2 H3 H4.
  apply String.eqb_neq in H1, H2, H3, H4. by rewrite H1, H2, H3, H4.
Qed.

(** X1. A complete input with an unused id is added: [addStudent]
    resolves to the id, the directory then holds the student under that
    id with the caller's fields and a late record of zero days and zero
    minutes unless the caller supplied other figures; no other student
    and no attendance record is touched, the directory grows by one and
    stays keyed by id. *)
Theorem addStudent_stores_new_student w student :
  StudentInput.id student ≠ EmptyString → StudentInput.name student ≠ EmptyString →
  StudentInput.grade student ≠ EmptyString →
  StudentInput.className student ≠ EmptyString →
  students w !! StudentInput.id student = None →
  ∃ s w',
    addStudent student w = Return (StudentInput.id student, s) w' ∧
    students w' !! StudentInput.id student = Some s ∧
    Student.id s = StudentInput.id student ∧
    Student.name s = StudentInput.name student ∧
    Student.grade s = StudentInput.grade student ∧
    Student.className s = StudentInput.className student ∧
    Student.lateDays s = default 0 (StudentInput.lateDays student) ∧
    Student.lateMinutesTotal s = default 0 (StudentInput.lateMinutesTotal student) ∧
    (∀ k, k ≠ StudentInput.id student → students w' !! k = students w !! k) ∧
    size (students w') = S (size (students w)) ∧
    attendance w' = attendance w ∧
    (wf_directory w → wf_directory w').
Proof.
  intros H1 H2 H3 H4 Hnew.
  unfold addStudent. rewrite (addStudent_fields _ H1 H2 H3 H4).
  unfold bind, getStudent, gets. rewrite Hnew. simpl.
  unfold logAudit, put_students, bind, gets, modify, new_Date, ret. simpl.
  eexists _, _. split; [reflexivity|]. simpl.
  split; [by rewrite lookup_insert_eq|]. repeat (split; [done|]).
  split; [|split; [|split; [done|]]].
  - intros k Hk. by rewrite lookup_insert_ne.
  - by apply map_size_insert_None.
  - intros Hdir. unfold wf_directory. simpl. by apply map_Forall_insert_2.
Qed.

(** X2. [addStudent] refuses an input with an empty required field, and
    an input whose id is already in the directory; in both cases it
    throws and leaves the whole world, the stored student included, as
    it was. *)
Theorem addStudent_rejects w student :
  (StudentInput.id student = EmptyString ∨ StudentInput.name student = EmptyString
   ∨ StudentInput.grade student = EmptyString
   ∨ StudentInput.className student = EmptyString →
   addStudent student w = Throw msg_student_fields_required w) ∧
  (StudentInput.id student ≠ EmptyString → StudentInput.name student ≠ EmptyString →
   StudentInput.grade student ≠ EmptyString →
   StudentInput.className student ≠ EmptyString →
   is_Some (students w !! StudentInput.id student) →
   addStudent student w = Throw msg_student_id_exists w).
Proof.
  split.
  - intros Hempty. unfold addStudent, falsy.
    assert (String.eqb (StudentInput.id student) EmptyString
            || String.eqb (StudentInput.name student) EmptyString
            || String.eqb (StudentInput.grade student) EmptyString
            || String.eqb (StudentInput.className student) EmptyString = true) as ->;
      [|done].
    destruct Hempty as [-> | [-> | [-> | ->]]]; simpl;
      rewrite ?orb_true_r; reflexivity.
  - intros H1 H2 H3 H4 [s Hs].
    unfold addStudent. rewrite (addStudent_fields _ H1 H2 H3 H4).
    unfold bind, getStudent, gets, throw. by rewrite Hs.
Qed.

Lemma deleteStudent_known w id s :
  students w !! id = Some s →
  deleteStudent id w
  = Return tt
      (set_students (delete id (students w))
         (set_audit
            (audit w ++ [Audit.mk "system" "DELETE_STUDENT" "students"
                           (Some (AuditStudent s)) None (clock w)]) w)).
Proof.
  intros Hs. unfold deleteStudent, bind, getStudent, gets. rewrite Hs.
  reflexivity.
Qed.

Lemma deleteStudent_unknown w id :
  students w !! id = None → deleteStudent id w = Return tt w.
Proof.
  intros Hs. unfold deleteStudent, bind, getStudent, gets, ret. by rewrite Hs.
Qed.

(** X3. [deleteStudent] never throws.  For an id that is not in the
    directory it does nothing at all.  For a stored student it removes
    that student only and keeps every attendance record, the student's
    own included; a later check-in with the deleted id is refused as an
    unknown student. *)
Theorem deleteStudent_keeps_attendance w id :
  (students w !! id = None → deleteStudent id w = Return tt w) ∧
  (is_Some (students w !! id) →
   ∃ w',
     deleteStudent id w = Return tt w' ∧
     students w' !! id = None ∧
     (∀ k, k ≠ id → students w' !! k = students w !! k) ∧
     size (students w') = pred (size (students w)) ∧
     attendance w' = attendance w ∧
     ∀ status lateMinutes,
       recordAttendance id status lateMinutes w'
       = Throw msg_student_not_found w').
Proof.
  split; [apply deleteStudent_unknown|].
  intros [s Hs]. rewrite (deleteStudent_known _ _ _ Hs).
  eexists. split; [reflexivity|]. simpl.
  split; [by rewrite lookup_delete_eq|].
  split; [intros k Hk; by rewrite lookup_delete_ne|].
  split; [by apply map_size_delete_Some|].
  split; [done|].
  intros status lateMinutes. apply recordAttendance_unknown. simpl.
  by rewrite lookup_delete_eq.
Qed.

(** X4. Adding a student and deleting it again restores the directory;
    the two operations leave their two entries in the audit log. *)
Theorem addStudent_deleteStudent_round_trip w student :
  StudentInput.id student ≠ EmptyString → StudentInput.name student ≠ EmptyString →
  StudentInput.grade student ≠ EmptyString →
  StudentInput.className student ≠ EmptyString →
  students w !! StudentInput.id student = None →
  ∃ w',
    (addStudent student ;;; deleteStudent (StudentInput.id student)) w
    = Return tt w' ∧
    students w' = students w ∧
    attendance w' = attendance w ∧
    length (audit w') = (length (audit w) + 2)%nat.
Proof.
  intros H1 H2 H3 H4 Hnew.
  unfold bind at 1. unfold addStudent. rewrite (addStudent_fields _ H1 H2 H3 H4).
  unfold bind, getStudent, gets. rewrite Hnew. simpl.
  unfold logAudit, put_students, bind, gets, modify, new_Date, ret. simpl.
  erewrite deleteStudent_known by (simpl; apply lookup_insert_eq).
  eexists. split; [reflexivity|]. simpl.
  split; [by apply delete_insert_id|]. split; [done|].
  rewrite !length_app. simpl. lia.
Qed.

Lemma bulkDeleteStudents_loop_spec ids : ∀ w results errors,
  ∃ w',
    bulkDeleteStudents_loop ids results errors w
    = Return (bulk_outcome
                (results ++ ((λ id, {| entry_id := id; entry_success := true;
                                       entry_error := None |}) <$> ids))
                errors) w' ∧
    (∀ k, (k ∈ ids → students w' !! k = None) ∧
          (k ∉ ids → students w' !! k = students w !! k)) ∧
    attendance w' = attendance w.
Proof.
  induction ids as [|id ids IH]; intros w results errors.
  - exists w. simpl. rewrite app_nil_r. split; [done|]. split; [|done].
    intros k. split; [|done]. intros Hin. by apply elem_of_nil in Hin.
  - simpl. unfold bind, try_.
    destruct (students w !! id) as [s|] eqn:Hs.
    + rewrite (deleteStudent_known _ _ _ Hs).
      edestruct IH as (w' & -> & Hst & Hatt).
      exists w'. rewrite <- app_assoc. split; [done|]. split; [|by rewrite Hatt].
      intros k. destruct (Hst k) as [Hin Hout]. simpl in Hout.
      destruct (decide (k ∈ ids)) as [Hk|Hk].
      * split; [by auto|]. intros Hn. exfalso. apply Hn. by apply list_elem_of_further.
      * rewrite (Hout Hk). split.
        -- intros [->|?]%elem_of_cons; [|done]. by rewrite lookup_delete_eq.
        -- intros Hn. rewrite lookup_delete_ne; [done|].
           intros ->. apply Hn, list_elem_of_here.
    + rewrite (deleteStudent_unknown _ _ Hs).
      edestruct IH as (w' & -> & Hst & Hatt).
      exists w'. rewrite <- app_assoc. split; [done|]. split; [|done].
      intros k. destruct (Hst k) as [Hin Hout].
      destruct (decide (k ∈ ids)) as [Hk|Hk].
      * split; [by auto|]. intros Hn. exfalso. apply Hn. by apply list_elem_of_further.
      * rewrite (Hout Hk). split.
        -- intros [->|?]%elem_of_cons; done.
        -- done.
Qed.

(** X5. [bulkDeleteStudents] reports success for every id it is given,
    in order, whether or not the id was in the directory, and never
    reports an error; afterwards none of the ids is in the directory,
    every other student is as before, and the attendance store is
    untouched. *)
Theorem bulkDeleteStudents_always_succeeds w ids :
  ∃ out w',
    bulkDeleteStudents ids w = Return out w' ∧
    results out = ((λ id, {| entry_id := id; entry_success := true;
                             entry_error := None |}) <$> ids) ∧
    errors out = [] ∧
    successCount out = length ids ∧
    (∀ k, k ∈ ids → students w' !! k = None) ∧
    (∀ k, k ∉ ids → students w' !! k = students w !! k) ∧
    attendance w' = attendance w.
Proof.
  destruct (bulkDeleteStudents_loop_spec ids w [] []) as (w' & Hrun & Hst & Hatt).
  eexists _, w'. split; [exact Hrun|]. simpl.
  split; [done|]. split; [done|]. split.
  - clear. induction ids as [|id ids' IH]; [done|].
    rewrite fmap_cons, filter_cons.
    destruct (decide _) as [_|Hn]; simpl in *; [by f_equal|done].
  - split; [|split; [|done]].
    + intros k Hk. by apply Hst.
    + intros k Hk. by apply Hst.
Qed.

End Directory.

(** ** Updating and renaming a student *)

Section UpdateStudent.

Implicit Types (w : World) (s existing : Student.t) (u updates : Student.updates).

Lemma store_put_at lo l1 e l2 g k v :
  keys_ascending lo (l1 ++ e :: l2) g = true → Attendance.id e = Some k →
  store_put k v (l1 ++ e :: l2) = l1 ++ v :: l2.
Proof.
  revert lo. induction l1 as [|r l1 IH]; intros lo Hasc Hk; simpl in *.
  - unfold Attendance.key. rewrite Hk. simpl.
    by rewrite Z.ltb_irrefl, Z.eqb_refl.
  - destruct (Attendance.id r) as [kr|] eqn:Hr; [|done].
    apply andb_prop in Hasc as [H1 H2].
    assert (e ∈ l1 ++ e :: l2) as Hin
      by (apply elem_of_app; right; apply list_elem_of_here).
    destruct (keys_ascending_elem _ _ _ _ H2 Hin) as (k' & Hk' & Hb).
    assert (k' = k) as -> by congruence.
    unfold Attendance.key at 1. rewrite Hr. simpl.
    destruct (Z.ltb_spec kr k); [|lia].
    by rewrite (IH _ H2 Hk).
Qed.

Lemma world_eta w :
  set_attendance (attendance w) (attendanceKeyGen w) w = w.
Proof. by destruct w. Qed.

Lemma transfer_loop oldId newId suf : ∀ pre w lo,
  attendance w = pre ++ suf →
  keys_ascending lo (pre ++ suf) (attendanceKeyGen w) = true →
  for_each (filter (λ r, Attendance.studentId r = oldId) suf)
    (λ record, put_attendance (Attendance.set_studentId newId record) ;;; ret tt) w
  = Return tt
      (set_attendance (pre ++ (transfer_record oldId newId (clock w) <$> suf))
         (attendanceKeyGen w) w).
Proof.
  induction suf as [|r suf IH]; intros pre w lo Hatt Hasc.
  - simpl. rewrite <- Hatt. by rewrite world_eta.
  - rewrite filter_cons, fmap_cons. unfold transfer_record at 1.
    destruct (decide (Attendance.studentId r = oldId)) as [Hr|Hr].
    + assert (r ∈ pre ++ r :: suf) as Hin
        by (apply elem_of_app; right; apply list_elem_of_here).
      destruct (keys_ascending_elem _ _ _ _ Hasc Hin) as (k & Hk & Hb).
      simpl. unfold bind at 1 2. unfold put_attendance at 1.
      unfold bind, new_Date, gets, modify, ret. simpl. rewrite Hk.
      rewrite Hatt.
      rewrite (store_put_at lo pre r suf (attendanceKeyGen w) k) by done.
      rewrite Z.max_l by lia.
      erewrite (IH (pre ++ [Attendance.stamp (clock w)
                              (Attendance.set_studentId newId r)]) _ lo).
      * simpl. by rewrite <- app_assoc.
      * simpl. by rewrite <- app_assoc.
      * simpl. rewrite <- app_assoc. simpl.
        eapply keys_ascending_replace; [exact Hasc|done].
    + erewrite (IH (pre ++ [r]) w lo).
      * by rewrite <- app_assoc.
      * by rewrite <- app_assoc.
      * by rewrite <- app_assoc.
Qed.

(** A query by a string that is not empty is a filter on the key. *)
Lemma getAll_index_string {A} (records : World → list A) (key : A → string)
    (q : string) w :
  q ≠ EmptyString →
  getAll_index records key (QueryString q) w
  = Return (filter (λ r, key r = q) (records w)) w.
Proof.
  intros Hq. unfold getAll_index. simpl.
  apply String.eqb_neq in Hq. by rewrite Hq.
Qed.


Lemma transferStudentData_spec w oldId newId :
  wf_store w → oldId ≠ EmptyString →
  transferStudentData oldId newId w
  = Return tt
      (set_attendance (transfer_record oldId newId (clock w) <$> attendance w)
         (attendanceKeyGen w) w).
Proof.
  intros Hwf Hold. unfold transferStudentData. unfold bind at 1.
  rewrite getAll_index_string by done.
  by rewrite (transfer_loop oldId newId (attendance w) [] w 1).
Qed.

Lemma transfer_record_facts oldId newId now r :
  attendance_facts (transfer_record oldId newId now r) = attendance_facts r.
Proof. unfold transfer_record. by destruct (decide _). Qed.

Lemma transfer_record_student oldId newId now r :
  Attendance.studentId (transfer_record oldId newId now r)
  = if decide (Attendance.studentId r = oldId) then newId
    else Attendance.studentId r.
Proof. unfold transfer_record. by destruct (decide _). Qed.

Lemma keys_ascending_facts lo l l' g :
  Attendance.id <$> l' = Attendance.id <$> l →
  keys_ascending lo l g = true → keys_ascending lo l' g = true.
Proof.
  revert lo l'. induction l as [|r l IH]; intros lo [|r' l'] Heq;
    try discriminate; [done|].
  rewrite !fmap_cons in Heq. injection Heq as Hid Hrest. simpl. rewrite Hid.
  destruct (Attendance.id r); [|done].
  intros [H1 H2]%andb_prop. apply andb_true_intro. split; [done|].
  by apply IH.
Qed.

(** X6. [updateStudent] with no change of id merges the updates into the
    stored student: afterwards the directory holds, under the same id,
    the student with every updated field replaced and every other field
    kept; no other student and no attendance record is touched. *)
Theorem updateStudent_merges w id existing updates :
  wf_directory w →
  students w !! id = Some existing →
  Student.u_id updates = None ∨ Student.u_id updates = Some id →
  ∃ s w',
    updateStudent id updates w = Return (id, s) w' ∧
    students w' !! id = Some s ∧
    Student.id s = id ∧
    Student.name s = default (Student.name existing) (Student.u_name updates) ∧
    Student.grade s = default (Student.grade existing) (Student.u_grade updates) ∧
    Student.className s
    = default (Student.className existing) (Student.u_className updates) ∧
    Student.guardianPhone s
    = default (Student.guardianPhone existing) (Student.u_guardianPhone updates) ∧
    Student.lateDays s
    = default (Student.lateDays existing) (Student.u_lateDays updates) ∧
    Student.lateMinutesTotal s
    = default (Student.lateMinutesTotal existing)
              (Student.u_lateMinutesTotal updates) ∧
    (∀ k, k ≠ id → students w' !! k = students w !! k) ∧
    attendance w' = attendance w ∧
    wf_directory w'.
Proof.
  intros Hdir Hs Hid.
  assert (Student.id existing = id) as Hkey by by apply Hdir in Hs.
  assert (id_changes id updates = None) as Hsame.
  { unfold id_changes. destruct Hid as [-> | ->]; [done|].
    destruct (String.eqb id EmptyString); [done|]. by rewrite String.eqb_refl. }
  assert (default (Student.id existing) (Student.u_id updates) = id) as Hid'.
  { destruct Hid as [-> | ->]; simpl; done. }
  unfold updateStudent, bind, getStudent, gets. rewrite Hs, Hsame. simpl.
  unfold logAudit, put_students, bind, gets, modify, new_Date, ret. simpl.
  rewrite !Hid'.
  eexists _, _. split; [reflexivity|]. simpl.
  split; [by rewrite lookup_insert_eq|]. split; [done|].
  repeat (split; [done|]).
  split; [intros k Hk; by rewrite lookup_insert_ne|]. split; [done|].
  unfold wf_directory. simpl. by apply map_Forall_insert_2.
Qed.

(** X7. [updateStudent] throws, and changes nothing, for an id that is
    not in the directory and for a change of id to one that another
    student already has. *)
Theorem updateStudent_rejects w id updates :
  (students w !! id = None →
   updateStudent id updates w = Throw msg_student_not_found w) ∧
  (∀ newId, is_Some (students w !! id) →
     Student.u_id updates = Some newId → newId ≠ EmptyString → newId ≠ id →
     is_Some (students w !! newId) →
     updateStudent id updates w = Throw msg_student_id_taken w).
Proof.
  split.
  - intros Hs. unfold updateStudent, bind, getStudent, gets, throw. by rewrite Hs.
  - intros newId [s Hs] Hu Hne Hdiff [s' Hs'].
    unfold updateStudent, bind, getStudent, gets, throw. rewrite Hs.
    unfold id_changes. rewrite Hu.
    apply String.eqb_neq in Hne, Hdiff. rewrite Hne, Hdiff. by rewrite Hs'.
Qed.

(** X8. Renaming a student with [updateStudent(id, { id: newId })], for
    an [id] that is not the empty string and an unused [newId], moves
    the student and all its attendance: the directory loses [id] and
    holds the student under [newId]; every record of [id] now carries
    [newId] and no record carries [id]; keys, dates, times, statuses and
    late minutes of all records, and their order, are as before; records
    of other students are untouched. *)
Theorem updateStudent_rename_moves_attendance w id newId existing updates :
  wf_store w → id ≠ EmptyString →
  students w !! id = Some existing →
  Student.u_id updates = Some newId → newId ≠ EmptyString → newId ≠ id →
  students w !! newId = None →
  ∃ s w',
    updateStudent id updates w = Return (newId, s) w' ∧
    students w' !! id = None ∧
    students w' !! newId = Some s ∧
    Student.id s = newId ∧
    (∀ k, k ≠ id → k ≠ newId → students w' !! k = students w !! k) ∧
    attendance_facts <$> attendance w' = attendance_facts <$> attendance w ∧
    Attendance.studentId <$> attendance w'
    = (λ r, if decide (Attendance.studentId r = id) then newId
            else Attendance.studentId r) <$> attendance w ∧
    Forall (λ r, Attendance.studentId r ≠ id) (attendance w') ∧
    wf_store w'.
Proof.
  intros Hwf Hid Hs Hu Hne Hdiff Hnew.
  assert (id_changes id updates = Some newId) as Hch.
  { unfold id_changes. rewrite Hu.
    apply String.eqb_neq in Hne, Hdiff. by rewrite Hne, Hdiff. }
  unfold updateStudent, bind at 1, getStudent, gets. rewrite Hs, Hch.
  unfold bind at 1. unfold bind at 1. unfold gets. rewrite Hnew.
  unfold ret at 1. unfold bind at 1. unfold bind at 1.
  rewrite (transferStudentData_spec _ _ _ Hwf Hid).
  unfold delete_students, logAudit, put_students, bind, gets, modify,
    new_Date, ret. simpl. rewrite Hu. simpl.
  eexists _, _. split; [reflexivity|]. simpl.
  split; [by rewrite lookup_insert_ne, lookup_delete_eq|].
  split; [by rewrite lookup_insert_eq|]. split; [by rewrite Hu|].
  split.
  { intros k Hk1 Hk2. by rewrite lookup_insert_ne, lookup_delete_ne. }
  assert (attendance_facts <$> (transfer_record id newId (clock w) <$> attendance w)
          = attendance_facts <$> attendance w) as Hfacts.
  { rewrite <- list_fmap_compose. apply list_fmap_ext.
    intros _ r _. apply transfer_record_facts. }
  split; [exact Hfacts|]. split; [|split].
  - rewrite <- list_fmap_compose. apply list_fmap_ext.
    intros _ r _. apply transfer_record_student.
  - apply Forall_fmap, Forall_forall. intros r _. simpl.
    rewrite transfer_record_student. by destruct (decide _).
  - unfold wf_store in *. simpl.
    eapply keys_ascending_facts; [|exact Hwf].
    rewrite <- list_fmap_compose. apply list_fmap_ext.
    intros _ r _. simpl. unfold transfer_record. by destruct (decide _).
Qed.

End UpdateStudent.

(** ** Lookup by scanned code *)

Section Codes.

Implicit Types (w : World) (id s p : string).

Lemma startsWith_append p s : JsText.startsWith p (p +:+ s) = true.
Proof.
  induction p as [|a p IH]; simpl; [done|]. by rewrite Ascii.eqb_refl, IH.
Qed.

Lemma drop_append p s : JsText.drop (String.length p) (p +:+ s) = s.
Proof. induction p as [|a p IH]; simpl; [by destruct s|done]. Qed.

Lemma replace_first_prefix p s : JsText.replace_first p EmptyString (p +:+ s) = s.
Proof.
  destruct p as [|a p]; simpl.
  - by destruct s.
  - rewrite Ascii.eqb_refl, startsWith_append. simpl. apply drop_append.
Qed.

Lemma strip_repeat_zero n s :
  JsText.strip_leading_zeros (JsText.repeat_char "0" n +:+ s)
  = JsText.strip_leading_zeros s.
Proof. induction n as [|n IH]; simpl; done. Qed.

Lemma strip_no_zero s :
  JsText.startsWith "0" s = false → JsText.strip_leading_zeros s = s.
Proof.
  destruct s as [|c s]; simpl; [done|].
  destruct (Ascii.eqb_spec c "0") as [->|Hc]; [|done].
  simpl. by destruct s.
Qed.

Lemma strip_length s :
  (String.length (JsText.strip_leading_zeros s) ≤ String.length s)%nat.
Proof.
  induction s as [|c s IH]; simpl; [done|].
  destruct (Ascii.eqb c "0"); simpl; lia.
Qed.

Lemma normal_id_stable id :
  id = "0" ∨ (id ≠ EmptyString ∧ JsText.startsWith "0" id = false) →
  normal_id id = id.
Proof.
  unfold normal_id, str_or. intros [-> | [Hne Hz]]; [done|].
  rewrite (strip_no_zero _ Hz). apply String.eqb_neq in Hne. by rewrite Hne.
Qed.

Lemma normal_id_leading_zero id :
  JsText.startsWith "0" id = true → id ≠ "0" →
  normal_id id ≠ id ∧ (String.length (normal_id id) < String.length id)%nat.
Proof.
  destruct id as [|c id]; [done|].
  change (JsText.startsWith "0" (String c id)) with (Ascii.eqb "0" c && true).
  destruct (Ascii.eqb_spec "0" c) as [<-|]; [|done]. intros _ Hne.
  unfold normal_id, str_or. simpl.
  pose proof (strip_length id) as Hlen.
  destruct (String.eqb_spec (JsText.strip_leading_zeros id) EmptyString) as [He|He].
  - destruct id as [|c' id']; [done|]. split; [done|]. simpl. lia.
  - assert (String.length (JsText.strip_leading_zeros id)
            < String.length (String "0" id))%nat as Hlt by (simpl; lia).
    split; [|done]. intros Heq. rewrite Heq in Hlt. lia.
Qed.

Lemma studentId_of_QR id : studentId_of_code ("HADER:" +:+ id) = normal_id id.
Proof.
  unfold studentId_of_code.
  rewrite (startsWith_append "HADER:" id), (replace_first_prefix "HADER:" id).
  done.
Qed.

Lemma studentId_of_barcode id :
  JsText.startsWith "HADER:" id = false →
  studentId_of_code (JsText.padStart 8 "0" id) = normal_id id.
Proof.
  intros Hp. unfold studentId_of_code, JsText.padStart.
  assert (JsText.startsWith "HADER:"
            (JsText.repeat_char "0" (8 - JsText.length16 id) +:+ id) = false) as ->.
  { destruct (8 - JsText.length16 id)%nat; simpl; [exact Hp|done]. }
  unfold normal_id. by rewrite strip_repeat_zero.
Qed.

(** X9. Round trip of the QR code: for an id that is "0" or starts with
    a character other than the digit zero, looking up the data of
    [generateQRData(id)] gives the student stored under that id (or
    nothing when there is none).  Neither call changes the store. *)
Theorem QR_code_round_trip w id :
  id = "0" ∨ (id ≠ EmptyString ∧ JsText.startsWith "0" id = false) →
  ∃ c,
    generateQRData id w = Return c w ∧
    getStudentByCode (CodeData.data c) w = Return (students w !! id) w.
Proof.
  intros Hid. eexists. split; [reflexivity|]. simpl.
  unfold getStudentByCode, getStudent, gets.
  by rewrite studentId_of_QR, normal_id_stable.
Qed.

(** X10. Round trip of the barcode: for an id as above that does not
    itself begin with the QR prefix, looking up the data of
    [generateBarcodeData(id)], the id padded with zeros to eight
    characters, gives the student stored under that id. *)
Theorem barcode_round_trip w id :
  id = "0" ∨ (id ≠ EmptyString ∧ JsText.startsWith "0" id = false) →
  JsText.startsWith "HADER:" id = false →
  ∃ c,
    generateBarcodeData id w = Return c w ∧
    getStudentByCode (CodeData.data c) w = Return (students w !! id) w.
Proof.
  intros Hid Hp. eexists. split; [reflexivity|]. simpl.
  unfold getStudentByCode, getStudent, gets.
  by rewrite studentId_of_barcode, normal_id_stable.
Qed.

(** X11. An id with a leading zero, other than "0" itself, is not
    reachable by its own codes: both the QR code and the barcode
    generated for it are looked up under a different, shorter id, the
    one with the leading zeros removed. *)
Theorem leading_zero_id_lookup w id :
  JsText.startsWith "0" id = true → id ≠ "0" →
  ∃ id' q b,
    id' ≠ id ∧ (String.length id' < String.length id)%nat ∧
    generateQRData id w = Return q w ∧
    generateBarcodeData id w = Return b w ∧
    getStudentByCode (CodeData.data q) w = Return (students w !! id') w ∧
    getStudentByCode (CodeData.data b) w = Return (students w !! id') w.
Proof.
  intros Hz Hne.
  destruct (normal_id_leading_zero id Hz Hne) as [Hdiff Hlen].
  exists (normal_id id). eexists _, _.
  split; [done|]. split; [done|].
  split; [reflexivity|]. split; [reflexivity|]. simpl.
  unfold getStudentByCode, getStudent, gets.
  rewrite studentId_of_QR, studentId_of_barcode; [done|].
  destruct id as [|c id]; [done|].
  change (JsText.startsWith "0" (String c id)) with (Ascii.eqb "0" c && true) in Hz.
  destruct (Ascii.eqb_spec "0" c) as [<-|]; done.
Qed.

End Codes.

(** ** Manual absence and check-ins *)

Section AbsenceAndCheckIn.

Implicit Types (w : World) (r e : Attendance.t).

Lemma classify_minutes_nonneg w :
  0 ≤ calculatedLateMinutes (classify_now w).
Proof.
  unfold classify_now, calculateAttendanceStatus.
  destruct (workStart_of _ _ _); simpl; [|done].
  destruct (_ <? _); simpl; [|done].
  apply Z.div_pos; unfold JsDate.msPerMinute; lia.
Qed.

(** X12. A student marked absent who then checks in the same day: the
    check-in is a repeat of the absence record.  The record stays absent
    when the check-in is on time and becomes late when it is late; in
    neither case is the directory written, so the late check-in does not
    count in the student's late days. *)
Theorem absent_then_checkin w studentId sessionId reason status lateMinutes t :
  wf_store w → wf_directory w → one_per_day w →
  is_Some (students w !! studentId) →
  records_for studentId (JsDate.dateISO_of t) w = [] →
  ∃ a w1 ci w2,
    markAbsent studentId (JsDate.dateISO_of t) sessionId reason w
    = Return (Success a) w1 ∧
    recordAttendance studentId status lateMinutes (set_clock t w1) = Return ci w2 ∧
    isRepeat ci = true ∧
    Attendance.id (record ci) = Attendance.id a ∧
    Attendance.status (record ci)
    = (if decide (actualStatus (classify_now (set_clock t w)) = late)
       then late else absent) ∧
    Attendance.lateMinutes (record ci)
    = calculatedLateMinutes (classify_now (set_clock t w)) ∧
    records_for studentId (JsDate.dateISO_of t) w2 = [record ci] ∧
    students w2 = students w.
Proof.
  intros Hwf Hdir Hone [s Hs] Hnil. assert (Inv w) as HI by done.
  pose proof (markAbsent_inv w studentId (JsDate.dateISO_of t) sessionId reason HI)
    as HI1.
  rewrite (markAbsent_new _ _ _ sessionId reason Hwf Hnil) in *. simpl in HI1.
  match type of HI1 with Inv ?x => set (w1 := x) in * end.
  exists (absent_record w studentId (JsDate.dateISO_of t) sessionId reason), w1.
  destruct (repeat_checkin (set_clock t w1) studentId status lateMinutes s
              (absent_record w studentId (JsDate.dateISO_of t) sessionId reason))
    as (w2 & Hrun & HI2 & Hrec & Hst & Henv).
  { apply Inv_set_clock. exact HI1. }
  { exact Hs. }
  { simpl. unfold records_for in *. simpl.
    rewrite filter_app, Hnil, filter_cons, filter_nil. simpl.
    by rewrite decide_True. }
  eexists _, w2. split; [reflexivity|]. split; [exact Hrun|]. simpl.
  split; [done|]. split; [done|]. split; [done|].
  split.
  { change (Z.max 0 (calculatedLateMinutes (classify_now (set_clock t w)))
            = calculatedLateMinutes (classify_now (set_clock t w))).
    apply Z.max_r, classify_minutes_nonneg. }
  split; [exact Hrec|]. exact Hst.
Qed.

Lemma bulkMarkAbsent_loop_spec dateISO sessionId reason ids : ∀ w acc,
  Inv w →
  ∃ res extra w',
    bulkMarkAbsent_loop ids dateISO sessionId reason acc w
    = Return (acc ++ res) w' ∧
    res.*2 = ids ∧
    Inv w' ∧
    attendance w' = attendance w ++ extra ∧
    Forall (λ r, Attendance.status r = absent ∧ Attendance.dateISO r = dateISO
                 ∧ Attendance.studentId r ∈ ids) extra ∧
    length extra
    = length (filter (λ x, success x.1 = true) res) ∧
    (∀ sid, sid ∈ ids → records_for sid dateISO w' ≠ []) ∧
    students w' = students w ∧ clock w' = clock w.
Proof.
  induction ids as [|id ids IH]; intros w acc HI.
  - exists [], [], w. simpl. rewrite !app_nil_r.
    repeat (split; [done|]). split; [|done].
    intros sid Hin. by apply elem_of_nil in Hin.
  - simpl. unfold bind at 1. unfold try_.
    pose proof (markAbsent_inv w id dateISO sessionId reason HI) as HI1.
    destruct (decide (records_for id dateISO w = [])) as [Hnil|Hne].
    + rewrite (markAbsent_new _ _ _ sessionId reason (inv_store _ HI) Hnil) in *.
      simpl in HI1.
      edestruct (IH _ (acc ++ [(Success (absent_record w id dateISO sessionId reason), id)])
                   HI1)
        as (res & extra & w' & Hrun & Hids & HI' & Hatt & Hall & Hlen & Hrec & Hst & Hclk).
      exists ((Success (absent_record w id dateISO sessionId reason), id) :: res),
        (absent_record w id dateISO sessionId reason :: extra), w'.
      split. { rewrite Hrun. by rewrite <- app_assoc. }
      split. { rewrite fmap_cons. simpl. by rewrite Hids. }
      split; [done|].
      split. { rewrite Hatt. simpl. by rewrite <- app_assoc. }
      split.
      { constructor.
        - simpl. repeat split. apply list_elem_of_here.
        - eapply Forall_impl; [exact Hall|]. intros r (? & ? & ?).
          repeat split; [done..|]. by apply list_elem_of_further. }
      split.
      { rewrite filter_cons. rewrite decide_True by done.
        simpl. by rewrite Hlen. }
      split; [|done].
      intros sid [->|Hin]%elem_of_cons; [|by apply Hrec].
      unfold records_for. rewrite Hatt. simpl.
      rewrite !filter_app. rewrite filter_cons. rewrite decide_True by done.
      intros Heq. apply app_eq_nil in Heq as [Heq _].
      apply app_eq_nil in Heq as [_ Heq]. done.
    + rewrite (markAbsent_conflict _ _ _ _ _ Hne) in *. simpl in HI1.
      edestruct (IH w (acc ++ [(Failure msg_attendance_exists, id)]) HI)
        as (res & extra & w' & Hrun & Hids & HI' & Hatt & Hall & Hlen & Hrec & Hst & Hclk).
      exists ((Failure msg_attendance_exists, id) :: res), extra, w'.
      split. { rewrite Hrun. by rewrite <- app_assoc. }
      split. { rewrite fmap_cons. simpl. by rewrite Hids. }
      split; [done|]. split; [done|].
      split.
      { eapply Forall_impl; [exact Hall|]. intros r (? & ? & ?).
        repeat split; [done..|]. by apply list_elem_of_further. }
      split.
      { rewrite filter_cons. by rewrite decide_False. }
      split; [|done].
      intros sid [->|Hin]%elem_of_cons; [|by apply Hrec].
      unfold records_for in *. rewrite Hatt, filter_app.
      intros Heq. by apply app_eq_nil in Heq as [Heq _].
Qed.

Lemma bulkMarkAbsent_loop_refused dateISO sessionId reason ids : ∀ w acc,
  (∀ sid, sid ∈ ids → records_for sid dateISO w ≠ []) →
  bulkMarkAbsent_loop ids dateISO sessionId reason acc w
  = Return (acc ++ (refused <$> ids)) w.
Proof.
  induction ids as [|id ids IH]; intros w acc Hrec; simpl.
  - by rewrite app_nil_r.
  - unfold bind at 1. unfold try_.
    rewrite markAbsent_conflict by (apply Hrec, list_elem_of_here).
    rewrite IH by (intros sid Hin; by apply Hrec, list_elem_of_further).
    by rewrite <- app_assoc.
Qed.

(** X13. [bulkMarkAbsent] answers every id of its list, in order.  It
    only appends absent records of the given date for listed ids, one
    for each reported success; afterwards every listed id has exactly
    one record on that date, the store still has at most one record per
    student and day, and the directory is untouched.  Marking the same
    list again, at any time, is refused for every id and changes
    nothing. *)
Theorem bulkMarkAbsent_marks_each_once w ids dateISO sessionId reason :
  wf_store w → wf_directory w → one_per_day w →
  ∃ res extra w',
    bulkMarkAbsent ids dateISO sessionId reason w = Return res w' ∧
    res.*2 = ids ∧
    attendance w' = attendance w ++ extra ∧
    Forall (λ r, Attendance.status r = absent ∧ Attendance.dateISO r = dateISO
                 ∧ Attendance.studentId r ∈ ids) extra ∧
    length extra = length (filter (λ x, success x.1 = true) res) ∧
    (∀ sid, sid ∈ ids → length (records_for sid dateISO w') = 1%nat) ∧
    one_per_day w' ∧
    students w' = students w ∧
    ∀ t sessionId' reason',
      bulkMarkAbsent ids dateISO sessionId' reason' (set_clock t w')
      = Return (refused <$> ids) (set_clock t w').
Proof.
  intros Hwf Hdir Hone. assert (Inv w) as HI by done.
  destruct (bulkMarkAbsent_loop_spec dateISO sessionId reason ids w [] HI)
    as (res & extra & w' & Hrun & Hids & HI' & Hatt & Hall & Hlen & Hrec & Hst & Hclk).
  exists res, extra, w'. split; [exact Hrun|].
  repeat (split; [done|]). split; [|split; [apply HI'|split; [done|]]].
  - intros sid Hin. specialize (Hrec sid Hin).
    pose proof (inv_one_per_day _ HI' sid dateISO).
    destruct (records_for sid dateISO w'); simpl in *; [done|lia].
  - intros t sessionId' reason'.
    unfold bulkMarkAbsent. by rewrite bulkMarkAbsent_loop_refused.
Qed.

End AbsenceAndCheckIn.

(** ** The record of a day over many check-ins *)

Section DayRecord.

Implicit Types (w : World) (e : Attendance.t) (c : CheckInCall)
  (cs : list CheckInCall).

Lemma checkin_effect_env w studentId o :
  checkin_effect w studentId o → same_env w (world_of o).
Proof. intros [Hs | | ]; simpl; done. Qed.

(** A check-in leaves the records of every other student and day alone. *)
Lemma checkin_effect_other w studentId o sid d :
  checkin_effect w studentId o →
  ¬ (studentId = sid ∧ JsDate.dateISO_of (clock w) = d) →
  records_for sid d (world_of o) = records_for sid d w.
Proof.
  intros Heff Hother.
  destruct Heff as [Hs | s e l1 l2 w' Hs He Hl Hl' Hg Hst Henv
                       | s Hs He]; simpl.
  - done.
  - apply head_filter_elem in He as [_ [Hsid Hd]].
    unfold records_for. rewrite Hl', Hl, !filter_app, !filter_cons.
    rewrite !decide_False; [done| |].
    + intros [? ?]. apply Hother. split; congruence.
    + intros [? ?]. simpl in *. apply Hother. split; congruence.
  - done.
Qed.

Lemma classify_call_env w w' c :
  same_env w w' → classify_call w' c = classify_call w c.
Proof.
  intros (Hset & _ & _ & Htz).
  unfold classify_call, classify_now, effective_workStart, effective_threshold.
  simpl. by rewrite Hset, Htz.
Qed.

Lemma run_call_classify c w c' :
  Inv w → classify_call (world_of (run_call c w)) c' = classify_call w c'.
Proof.
  intros HI. rewrite (classify_call_env (set_clock (call_time c) w)).
  - done.
  - eapply checkin_effect_env. by apply run_call_effect.
Qed.

Lemma classify_present_or_late w :
  actualStatus (classify_now w) = present ∨ actualStatus (classify_now w) = late.
Proof.
  unfold classify_now, calculateAttendanceStatus.
  destruct (workStart_of _ _ _); simpl; [|by left].
  destruct (_ <? _); simpl; [by right|by left].
Qed.

Lemma calls_of_cons sid d c cs :
  calls_of sid d (c :: cs)
  = if decide (call_studentId c = sid ∧ JsDate.dateISO_of (call_time c) = d)
    then c :: calls_of sid d cs else calls_of sid d cs.
Proof. unfold calls_of. by rewrite filter_cons. Qed.

Lemma run_calls_day_record_from (f : CheckInCall → Classification) sid d cs :
  ∀ w e,
    Inv w → is_Some (students w !! sid) → records_for sid d w = [e] →
    (∀ c, classify_call w c = f c) →
    ∃ r,
      records_for sid d (run_calls cs w) = [r] ∧
      Attendance.id r = Attendance.id e ∧
      Attendance.lateMinutes r
      = foldl Z.max (Attendance.lateMinutes e)
          ((λ c, calculatedLateMinutes (f c)) <$> calls_of sid d cs) ∧
      Attendance.status r
      = (if decide (Exists (λ c, actualStatus (f c) = late) (calls_of sid d cs))
         then late else Attendance.status e).
Proof.
  induction cs as [|c cs IH]; intros w e HI Hs Hrec Hf.
  - exists e. unfold calls_of. rewrite filter_nil.
    split; [done|]. split; [done|]. split; [done|].
    destruct (decide _) as [H%Exists_nil|]; done.
  - simpl. rewrite calls_of_cons.
    pose proof (run_call_inv c w HI) as HI1.
    pose proof (run_call_effect c w HI) as Heff.
    assert (∀ c', classify_call (world_of (run_call c w)) c' = f c') as Hf1.
    { intros c'. by rewrite run_call_classify. }
    destruct (checkin_effect_keeps _ _ _ sid d Heff) as [_ Hkeep].
    destruct (decide (call_studentId c = sid
                      ∧ JsDate.dateISO_of (call_time c) = d)) as [[Hsid Hd]|Hother].
    + destruct Hs as [s Hs].
      destruct (repeat_checkin (set_clock (call_time c) w) sid (call_status c)
                  (call_lateMinutes c) s e)
        as (w1 & Hrun & _ & Hrec1 & _).
      { by apply Inv_set_clock. }
      { done. }
      { simpl. by rewrite Hd. }
      unfold run_call in *. rewrite Hsid in *. rewrite Hrun in *. simpl in *.
      rewrite Hd in Hrec1.
      destruct (IH w1 _ HI1 (Hkeep (ex_intro _ s Hs)) Hrec1 Hf1)
        as (r & Hr & Hid & Hlm & Hst).
      exists r. split; [done|]. split; [done|]. split.
      * rewrite Hlm. simpl.
        change (classify_now (set_clock (call_time c) w)) with (classify_call w c).
        by rewrite Hf.
      * rewrite Hst. simpl.
        change (classify_now (set_clock (call_time c) w)) with (classify_call w c).
        rewrite Hf.
        destruct (decide (Exists (λ c0, actualStatus (f c0) = late)
                            (calls_of sid d cs))) as [Hex|Hex].
        -- rewrite decide_True; [done|]. by apply Exists_cons_tl.
        -- destruct (decide (actualStatus (f c) = late)) as [Hl|Hl].
           ++ rewrite decide_True; [done|]. by apply Exists_cons_hd.
           ++ rewrite decide_False; [done|].
              by intros [?|?]%Exists_cons.
    + assert (records_for sid d (world_of (run_call c w)) = [e]) as Hrec1.
      { rewrite (checkin_effect_other _ _ _ sid d Heff); [done|].
        simpl. exact Hother. }
      apply (IH _ e HI1); [|done|done].
      apply Hkeep. done.
Qed.

(** A student without a record of a day has none after any check-ins. *)
Lemma run_calls_no_record sid d cs : ∀ w,
  Inv w → records_for sid d w = [] → records_for sid d (run_calls cs w) = [].
Proof.
  induction cs as [|c cs IH]; intros w HI Hnil; simpl; [done|].
  apply IH; [by apply run_call_inv|].
  pose proof (run_call_effect c w HI) as Heff.
  remember (run_call c w) as o eqn:Ho.
  destruct Heff as [Hs | s e l1 l2 w' Hs He Hl Hl' Hg Hst Henv
                       | s Hs He]; simpl; [done| |done].
  apply head_filter_elem in He as [Hin [Hsid Hd]]. simpl in Hl.
  unfold records_for in *. rewrite Hl', filter_app, filter_cons.
  rewrite Hl, filter_app, filter_cons in Hnil.
  destruct (decide (same_student_date sid d e)) as [Hk|Hk].
  - apply app_eq_nil in Hnil as [_ Hnil]. done.
  - rewrite decide_False; [done|].
    intros [? ?]. apply Hk. split; simpl in *; congruence.
Qed.

(** X14. The record of a student's day holds the maximum lateness over
    all the student's check-ins of that day, whatever other check-ins
    come in between.  Starting from the record of a registered student
    for a date, after any sequence of check-ins the student has one
    record for that date, under the same key; its late minutes are the
    maximum of the stored ones and those the student's check-ins of the
    date were classified with, and its status is late if one of these
    check-ins was late and the stored status otherwise.  Starting
    without a record, the student has none afterwards either. *)
Theorem day_record_holds_maximum w studentId dateISO cs :
  wf_store w → wf_directory w → one_per_day w →
  is_Some (students w !! studentId) →
  (records_for studentId dateISO w = [] →
   records_for studentId dateISO (run_calls cs w) = []) ∧
  (∀ e, records_for studentId dateISO w = [e] →
   ∃ r,
     records_for studentId dateISO (run_calls cs w) = [r] ∧
     Attendance.id r = Attendance.id e ∧
     Attendance.lateMinutes r
     = foldl Z.max (Attendance.lateMinutes e)
         ((λ c, calculatedLateMinutes (classify_call w c))
            <$> calls_of studentId dateISO cs) ∧
     Attendance.status r
     = (if decide (Exists (λ c, actualStatus (classify_call w c) = late)
                     (calls_of studentId dateISO cs))
        then late else Attendance.status e)).
Proof.
  intros Hwf Hdir Hone Hs. assert (Inv w) as HI by done. split.
  - intros Hnil. by apply run_calls_no_record.
  - intros e He.
    by apply (run_calls_day_record_from (classify_call w)).
Qed.

Lemma repeat_record_sane w e : record_sane e → record_sane (repeat_record w e).
Proof.
  intros [Hpos Hzero]. unfold record_sane. simpl.
  pose proof (classify_minutes_nonneg w).
  split; [lia|].
  destruct (decide (actualStatus (classify_now w) = late)) as [Hl|Hl]; [done|].
  intros Hp. rewrite (Hzero Hp).
  unfold classify_now in *. rewrite classify_present_zero by done. done.
Qed.

Lemma checkin_effect_sane w studentId o :
  checkin_effect w studentId o →
  (Forall record_sane (attendance w) →
   Forall record_sane (attendance (world_of o))) ∧
  (∀ r, r ∈ attendance (world_of o) → Attendance.status r = absent →
        ∃ e, e ∈ attendance w ∧ Attendance.id e = Attendance.id r
             ∧ Attendance.status e = absent).
Proof.
  intros Heff.
  destruct Heff as [Hs | s e l1 l2 w' Hs He Hl Hl' Hg Hst Henv
                       | s Hs He]; simpl.
  - split; [done|]. intros r Hr Ha. by exists r.
  - rewrite Hl', Hl. split.
    + rewrite !Forall_app, !Forall_cons. intros (H1 & H2 & H3).
      split; [done|]. split; [by apply repeat_record_sane|done].
    + intros r Hr Ha. apply elem_of_app in Hr as [Hr|Hr].
      * exists r. split; [|done]. apply elem_of_app. by left.
      * apply elem_of_cons in Hr as [->|Hr].
        -- exists e. split.
           { apply elem_of_app. right. apply list_elem_of_here. }
           split; [done|]. simpl in Ha. by destruct (decide _).
        -- exists r. split; [|done]. apply elem_of_app. right.
           by apply list_elem_of_further.
  - split; [done|]. intros r Hr Ha. by exists r.
Qed.

(** X15. Check-ins keep the records within the data model and never
    produce an absence: after any sequence of check-ins, every record
    has non-negative late minutes, and none when its status is present,
    provided the records were so before; and every absent record in the
    store is one that was absent in the store before, under the same
    key. *)
Theorem checkins_keep_records_sane w cs :
  wf_store w → wf_directory w → one_per_day w →
  (Forall record_sane (attendance w) →
   Forall record_sane (attendance (run_calls cs w))) ∧
  (∀ r, r ∈ attendance (run_calls cs w) → Attendance.status r = absent →
        ∃ e, e ∈ attendance w ∧ Attendance.id e = Attendance.id r
             ∧ Attendance.status e = absent).
Proof.
  intros Hwf Hdir Hone. assert (Inv w) as HI by done. clear Hwf Hdir Hone.
  revert w HI. induction cs as [|c cs IH]; intros w HI; simpl.
  - split; [done|]. intros r Hr Ha. by exists r.
  - destruct (checkin_effect_sane _ _ _ (run_call_effect c w HI)) as [H1 H2].
    destruct (IH _ (run_call_inv c w HI)) as [H3 H4].
    split; [by auto|].
    intros r Hr Ha. destruct (H4 r Hr Ha) as (e & He & Hid & Hea).
    destruct (H2 e He Hea) as (e0 & He0 & Hid0 & Hea0).
    exists e0. split; [done|]. split; [congruence|done].
Qed.

End DayRecord.

(** ** Sorting *)

Section Sorting.

Context {A : Type} (before : A → A → bool).



Hypothesis before_total : ∀ x y, before x y = true ∨ before y x = true.
Hypothesis before_trans :
  ∀ x y z, before x y = true → before y z = true → before x z = true.




End Sorting.

(** ** More of the daily statistics *)

Section MoreStats.

Implicit Types (w : World) (r : Attendance.t) (l : list Attendance.t).





(** [getTodayStats] in closed form. *)
Lemma getTodayStats_closed w l :
  records_on (JsDate.dateISO_of (clock w)) w = l →
  getTodayStats w
  = Return
      {| presentCount :=
           Z.of_nat (length (filter (λ a, Attendance.status a = present) l));
         lateCount :=
           Z.of_nat (length (filter (λ a, Attendance.status a = late) l));
         absentCount :=
           Z.of_nat (size (students w))
           - (Z.of_nat (length (filter (λ a, Attendance.status a = present) l))
              + Z.of_nat (length (filter (λ a, Attendance.status a = late) l)));
         attendanceRatio :=
           if 0 <? Z.of_nat (size (students w))
           then percent_round
                  (Z.of_nat (length (filter (λ a, Attendance.status a = present) l))
                   + Z.of_nat (length (filter (λ a, Attendance.status a = late) l)))
                  (Z.of_nat (size (students w)))
           else 0;
         firstStudent := entry_of w <$> head (sort_by_time l);
         lastStudent :=
           match last (sort_by_time l) with
           | Some r =>
               if decide (Attendance.id r ≠ (head (sort_by_time l) ≫= Attendance.id))
               then Some (entry_of w r) else None
           | None => None
           end;
         totalStudents := Z.of_nat (size (students w)) |} w.
Proof.
  intros Hl. unfold records_on in Hl.
  unfold getTodayStats, bind, new_Date, getDayAttendance, getAllStudents,
    gets, ret. simpl.
  rewrite Hl. rewrite getAllStudents_length.
  destruct (head (sort_by_time l)) as [f|] eqn:Hhead;
    destruct (last (sort_by_time l)) as [la|] eqn:Hlast; simpl;
    unfold student_time, bind, getStudent, gets, ret; simpl.
  all: try destruct (decide _); reflexivity.
Qed.



Lemma one_per_day_NoDup (l : list Attendance.t) :
  (∀ sid, (length (filter (λ r, Attendance.studentId r = sid) l) ≤ 1)%nat) →
  NoDup (Attendance.studentId <$> l).
Proof.
  induction l as [|x l IH]; intros Hone; [constructor|].
  rewrite fmap_cons. constructor.
  - intros (y & Hy & Hin)%list_elem_of_fmap.
    specialize (Hone (Attendance.studentId x)).
    rewrite filter_cons, decide_True in Hone by done. simpl in Hone.
    assert (y ∈ filter (λ r, Attendance.studentId r = Attendance.studentId x) l)
      as Hyin by (apply list_elem_of_filter; done).
    destruct (filter _ l); [by apply elem_of_nil in Hyin|simpl in Hone; lia].
  - apply IH. intros sid. specialize (Hone sid). rewrite filter_cons in Hone.
    destruct (decide _); simpl in Hone; lia.
Qed.

Lemma status_counts l :
  (length (filter (λ a, Attendance.status a = present) l)
   + length (filter (λ a, Attendance.status a = late) l)
   = length (filter (λ a, Attendance.status a ≠ absent) l))%nat.
Proof.
  induction l as [|x l IH]; [done|]. rewrite !filter_cons.
  destruct (Attendance.status x); simpl;
    repeat (destruct (decide _); try done); simpl; lia.
Qed.

(** X17. When the store has at most one record per student and day and
    every present or late record of today belongs to a student of the
    directory, the statistics are consistent: present and late students
    together are no more than the directory, so the absent count is not
    negative and the ratio lies between 0 and 100. *)
Theorem getTodayStats_within_bounds w :
  one_per_day w →
  (∀ r, r ∈ records_on (JsDate.dateISO_of (clock w)) w →
        Attendance.status r ≠ absent →
        is_Some (students w !! Attendance.studentId r)) →
  ∃ stats,
    getTodayStats w = Return stats w ∧
    0 ≤ presentCount stats ∧ 0 ≤ lateCount stats ∧
    0 ≤ absentCount stats ∧
    presentCount stats + lateCount stats + absentCount stats
    = totalStudents stats ∧
    0 ≤ attendanceRatio stats ≤ 100.
Proof.
  intros Hone Hknown.
  rewrite (getTodayStats_closed w _ eq_refl).
  set (l := records_on (JsDate.dateISO_of (clock w)) w) in *.
  eexists. split; [reflexivity|]. simpl.
  assert (length (filter (λ a, Attendance.status a ≠ absent) l)
          ≤ size (students w))%nat as Hle.
  { rewrite <- length_map_to_list.
    rewrite <- (length_fmap fst (map_to_list (students w))).
    rewrite <- (length_fmap Attendance.studentId).
    apply submseteq_length, NoDup_submseteq.
    - apply (sublist_NoDup _ (Attendance.studentId <$> l));
        [|apply fmap_sublist, sublist_filter].
      apply one_per_day_NoDup. intros sid.
      specialize (Hone sid (JsDate.dateISO_of (clock w))).
      unfold l, records_on, records_for in *.
      rewrite list_filter_filter.
      erewrite list_filter_iff; [exact Hone|].
      intros r. unfold same_student_date. tauto.
    - intros sid (r & -> & Hr)%list_elem_of_fmap.
      apply list_elem_of_filter in Hr as [Hst Hr].
      destruct (Hknown r Hr Hst) as [s Hs].
      apply list_elem_of_fmap. exists (Attendance.studentId r, s).
      split; [done|]. by apply elem_of_map_to_list. }
  pose proof (status_counts l) as Hcount.
  split; [lia|]. split; [lia|]. split; [lia|]. split; [lia|].
  destruct (Z.ltb_spec 0 (Z.of_nat (size (students w)))); [|lia].
  apply percent_round_bounds; lia.
Qed.

(** X18. The dashboard always fills both highlight cards.  With no
    record today both show "none"; with exactly one record both show
    that student, the last-student card falling back to the first
    student where the statistics carry no last student. *)
Theorem dashboard_highlights w :
  (records_on (JsDate.dateISO_of (clock w)) w = [] →
   updateStudentHighlights w = Return (Some (None, None)) w) ∧
  (∀ r, records_on (JsDate.dateISO_of (clock w)) w = [r] →
        updateStudentHighlights w
        = Return (Some (Some (entry_of w r), Some (entry_of w r))) w).
Proof.
  split.
  - intros Hl. unfold updateStudentHighlights, bind, try_.
    by rewrite (getTodayStats_closed w _ Hl).
  - intros r Hl. unfold updateStudentHighlights, bind, try_.
    rewrite (getTodayStats_closed w _ Hl). simpl.
    rewrite decide_False; [done|]. by intros Hne.
Qed.

End MoreStats.

(** ** Configuration fallbacks *)

Section Configuration.

Implicit Types (w : World) (s : Student.t).

(** A check-in classified present leaves the stored status and late
    minutes of the student's record as they are. *)
Lemma repeat_checkin_present w studentId status lateMinutes e :
  Inv w → is_Some (students w !! studentId) →
  e ∈ records_for studentId (JsDate.dateISO_of (clock w)) w →
  0 ≤ Attendance.lateMinutes e →
  classify_now w = {| actualStatus := present; calculatedLateMinutes := 0 |} →
  ∃ ci w',
    recordAttendance studentId status lateMinutes w = Return ci w' ∧
    isRepeat ci = true ∧
    Attendance.id (record ci) = Attendance.id e ∧
    Attendance.status (record ci) = Attendance.status e ∧
    Attendance.lateMinutes (record ci) = Attendance.lateMinutes e ∧
    students w' = students w.
Proof.
  intros HI [s Hs] Hin Hpos Hc.
  destruct (repeat_checkin w studentId status lateMinutes s e HI Hs)
    as (w' & Hrun & _ & _ & Hst & _).
  { apply records_for_single; [apply HI|done]. }
  eexists _, w'. split; [exact Hrun|]. simpl. rewrite Hc. simpl.
  repeat (split; [done|]). split; [lia|done].
Qed.

(** A text without a colon names no minutes: the work start date is
    invalid. *)
Lemma split_without_separator sep ws :
  (∀ c, c ∈ list_ascii_of_string ws → c ≠ sep) → JsString.split sep ws = [ws].
Proof.
  induction ws as [|c ws IH]; intros Hno; simpl; [done|].
  rewrite IH.
  - destruct (Ascii.eqb_spec c sep) as [->|_]; [|done].
    exfalso. apply (Hno sep); [|done]. simpl. apply list_elem_of_here.
  - intros c' Hc'. apply Hno. simpl. by apply list_elem_of_further.
Qed.

Lemma workStart_without_colon tz t ws :
  (∀ c, c ∈ list_ascii_of_string ws → c ≠ ":"%char) →
  workStart_of tz t ws = None.
Proof.
  intros Hno. unfold workStart_of. rewrite split_without_separator by done.
  simpl. unfold JsDate.setHoursN, JsDate.MakeTimeN. simpl.
  by destruct (JsNumber.truncate (JsString.Number ws)).
Qed.

(** X19. A configured threshold of 0 minutes is not used: the check-in
    replaces it by 15.  With that setting, the check-in of a registered
    student who has a record today (with late minutes that are not
    negative), made up to 15 minutes after the work start, is a repeat
    that leaves the status and the late minutes of the record as they
    were stored and does not write the directory, although the
    classifier itself, given the threshold 0, calls any check-in after
    the work start late. *)
Theorem zero_threshold_becomes_fifteen w studentId status lateMinutes start e :
  wf_store w → wf_directory w → one_per_day w →
  is_Some (students w !! studentId) →
  e ∈ records_for studentId (JsDate.dateISO_of (clock w)) w →
  0 ≤ Attendance.lateMinutes e →
  Settings.lateThresholdMin (default getDefaultSettings (settings w)) = 0 →
  workStart_of (tzOffsetMin w) (clock w) (effective_workStart w) = Some start →
  clock w ≤ start + 15 * JsDate.msPerMinute →
  effective_threshold w = 15 ∧
  (∃ ci w',
     recordAttendance studentId status lateMinutes w = Return ci w' ∧
     isRepeat ci = true ∧
     Attendance.id (record ci) = Attendance.id e ∧
     Attendance.status (record ci) = Attendance.status e ∧
     Attendance.lateMinutes (record ci) = Attendance.lateMinutes e ∧
     students w' = students w) ∧
  (start < clock w →
   actualStatus (calculateAttendanceStatus (tzOffsetMin w) (clock w)
                   (effective_workStart w) 0) = late).
Proof.
  intros Hwf Hdir Hone Hs Hin Hpos Hzero Hstart Hle.
  assert (Inv w) as HI by done.
  assert (effective_threshold w = 15) as Hthr
    by (unfold effective_threshold; by rewrite Hzero).
  assert (classify_now w
          = {| actualStatus := present; calculatedLateMinutes := 0 |}) as Hc.
  { unfold classify_now. rewrite Hthr.
    by apply (classify_not_after _ _ _ _ start). }
  split; [done|]. split.
  - by apply repeat_checkin_present.
  - intros Hlt. rewrite (classify_after _ _ _ _ start); [done..|].
    unfold JsDate.msPerMinute. lia.
Qed.

(** X20. A work start time that gives no valid date is not reported.  A
    text without a colon is such a time, whatever the host and the
    instant.  With such a setting every check-in, at whatever time, is
    classified present with no late minutes; the check-in of a
    registered student who has a record today (with late minutes that
    are not negative) is a repeat that leaves the status and the late
    minutes of the record as they were stored, and does not write the
    directory. *)
Theorem unreadable_work_start_is_never_late w studentId status lateMinutes e :
  wf_store w → wf_directory w → one_per_day w →
  is_Some (students w !! studentId) →
  e ∈ records_for studentId (JsDate.dateISO_of (clock w)) w →
  0 ≤ Attendance.lateMinutes e →
  workStart_of (tzOffsetMin w) (clock w) (effective_workStart w) = None →
  ((∀ c, c ∈ list_ascii_of_string (effective_workStart w) → c ≠ ":"%char) →
   ∀ tz t, workStart_of tz t (effective_workStart w) = None) ∧
  classify_now w = {| actualStatus := present; calculatedLateMinutes := 0 |} ∧
  ∃ ci w',
    recordAttendance studentId status lateMinutes w = Return ci w' ∧
    isRepeat ci = true ∧
    Attendance.id (record ci) = Attendance.id e ∧
    Attendance.status (record ci) = Attendance.status e ∧
    Attendance.lateMinutes (record ci) = Attendance.lateMinutes e ∧
    students w' = students w.
Proof.
  intros Hwf Hdir Hone Hs Hin Hpos Hbad.
  assert (Inv w) as HI by done.
  assert (classify_now w
          = {| actualStatus := present; calculatedLateMinutes := 0 |}) as Hc.
  { unfold classify_now, calculateAttendanceStatus. by rewrite Hbad. }
  split; [|split; [done|]].
  - intros Hno tz t. by apply workStart_without_colon.
  - by apply repeat_checkin_present.
Qed.

End Configuration.

(** ** History *)

Section History.

Implicit Types (w : World) (r : Attendance.t) (l : list Attendance.t).





End History.

(** ** Date ranges and the summary *)

Section Summaries.

Implicit Types (w : World) (r : Attendance.t) (l rs : list Attendance.t)
  (m : gmap SummaryKey Summary.t).

(** On a host at a fixed offset the next local day is 24 hours on. *)
Lemma next_day_fixed tz t : next_day tz t = t + JsDate.msPerDay.
Proof.
  unfold next_day, JsDate.UTC, JsDate.MakeDate, JsDate.Day, JsDate.LocalTime,
    JsDate.msPerDay.
  pose proof (Z.div_mod (t + tz * JsDate.msPerMinute) 86400000).
  lia.
Qed.

Lemma getDateRange_loop_stop tz current end_ dates :
  end_ < current → getDateRange_loop tz current end_ dates = dates.
Proof.
  intros Hlt. rewrite getDateRange_loop_equation_1.
  destruct (decide (current ≤ end_)); [lia|done].
Qed.

Lemma getDateRange_loop_step tz current end_ dates :
  current ≤ end_ →
  getDateRange_loop tz current end_ dates
  = match JsDate.TimeClip (current + JsDate.msPerDay) with
    | Some _ =>
        getDateRange_loop tz (current + JsDate.msPerDay) end_
          (dates ++ [JsDate.dateISO_of current])
    | None => dates ++ [JsDate.dateISO_of current]
    end.
Proof.
  intros Hle. rewrite getDateRange_loop_equation_1.
  destruct (decide (current ≤ end_)); [|lia]. simpl.
  rewrite next_day_fixed.
  destruct (JsDate.TimeClip _); simpl; by rewrite ?next_day_fixed.
Qed.

Lemma getDateRange_loop_spec tz n : ∀ current end_ dates,
  - 100000000 ≤ current → end_ ≤ 100000000 →
  Z.to_nat (end_ + 1 - current) = n →
  getDateRange_loop tz (current * JsDate.msPerDay) (end_ * JsDate.msPerDay) dates
  = dates ++ seqZ current (end_ + 1 - current).
Proof.
  induction n as [|n IH]; intros current end_ dates Hlo Hhi Hn.
  - rewrite getDateRange_loop_stop by (unfold JsDate.msPerDay; lia).
    rewrite seqZ_nil by lia. by rewrite app_nil_r.
  - rewrite getDateRange_loop_step by (unfold JsDate.msPerDay; lia).
    assert (JsDate.dateISO_of (current * JsDate.msPerDay) = current) as ->.
    { unfold JsDate.dateISO_of, JsDate.Day. by rewrite Z.div_mul. }
    assert (current * JsDate.msPerDay + JsDate.msPerDay
            = (current + 1) * JsDate.msPerDay) as -> by lia.
    rewrite (seqZ_cons current) by lia.
    replace (Z.pred (end_ + 1 - current)) with (end_ + 1 - (current + 1)) by lia.
    replace (Z.succ current) with (current + 1) by lia.
    unfold JsDate.TimeClip.
    destruct (Z.leb_spec (Z.abs ((current + 1) * JsDate.msPerDay)) JsDate.maxTime)
      as [Hin|Hout].
    + rewrite IH by lia. by rewrite <- app_assoc.
    + assert (end_ = current) as ->
        by (unfold JsDate.msPerDay, JsDate.maxTime in Hout; lia).
      rewrite seqZ_nil by lia. done.
Qed.

Lemma getDateRange_seqZ tz startDate endDate :
  Z.abs startDate ≤ 100000000 → Z.abs endDate ≤ 100000000 →
  getDateRange tz startDate endDate
  = seqZ startDate (endDate - startDate + 1).
Proof.
  intros Hs He. unfold getDateRange, JsDate.TimeClip, JsDate.maxTime.
  destruct (Z.leb_spec (Z.abs (startDate * JsDate.msPerDay)) 8640000000000000);
    [|unfold JsDate.msPerDay in *; lia].
  destruct (Z.leb_spec (Z.abs (endDate * JsDate.msPerDay)) 8640000000000000);
    [|unfold JsDate.msPerDay in *; lia].
  rewrite (getDateRange_loop_spec tz _ startDate endDate [] ltac:(lia)
             ltac:(lia) eq_refl).
  simpl. f_equal. lia.
Qed.


(** X22. On a host whose offset from UTC is fixed (the clock does not
    change between the two dates), whatever the offset, and for dates
    within the range of time values (100,000,000 days either side of
    the epoch), [getDateRange] lists the days from the start date to the
    end date, both included, in ascending order and without repetition;
    it is empty when the end date is before the start date, and
    otherwise has one entry more than the distance between the dates. *)
Theorem getDateRange_days tz startDate endDate :
  Z.abs startDate ≤ 100000000 → Z.abs endDate ≤ 100000000 →
  getDateRange tz startDate endDate
  = seqZ startDate (endDate - startDate + 1) ∧
  (∀ d, d ∈ getDateRange tz startDate endDate ↔ startDate ≤ d ≤ endDate) ∧
  Z.of_nat (length (getDateRange tz startDate endDate))
  = Z.max 0 (endDate - startDate + 1) ∧
  NoDup (getDateRange tz startDate endDate) ∧
  (endDate < startDate → getDateRange tz startDate endDate = []).
Proof.
  intros Hs He. rewrite getDateRange_seqZ by done.
  split; [done|]. split; [|split; [|split]].
  - intros d. rewrite elem_of_seqZ. lia.
  - rewrite length_seqZ. lia.
  - apply NoDup_seqZ.
  - intros Hlt. apply seqZ_nil. lia.
Qed.


Lemma count_entry_nil e : count_entry e [] = e.
Proof.
  destruct e. unfold count_entry, late_minutes_sum. simpl. f_equal; lia.
Qed.








End Summaries.

(** ** Range queries *)

Section RangeQuery.

Implicit Types (w : World) (r : Attendance.t) (l : list Attendance.t).

#[local] Set Warnings "-clear-no-such-hyp".








End RangeQuery.

(** ** More of the school morning *)

Lemma world_after_morning_inv : Inv world_after_morning.
Proof.
  apply run_calls_inv, marked_absent_inv, marked_absent_inv, morning_world_inv.
Qed.

Lemma world_after_morning_today :
  (λ r, (Attendance.studentId r, Attendance.status r))
    <$> records_on (JsDate.dateISO_of (clock world_after_morning))
          world_after_morning
  = [("S1", absent); ("S2", late)].
Proof. vm_compute. reflexivity. Qed.

Lemma addStudent_stores_new_student_witness :
  ∃ s w',
    addStudent input_S4 morning_world = Return ("S4", s) w' ∧
    students w' !! "S4" = Some s ∧
    Student.lateDays s = 0 ∧
    size (students w') = 4%nat.
Proof.
  destruct (addStudent_stores_new_student morning_world input_S4)
    as (s & w' & Hrun & Hlook & _ & _ & _ & _ & Hdays & _ & _ & Hsize & _);
    [done..|].
  exists s, w'. split; [exact Hrun|]. split; [exact Hlook|].
  split; [exact Hdays|]. rewrite Hsize. reflexivity.
Defined.

Lemma addStudent_rejects_witness :
  addStudent input_nameless morning_world
  = Throw msg_student_fields_required morning_world ∧
  addStudent input_S1_again morning_world
  = Throw msg_student_id_exists morning_world.
Proof.
  split.
  - apply (addStudent_rejects morning_world input_nameless).
    right. left. reflexivity.
  - apply (addStudent_rejects morning_world input_S1_again); [done..|].
    exists student_S1. reflexivity.
Defined.

Lemma deleteStudent_keeps_attendance_witness :
  deleteStudent "S9" morning_world = Return tt morning_world ∧
  ∃ w',
    deleteStudent "S1" world_after_S1 = Return tt w' ∧
    students w' !! "S1" = None ∧
    attendance w' = attendance world_after_S1 ∧
    recordAttendance "S1" "present" 0 w' = Throw msg_student_not_found w'.
Proof.
  split.
  - apply (deleteStudent_keeps_attendance morning_world "S9"). reflexivity.
  - destruct (deleteStudent_keeps_attendance world_after_S1 "S1") as [_ Hknown].
    destruct Hknown as (w' & Hrun & Hgone & _ & _ & Hatt & Hthrow).
    + exists student_S1. vm_compute. reflexivity.
    + exists w'. split; [exact Hrun|]. split; [exact Hgone|].
      split; [exact Hatt|]. apply Hthrow.
Defined.

Lemma addStudent_deleteStudent_round_trip_witness :
  ∃ w',
    (addStudent input_S4 ;;; deleteStudent "S4") morning_world = Return tt w' ∧
    students w' = students morning_world.
Proof.
  destruct (addStudent_deleteStudent_round_trip morning_world input_S4)
    as (w' & Hrun & Hst & _); [done..|].
  exists w'. split; [exact Hrun | exact Hst].
Defined.

Lemma bulkDeleteStudents_always_succeeds_witness :
  ∃ out w',
    bulkDeleteStudents ["S1"; "S9"] morning_world = Return out w' ∧
    successCount out = 2%nat ∧ errors out = [] ∧
    students w' !! "S1" = None ∧
    students w' !! "S2" = Some student_S2.
Proof.
  destruct (bulkDeleteStudents_always_succeeds morning_world ["S1"; "S9"])
    as (out & w' & Hrun & _ & Herr & Hcount & Hin & Hout & _).
  exists out, w'. split; [exact Hrun|]. split; [exact Hcount|].
  split; [exact Herr|]. split.
  - apply Hin. apply list_elem_of_here.
  - rewrite Hout; [reflexivity|].
    intros Hin'. repeat (apply elem_of_cons in Hin' as [Heq|Hin']; [discriminate|]).
    by apply elem_of_nil in Hin'.
Defined.

Lemma updateStudent_merges_witness :
  ∃ s w',
    updateStudent "S2" updates_lateDays_3 morning_world = Return ("S2", s) w' ∧
    students w' !! "S2" = Some s ∧
    Student.lateDays s = 3 ∧
    Student.name s = "Student Two".
Proof.
  destruct (updateStudent_merges morning_world "S2" student_S2 updates_lateDays_3)
    as (s & w' & Hrun & Hlook & _ & Hname & _ & _ & _ & Hdays & _).
  - apply morning_world_directory.
  - reflexivity.
  - left. reflexivity.
  - exists s, w'. split; [exact Hrun|]. split; [exact Hlook|].
    split; [exact Hdays | exact Hname].
Defined.

Lemma updateStudent_rejects_witness :
  updateStudent "S9" updates_lateDays_3 morning_world
  = Throw msg_student_not_found morning_world ∧
  updateStudent "S1" (updates_id "S2") morning_world
  = Throw msg_student_id_taken morning_world.
Proof.
  split.
  - apply (updateStudent_rejects morning_world "S9" updates_lateDays_3).
    reflexivity.
  - apply (updateStudent_rejects morning_world "S1" (updates_id "S2") ) with "S2";
      [|done..|].
    + exists student_S1. reflexivity.
    + exists student_S2. reflexivity.
Defined.

Lemma updateStudent_rename_moves_attendance_witness :
  ∃ s w',
    updateStudent "S2" (updates_id "S7") world_0735 = Return ("S7", s) w' ∧
    students w' !! "S2" = None ∧
    students w' !! "S7" = Some s ∧
    Attendance.studentId <$> attendance w' = ["S7"].
Proof.
  destruct (updateStudent_rename_moves_attendance world_0735 "S2" "S7"
              student_S2 (updates_id "S7"))
    as (s & w' & Hrun & Hgone & Hnew & _ & _ & _ & Hids & _).
  - apply world_0735_inv.
  - done.
  - vm_compute. reflexivity.
  - reflexivity.
  - done.
  - done.
  - vm_compute. reflexivity.
  - exists s, w'. split; [exact Hrun|]. split; [exact Hgone|].
    split; [exact Hnew|]. rewrite Hids. vm_compute. reflexivity.
Defined.

Lemma QR_code_round_trip_witness :
  ∃ c,
    generateQRData "S2" morning_world = Return c morning_world ∧
    CodeData.data c = "HADER:S2" ∧
    getStudentByCode (CodeData.data c) morning_world
    = Return (Some student_S2) morning_world.
Proof.
  destruct (QR_code_round_trip morning_world "S2") as (c & Hgen & Hlook).
  - right. split; [done|reflexivity].
  - exists c. split; [exact Hgen|]. split.
    + revert Hgen. unfold generateQRData, bind, new_Date, gets, ret.
      intros [= <-]. reflexivity.
    + exact Hlook.
Defined.

Lemma barcode_round_trip_witness :
  ∃ c,
    generateBarcodeData "S2" morning_world = Return c morning_world ∧
    CodeData.data c = "000000S2" ∧
    getStudentByCode (CodeData.data c) morning_world
    = Return (Some student_S2) morning_world.
Proof.
  destruct (barcode_round_trip morning_world "S2") as (c & Hgen & Hlook).
  - right. split; [done|reflexivity].
  - reflexivity.
  - exists c. split; [exact Hgen|]. split.
    + revert Hgen. unfold generateBarcodeData, bind, new_Date, gets, ret.
      intros [= <-]. reflexivity.
    + exact Hlook.
Defined.

Lemma leading_zero_id_lookup_witness :
  ∃ id' q,
    id' ≠ "007" ∧
    generateQRData "007" morning_world = Return q morning_world ∧
    getStudentByCode (CodeData.data q) morning_world
    = Return (students morning_world !! id') morning_world.
Proof.
  destruct (leading_zero_id_lookup morning_world "007")
    as (id' & q & b & Hne & _ & Hq & _ & Hlook & _); [reflexivity|done|].
  exists id', q. split; [exact Hne|]. split; [exact Hq | exact Hlook].
Defined.

Lemma absent_then_checkin_witness :
  ∃ a w1 ci w2,
    markAbsent "S3" (JsDate.dateISO_of (local_instant 7 20)) None "sick"
      morning_world = Return (Success a) w1 ∧
    recordAttendance "S3" "present" 0 (set_clock (local_instant 7 20) w1)
    = Return ci w2 ∧
    isRepeat ci = true ∧
    Attendance.id (record ci) = Attendance.id a ∧
    Attendance.status (record ci) = late ∧
    Attendance.lateMinutes (record ci) = 20.
Proof.
  destruct (absent_then_checkin morning_world "S3" None "sick" "present" 0
              (local_instant 7 20))
    as (a & w1 & ci & w2 & Hm & Hr & Hrep & Hid & Hst & Hlm & _).
  - apply morning_world_store.
  - apply morning_world_directory.
  - apply morning_world_one_per_day.
  - exists student_S3. reflexivity.
  - reflexivity.
  - exists a, w1, ci, w2. split; [exact Hm|]. split; [exact Hr|].
    split; [exact Hrep|]. split; [exact Hid|].
    rewrite Hst, Hlm. split; vm_compute; reflexivity.
Defined.

Lemma bulkMarkAbsent_marks_each_once_witness :
  ∃ res w',
    bulkMarkAbsent ["S1"; "S3"; "S1"] 20000 None "trip" morning_world
    = Return res w' ∧
    res.*2 = ["S1"; "S3"; "S1"] ∧
    length (records_for "S1" 20000 w') = 1%nat ∧
    length (records_for "S3" 20000 w') = 1%nat ∧
    bulkMarkAbsent ["S1"; "S3"; "S1"] 20000 None "again" (set_clock 60000 w')
    = Return (refused <$> ["S1"; "S3"; "S1"]) (set_clock 60000 w').
Proof.
  destruct (bulkMarkAbsent_marks_each_once morning_world ["S1"; "S3"; "S1"]
              20000 None "trip")
    as (res & extra & w' & Hrun & Hids & _ & _ & _ & Hone & _ & _ & Hagain).
  - apply morning_world_store.
  - apply morning_world_directory.
  - apply morning_world_one_per_day.
  - exists res, w'. split; [exact Hrun|]. split; [exact Hids|].
    split; [apply Hone, list_elem_of_here|].
    split; [apply Hone, list_elem_of_further, list_elem_of_here|].
    apply Hagain.
Defined.

Lemma day_record_holds_maximum_witness :
  records_for "S3" 20000 world_after_morning = [] ∧
  ∃ r,
    records_for "S2" 20000 world_after_morning = [r] ∧
    Attendance.lateMinutes r = 35 ∧
    Attendance.status r = late.
Proof.
  split.
  - destruct (day_record_holds_maximum roll_S1_S2 "S3" 20000 morning_calls)
      as [Hnone _].
    + apply marked_absent_inv, marked_absent_inv, morning_world_inv.
    + apply marked_absent_inv, marked_absent_inv, morning_world_inv.
    + apply marked_absent_inv, marked_absent_inv, morning_world_inv.
    + exists student_S3. reflexivity.
    + apply Hnone. reflexivity.
  - destruct (day_record_holds_maximum roll_S1_S2 "S2" 20000 morning_calls)
      as [_ Hkept].
    + apply marked_absent_inv, marked_absent_inv, morning_world_inv.
    + apply marked_absent_inv, marked_absent_inv, morning_world_inv.
    + apply marked_absent_inv, marked_absent_inv, morning_world_inv.
    + exists student_S2. reflexivity.
    + destruct (Hkept (absent_record
                         (set_clock (local_instant 6 0) roll_S1) "S2" 20000
                         None "")) as (r & Hr & _ & Hlm & Hst).
      * reflexivity.
      * exists r. split; [exact Hr|]. rewrite Hlm, Hst.
        split; vm_compute; reflexivity.
Defined.

Lemma checkins_keep_records_sane_witness :
  Forall record_sane (attendance world_after_morning).
Proof.
  destruct (checkins_keep_records_sane roll_S1_S2 morning_calls) as [Hsane _].
  - apply marked_absent_inv, marked_absent_inv, morning_world_inv.
  - apply marked_absent_inv, marked_absent_inv, morning_world_inv.
  - apply marked_absent_inv, marked_absent_inv, morning_world_inv.
  - apply Hsane. vm_compute. repeat constructor; vm_compute; done.
Defined.


Lemma getTodayStats_within_bounds_witness :
  ∃ stats,
    getTodayStats world_after_morning = Return stats world_after_morning ∧
    presentCount stats + lateCount stats + absentCount stats
    = totalStudents stats ∧
    0 ≤ attendanceRatio stats ≤ 100.
Proof.
  destruct (getTodayStats_within_bounds world_after_morning)
    as (stats & Hrun & _ & _ & _ & Hsum & Hratio).
  - apply world_after_morning_inv.
  - intros r Hr _. vm_compute in Hr.
    repeat (apply elem_of_cons in Hr as [->|Hr];
            [vm_compute; eexists; reflexivity|]).
    by apply elem_of_nil in Hr.
  - exists stats. split; [exact Hrun|]. split; [exact Hsum | exact Hratio].
Defined.

Lemma dashboard_highlights_witness :
  updateStudentHighlights morning_world
  = Return (Some (None, None)) morning_world ∧
  ∃ r,
    Attendance.studentId r = "S1" ∧
    updateStudentHighlights world_after_S1
    = Return (Some (Some (entry_of world_after_S1 r),
                    Some (entry_of world_after_S1 r))) world_after_S1.
Proof.
  split.
  - apply (dashboard_highlights morning_world). reflexivity.
  - destruct world_after_S1_records as (r & Hr & Hid).
    exists r. split; [exact Hid|].
    apply (dashboard_highlights world_after_S1), Hr.
Defined.

Lemma roll_S1_inv : Inv roll_S1.
Proof. apply marked_absent_inv, morning_world_inv. Qed.

Lemma zero_threshold_becomes_fifteen_witness :
  effective_threshold zero_threshold_world = 15 ∧
  (∃ ci w',
     recordAttendance "S1" "late" 40 zero_threshold_world = Return ci w' ∧
     isRepeat ci = true ∧
     Attendance.status (record ci) = absent ∧
     Attendance.lateMinutes (record ci) = 0) ∧
  actualStatus
    (calculateAttendanceStatus (tzOffsetMin zero_threshold_world)
       (clock zero_threshold_world)
       (effective_workStart zero_threshold_world) 0) = late.
Proof.
  destruct (zero_threshold_becomes_fifteen zero_threshold_world "S1" "late" 40
              (local_instant 7 0) record_S1_absent)
    as (Hthr & (ci & w' & Hrun & Hrep & _ & Hst & Hlm & _) & Hlate).
  - exact (inv_store _ roll_S1_inv).
  - exact (inv_directory _ roll_S1_inv).
  - exact (inv_one_per_day _ roll_S1_inv).
  - exists student_S1. reflexivity.
  - change (record_S1_absent ∈ [record_S1_absent]). apply list_elem_of_here.
  - by vm_compute.
  - reflexivity.
  - reflexivity.
  - by vm_compute.
  - split; [exact Hthr|]. split.
    + exists ci, w'. split; [exact Hrun|]. split; [exact Hrep|].
      split; [exact Hst | exact Hlm].
    + apply Hlate. reflexivity.
Defined.

Lemma unreadable_work_start_is_never_late_witness :
  workStart_of 0 0 "7h" = None ∧
  ∃ ci w',
    recordAttendance "S1" "late" 40 unreadable_start_world = Return ci w' ∧
    isRepeat ci = true ∧
    Attendance.status (record ci) = absent ∧
    Attendance.lateMinutes (record ci) = 0.
Proof.
  destruct (unreadable_work_start_is_never_late unreadable_start_world "S1"
              "late" 40 record_S1_absent)
    as (Hany & _ & ci & w' & Hrun & Hrep & _ & Hst & Hlm & _).
  - exact (inv_store _ roll_S1_inv).
  - exact (inv_directory _ roll_S1_inv).
  - exact (inv_one_per_day _ roll_S1_inv).
  - exists student_S1. reflexivity.
  - change (record_S1_absent ∈ [record_S1_absent]). apply list_elem_of_here.
  - by vm_compute.
  - reflexivity.
  - split.
    + apply Hany. intros c Hc. simpl in Hc.
      repeat (apply elem_of_cons in Hc as [->|Hc]; [done|]).
      by apply elem_of_nil in Hc.
    + exists ci, w'. split; [exact Hrun|]. split; [exact Hrep|].
      split; [exact Hst | exact Hlm].
Defined.


Lemma getDateRange_days_witness :
  getDateRange 180 19998 20000 = [19998; 19999; 20000] ∧
  getDateRange (-300) 20000 19998 = [].
Proof.
  split.
  - rewrite (proj1 (getDateRange_days 180 19998 20000 ltac:(lia) ltac:(lia))).
    reflexivity.
  - apply (getDateRange_days (-300) 20000 19998); lia.
Defined.


